(* ===== verification/_CoqProject ===== *)
-Q . S2P
Prelude.v
Clock.v
JsString.v
Station.v
SmartQueue.v
Store.v
Loaders.v
Handlers.v
Invariants.v
Status.v
ListView.v
Api.v
Theme.v
Tracker.v
Variants.v
PullRefresh.v
Distance.v
Views.v
TrackerView.v
