(* ===== verification/Prelude.v ===== *)
(** * A verification development for fuel_station_tracker (CNGFlow)

    The repository is a browser application that shows CNG fuel stations
    on a map with the length of their queues.  It has three source files:

    - [src/public/app.js], class [CNGFlowApp]: the richer variant.  It
      keeps the station list [this.pumps], the Leaflet markers
      [this.markers], the favourites and the user's points (both mirrored
      to [localStorage]).  It loads stations from OpenStreetMap, from a
      curated list or from sample data.  Its core logic is the heuristic
      [calculateSmartQueueStatus]: it blends a stale reading with an
      hour-of-day history and a peak-hour multiplier.  Its handlers are
      submitting a queue update, toggling a favourite, sorting and
      filtering the list, and searching.
    - [src/src/app.js], class [CNGTrackerApp]: the simpler variant with
      the same handlers and no prediction.
    - [src/src/services/api.js], class [ApiService]: a REST and WebSocket
      client holding an auth token.

    ** How the development is organised

    The library root is this file.  Files and what they model:
    - [Prelude] (this file): the model of JavaScript numbers the code
      computes with ([jsval]: a rational, [undefined] or [NaN]);
      [Math.round], [Math.min], [Math.max] and the comparison operators on
      it; the tactics and the hint database [js] shared by all files.
    - [Clock]: [Date.prototype.getHours] and [getDay] over an instant in
      milliseconds with its local offset, and their range lemmas.
    - [Station]: the pump record of [app.js] (the fields the code reads
      and writes), the status and density enumerations, and the status
      rule [queueLength <= 5 ? 'green' : ...] of [submitQueueUpdate].
    - [JsString]: [toLowerCase], [includes], [join], the truthiness of a
      string and [String(n)], on the inputs the code gives them.
    - [SmartQueue] (Module [SmartQueue]): [calculateTrafficDensity],
      [calculateSmartQueueStatus] (with its writes to the pump) and the
      status and label choice of [getMarkerIcon].  Claims C1-C10: the
      behaviour on each branch (fresh reading, stale reading with history,
      blend, no data), the confidence bounds, monotonicity in the reading,
      and where the code departs from the spec (peak scaling of direct
      readings, confidence above 100 for future dates, NaN on a short
      history, green pins for stations never observed).
    - [Store]: the [CNGFlowApp] state.  The pump objects live in a heap
      ([gmap positive Pump]); [this.pumps] is a list of references and
      [this.selectedPump] one more, so that the objects a handler mutates
      alias as they do in JavaScript.  [this.markers] is the set of ids
      that have a marker; [icons] and [popups] keep, for each marker, the
      instant and the copy of the pump its icon and its popup were last
      rendered from, as Leaflet keeps the HTML strings ([set_icon],
      [set_popup]).  [localStorage] is a record of its four keys.
      A handler's result is [Done s] or [Threw error s]: a throw keeps
      the writes done before it.  [wf] is the well-formedness of the
      references.
    - [Loaders] (Module [Loaders]): [loadSampleData] with its twelve
      literal pumps, [loadKnownCNGStations], [loadRealCNGStations] with
      the Overpass answer as an input (failure, elements or none),
      [formatAddress], [addPumpMarkers] and [updateDistances] (a stable
      insertion sort, as [Array.prototype.sort] is stable), and
      [extractBrand], which no code calls.  Claim
      C14: which Overpass elements become stations.
    - [Handlers] (Module [Handlers]): [showPumpDetails],
      [showUpdateModal], [submitQueueUpdate], [toggleFavorite],
      [refreshData] (the random numbers as an input per pump),
      [handleNavigation], [showFavorites], [showNearestPumpForUpdate],
      the geolocation callbacks of [init], [requestUserLocation] (its
      notification and the callbacks it registers, run by
      [run_geo_callback]); the events of [bindEvents] as a type [Event]
      and one event run to completion as [step].  Every call of
      [setIcon], [bindPopup] and [setPopupContent] updates the marker
      layer.  Claims C22, C24, C25: the update handler on its error and
      success paths, and toggling a favourite twice.
    - [Invariants] (Module [Invariants]): [reachable], the closure of
      [step] from the constructor; frame lemmas (which handlers leave
      the favourites, points and storage alone) and the invariants of
      reachable states by rule induction on [reachable]:
      well-formedness of the references, [localStorage] mirroring the
      favourites and points (C18), no duplicate favourites and the limit
      of three without premium (C19), and the
      fallback path that leaves the samples without markers, where C22
      makes every update throw.  The geolocation callbacks keep a state
      reachable.  Along any run of events from the constructor the
      points are the stored points plus exactly ten per report that
      passes every guard of [submitQueueUpdate] ([reports] counts them,
      C21).
    - [Status] (Module [Status]): a predicate on pumps that the writes
      of the code keep and the loaders establish holds of every object
      of the heap of every reachable state ([reachable_good], one lemma
      per loader and handler).  Two instances: every pump has the status
      of its queue length (C26), and every history has 24 entries or
      none, so the prediction of every pump is a number at every instant
      (C16).
    - [ListView] (Module [ListView]): [getQueueText], [getTimeAgo],
      [updatePumpsList] (status filter, then the stable sort by the
      comparator's key) and [handleSearch].  Claims C27 and C30-C32: the
      ['1 days ago'] plural and the epoch age of never-updated stations,
      the list's contents and order, the [|| 999] key that sorts empty queues last,
      and what a search lists.
    - [Views] (Module [Views]): what the map and the list show: the pin
      of [getMarkerIcon], [createPopupContent] and [createPumpCard] as
      records of the values their templates interpolate, and the icon
      and popup of each marker rendered from the layer of [Store].  An
      accepted report redraws the icon from the new reading but the
      popup only when it is open (C23); [refreshData] redraws no popup.
    - [Api] (Module [Api], [src/src/services/api.js]): JSON values,
      [request] with its header object and the server as a function
      from the request to the response, the token and its
      [localStorage] copy through [setAuthToken], [login], [register],
      [logout] and a reload, and [connectWebSocket] whose script load is
      a separate event; the socket emits of [joinLocationRoom] and
      [emitQueueUpdate]; the base URL [process.env.API_URL || ...].
      Claims C12 ([setAuthToken(null)] leads to [Bearer null] after a
      reload), C33-C37 and C39.
    - [Theme] (Module [Theme]): [initTheme], [updateThemeIcon], the
      system-preference listener and the theme toggle, over the
      [data-theme] attribute, the icon and the [theme] key of the
      storage.  Once a theme is stored, a reload shows it again with its
      icon (C40).  The page's handlers and the toggle write disjoint keys
      of the shared [localStorage], so C18 and C40 compose.
    - [Tracker] (Module [Tracker], [src/src/app.js]): the
      [CNGTrackerApp] variant on the same state [App]: [init] with its
      five samples and their markers, its own [showPumpDetails],
      [showUpdateModal], [submitQueueUpdate] (no traffic density),
      [toggleFavorite], the geolocation callback with [updateDistances],
      [handleNavigation]; its events [TEvent], [tstep] and [treachable].
      The invariant [tinv] (every listed pump has its marker, the
      selection is a live reference) holds in every reachable state, so
      an update of a selected pump never throws there (C15), unlike C22.
    - [PullRefresh] (Module [PullRefresh]): the pull-to-refresh gesture
      of [initPullToRefresh] as a state machine: its closure variables,
      the indicator's classes, text and offset, and the pending
      [setTimeout] callbacks, each of which runs [refreshData] on the
      page.  The indicator rests whenever no finger is down and nothing
      is pending (C11); lifting the finger and running the pending
      callbacks always refreshes and brings it back to rest (C28, a
      liveness property stated as an explicit finite continuation of
      browser events); the callbacks terminate, as one-shot timers (a
      well-founded relation).  The code never calls
      [initPullToRefresh].
    - [Variants] (Module [Variants]): what the two variants share,
      against one specification.  [abs] maps a page to what the user
      sees of it (the reading of each id as [this.pumps.find] gives it,
      the ids, the points and the stored points); [abs_update] is the
      specification of an accepted report; [UpdateHandler] is the
      interface of a report handler and [refines_update] its contract,
      which both [submitQueueUpdate]s meet (C20, a refinement); the
      two [toggleFavorite]s are equivalent on every input (C13).
    - [Distance] (Module [Distance]): [calculateDistance], the haversine
      formula over the Standard Library's reals with [Math.round] as
      [floor(x + 1/2)]; its result [n / 10] is a [Q].  With it,
      [updateDistances] sorts the pumps from the nearest and gives the
      pump at the user's location the distance [0] (C29).
    - [TrackerView] (Module [TrackerView], [src/src/app.js]): the
      rendering of [CNGTrackerApp]: the marker colour, the popup, the
      five emoji templates of [getQueueText], [getTimeAgo], the cards,
      [updatePumpsList] and [handleSearch] (built from the helpers of
      [ListView], as the code is the same) and its copy of
      [calculateDistance].  The popups are never redrawn after [init]
      (C38); in every reachable state every card's emoji agrees with
      its badge's colour (C17); a
      location gives every pump its haversine distance.

    ** Inputs and bounds
    - The clock is an argument: every handler takes the instant [now].
    - [calculateDistance] is a section variable of [Loaders],
      [Handlers] and [Invariants]: their theorems hold for every
      distance function, and [Distance] supplies the real one.  The
      concrete runs use the zero distance, since the trigonometry of the
      reals does not compute.
    - No definition uses fuel: every loop of the code runs over a list
      ([forEach], [map], [filter], [sort]), and the models are structural
      recursions over that list.
    - The pending [setTimeout] callbacks of the gesture are a count:
      they are all the same callback, and the browser runs them in
      order.

    ** Not modelled
    - Leaflet's geometry ([setView], [fitBounds], [invalidateSize]), the
      user-location marker, the DOM event wiring, the modals and the HTML
      strings themselves: the views are records of the values a template
      interpolates, and the handlers read nothing of the DOM back except
      the marker table.  The [operatingHours], phone and payment fields
      of a station are only rendered, so [Pump] does not carry them.
    - The service worker registration and the network I/O: the answers
      of the network are inputs of the handlers.
    - The module glue of [api.js] (lines 208-217: the singleton and its
      export), which runs no logic of the service.

    ** Numbers
    JavaScript numbers are IEEE doubles.  The model computes with exact
    rationals [Q].  Timestamps are integers of milliseconds (what [Date]
    holds), and the queue values are small integers, so the two agree
    except on the ties of [Math.round].  A tie is where a double rounding
    error can flip the result; the model rounds the exact value. *)

From Stdlib Require Export QArith Qround Qminmax Lqa ZArith Lia List Bool.
Export ListNotations.

Declare Scope js_scope.
Delimit Scope js_scope with js.

(** ** JavaScript number values *)

(** What an arithmetic expression of the code can evaluate to: a number,
    [undefined] (an array read out of range) or [NaN] (arithmetic on
    [undefined]). *)
Inductive jsval : Type :=
| JNum (q : Q)
| JUndefined
| JNaN.

(** [Math.round x] is [floor (x + 1/2)] for every finite [x]. *)
Definition Math_round (q : Q) : Z := Qfloor (q + (1 # 2)).

(** Strict order on [Q] as a boolean, the [>] and [<] of the code. *)
Definition Qltb (a b : Q) : bool := negb (Qle_bool b a).

(** Lifted operations: anything other than a number yields [NaN]. *)
Definition js_add (a b : jsval) : jsval :=
  match a, b with
  | JNum x, JNum y => JNum (x + y)
  | _, _ => JNaN
  end.

Definition js_mul (a : jsval) (c : Q) : jsval :=
  match a with
  | JNum x => JNum (x * c)
  | _ => JNaN
  end.

Definition js_round (a : jsval) : jsval :=
  match a with
  | JNum x => JNum (inject_Z (Math_round x))
  | _ => JNaN
  end.

(** [a <= c] and [a >= c]: any comparison with [undefined] or [NaN] is
    [false]. *)
Definition js_le (a : jsval) (c : Q) : bool :=
  match a with
  | JNum x => Qle_bool x c
  | _ => false
  end.

Definition js_ge (a : jsval) (c : Q) : bool :=
  match a with
  | JNum x => Qle_bool c x
  | _ => false
  end.

(** The truthiness of an optional number ([undefined] is [None]): a
    number is truthy when it is not [0] (nor [NaN]). *)
Definition num_truthy (q : option Q) : bool :=
  match q with Some x => negb (Qeq_bool x 0) | None => false end.

(** [arr[i]] for a JavaScript array of numbers. *)
Definition js_index (arr : list Q) (i : Z) : jsval :=
  if (i <? 0)%Z then JUndefined
  else match nth_error arr (Z.to_nat i) with
       | Some x => JNum x
       | None => JUndefined
       end.

(** The order the monotonicity theorems use: two numbers compare by
    [<=], and a non-number is related only to itself. *)
Definition jsval_le (a b : jsval) : Prop :=
  match a, b with
  | JNum x, JNum y => x <= y
  | JUndefined, JUndefined | JNaN, JNaN => True
  | _, _ => False
  end.

Notation "a <=js b" := (jsval_le a b) (at level 70) : js_scope.
Open Scope js_scope.

(** ** Shared lemmas *)

Lemma Qle_bool_false (x y : Q) : Qle_bool x y = false <-> y < x.
Proof.
  split; intros H.
  - apply Qnot_le_lt. intros C. apply Qle_bool_iff in C. congruence.
  - destruct (Qle_bool x y) eqn:E; [|reflexivity].
    apply Qle_bool_iff in E. exfalso. apply (Qlt_not_le _ _ H E).
Qed.

Lemma Qltb_true (a b : Q) : Qltb a b = true <-> a < b.
Proof.
  unfold Qltb. rewrite negb_true_iff. apply Qle_bool_false.
Qed.

Lemma Qltb_false (a b : Q) : Qltb a b = false <-> b <= a.
Proof.
  unfold Qltb. rewrite negb_false_iff. apply Qle_bool_iff.
Qed.

Lemma Math_round_mono (x y : Q) : x <= y -> (Math_round x <= Math_round y)%Z.
Proof. intros H. unfold Math_round. apply Qfloor_resp_le. lra. Qed.

Lemma Math_round_Z (z : Z) : Math_round (inject_Z z) = z.
Proof.
  unfold Math_round. apply Z.le_antisymm.
  - assert (H := Qfloor_le (inject_Z z + (1 # 2))).
    assert (H2 : inject_Z (Qfloor (inject_Z z + (1 # 2))) < inject_Z (z + 1)).
    { assert (E : inject_Z (z + 1) == inject_Z z + 1)
        by (rewrite inject_Z_plus; reflexivity).
      rewrite E. lra. }
    rewrite <- Zlt_Qlt in H2. lia.
  - rewrite <- (Qfloor_Z z) at 1. apply Qfloor_resp_le. lra.
Qed.

(** [Math.round] lands within one half of its argument. *)
Lemma Math_round_bounds (x : Q) :
  x - (1 # 2) < inject_Z (Math_round x) /\ inject_Z (Math_round x) <= x + (1 # 2).
Proof.
  unfold Math_round. split.
  - assert (H := Qlt_floor (x + (1 # 2))). rewrite inject_Z_plus in H.
    unfold inject_Z at 2 in H. lra.
  - apply Qfloor_le.
Qed.

Lemma Math_round_nonneg (x : Q) : 0 <= x -> (0 <= Math_round x)%Z.
Proof.
  intros H. change 0%Z with (Math_round (inject_Z 0)).
  apply Math_round_mono. exact H.
Qed.

Lemma inject_round_nonneg (x : Q) : 0 <= x -> 0 <= inject_Z (Math_round x).
Proof.
  intros H. change 0 with (inject_Z 0). rewrite <- Zle_Qle. apply Math_round_nonneg, H.
Qed.

Lemma js_round_mono (a b : jsval) : a <=js b -> js_round a <=js js_round b.
Proof.
  destruct a, b; simpl; try tauto. intros H.
  rewrite <- Zle_Qle. apply Math_round_mono. exact H.
Qed.

Lemma js_mul_mono (a b : jsval) (c : Q) : 0 <= c -> a <=js b -> js_mul a c <=js js_mul b c.
Proof.
  destruct a, b; simpl; try tauto. intros Hc H.
  apply Qmult_le_compat_r; assumption.
Qed.

Lemma js_le_mono (a b : jsval) (c : Q) : a <=js b -> js_le b c = true -> js_le a c = true.
Proof.
  destruct a, b; simpl; try tauto; try discriminate.
  rewrite !Qle_bool_iff. intros H1 H2. eapply Qle_trans; eassumption.
Qed.

Lemma js_ge_mono (a b : jsval) (c : Q) : a <=js b -> js_ge a c = true -> js_ge b c = true.
Proof.
  destruct a, b; simpl; try tauto; try discriminate.
  rewrite !Qle_bool_iff. intros H1 H2. eapply Qle_trans; eassumption.
Qed.

Lemma jsval_le_refl (a : jsval) : a <=js a.
Proof. destruct a; simpl; auto. apply Qle_refl. Qed.

Lemma js_index_in_range (arr : list Q) (i : Z) :
  (0 <= i)%Z -> (Z.to_nat i < length arr)%nat -> exists x, js_index arr i = JNum x.
Proof.
  intros H0 Hlt. unfold js_index.
  destruct (Z.ltb_spec i 0); [lia|].
  destruct (nth_error arr (Z.to_nat i)) eqn:E; [eauto|].
  apply nth_error_None in E. lia.
Qed.

Lemma js_index_out_of_range (arr : list Q) (i : Z) :
  (length arr <= Z.to_nat i)%nat -> js_index arr i = JUndefined.
Proof.
  intros H. unfold js_index. destruct (i <? 0)%Z; [reflexivity|].
  rewrite (proj2 (nth_error_None arr (Z.to_nat i)) H). reflexivity.
Qed.

Lemma js_add_mono_l (x y : Q) (c : jsval) :
  x <= y -> js_add (JNum x) c <=js js_add (JNum y) c.
Proof. destruct c; simpl; auto. intros H. lra. Qed.

(** [Qmax] and [Qmin] return one of their arguments, as [Math.max] and
    [Math.min] do; the cases keep Leibniz equality. *)
Lemma Qmax_cases (x y : Q) : (x <= y /\ Qmax x y = y) \/ (y <= x /\ Qmax x y = x).
Proof.
  unfold Qmax, GenericMinMax.gmax. destruct (x ?= y) eqn:E.
  - right. apply Qeq_alt in E. split; [rewrite E; apply Qle_refl | reflexivity].
  - left. apply Qlt_alt in E. split; [apply Qlt_le_weak; exact E | reflexivity].
  - right. apply Qgt_alt in E. split; [apply Qlt_le_weak; exact E | reflexivity].
Qed.

Lemma Qmin_cases (x y : Q) : (x <= y /\ Qmin x y = x) \/ (y <= x /\ Qmin x y = y).
Proof.
  unfold Qmin, GenericMinMax.gmin. destruct (x ?= y) eqn:E.
  - left. apply Qeq_alt in E. split; [rewrite E; apply Qle_refl | reflexivity].
  - left. apply Qlt_alt in E. split; [apply Qlt_le_weak; exact E | reflexivity].
  - right. apply Qgt_alt in E. split; [apply Qlt_le_weak; exact E | reflexivity].
Qed.

Lemma Qmin_l_eq (x y : Q) : x <= y -> Qmin x y = x.
Proof.
  intros H. unfold Qmin, GenericMinMax.gmin. destruct (x ?= y) eqn:E; try reflexivity.
  apply Qgt_alt in E. exfalso. exact (Qlt_not_le _ _ E H).
Qed.

Lemma Qmax_r_eq (x y : Q) : x < y -> Qmax x y = y.
Proof.
  intros H. unfold Qmax, GenericMinMax.gmax. destruct (x ?= y) eqn:E; try reflexivity.
  - apply Qeq_alt in E. rewrite E in H. exfalso. exact (Qlt_irrefl _ H).
  - apply Qgt_alt in E. exfalso. exact (Qlt_not_le _ _ E (Qlt_le_weak _ _ H)).
Qed.

Lemma js_index_nonneg (arr : list Q) (i : Z) (x : Q) :
  Forall (fun v => 0 <= v) arr -> js_index arr i = JNum x -> 0 <= x.
Proof.
  intros Hall. unfold js_index. destruct (i <? 0)%Z; [discriminate|].
  destruct (nth_error arr (Z.to_nat i)) eqn:E; [|discriminate].
  intros H. injection H as <-. apply nth_error_In in E.
  rewrite Forall_forall in Hall. exact (Hall _ E).
Qed.

Lemma js_index_nth (arr : list Q) (i : Z) (x : Q) :
  (0 <= i)%Z -> nth_error arr (Z.to_nat i) = Some x -> js_index arr i = JNum x.
Proof.
  intros H0 E. unfold js_index. destruct (Z.ltb_spec i 0); [lia|]. rewrite E. reflexivity.
Qed.

(** An invariant of each step of a [forEach] holds after the loop. *)
Lemma fold_left_preserve {A B} (P : A -> Prop) (f : A -> B -> A) (l : list B) (a : A) :
  (forall a' x, P a' -> P (f a' x)) -> P a -> P (fold_left f l a).
Proof. revert a. induction l as [|x l IH]; intros a Hstep Ha; simpl; auto. Qed.

(** ** Automation *)

Create HintDb js.
Create Rewrite HintDb js_rw.
#[export] Hint Resolve jsval_le_refl js_round_mono js_mul_mono js_add_mono_l : js.
#[export] Hint Rewrite Qle_bool_iff Qle_bool_false Qltb_true Qltb_false : js_rw.

(** Case on every boolean comparison of rationals in the goal and turn
    each branch's test into the proposition it decides. *)
(** Case analysis on every [match] of the goal, innermost scrutinee
    first, for the files that do not load stdpp's [case_match]. *)
Ltac destruct_matches :=
  repeat match goal with
  | |- context [match ?x with _ => _ end] => let E := fresh "E" in destruct x eqn:E
  end.

Ltac case_qbool :=
  repeat match goal with
  | |- context [Qle_bool ?a ?b] =>
      let E := fresh "E" in
      destruct (Qle_bool a b) eqn:E;
      [apply Qle_bool_iff in E | apply Qle_bool_false in E]
  | |- context [Qltb ?a ?b] =>
      let E := fresh "E" in
      destruct (Qltb a b) eqn:E;
      [apply Qltb_true in E | apply Qltb_false in E]
  end.
