(* ===== verification/Clock.v ===== *)
(** * Clock: the [Date] readings used by the estimator

    [calculateSmartQueueStatus] reads the clock through [new Date()],
    [now.getHours()], [now.getDay()] and [now - pump.lastUpdated].  An
    instant is modelled as its milliseconds since the epoch together with
    the local offset (local time minus UTC, in milliseconds) that the
    browser applies at that instant.  [getHours] and [getDay] follow the
    ECMAScript definitions [HourFromTime] and [WeekDay] on local time:
    the epoch, 1970-01-01, was a Thursday (day 4). *)

From S2P Require Import Prelude.

Local Open Scope Z_scope.

Record Instant : Type := mkInstant {
  epoch_ms : Z;
  tz_offset_ms : Z
}.

Definition msPerDay : Z := 86400000.
Definition msPerHour : Z := 3600000.
Definition msPerMinute : Z := 60000.

Definition local_ms (t : Instant) : Z := epoch_ms t + tz_offset_ms t.

(** [Date.prototype.getHours]: [HourFromTime(LocalTime(t))]. *)
Definition getHours (t : Instant) : Z := (local_ms t mod msPerDay) / msPerHour.

(** [Date.prototype.getDay]: [WeekDay(LocalTime(t))], [0] is Sunday. *)
Definition getDay (t : Instant) : Z := (local_ms t / msPerDay + 4) mod 7.

(** [now - date] for a [Date] or [null]: [null] converts to [0]. *)
Definition ms_since (now : Instant) (d : option Z) : Z :=
  epoch_ms now - match d with Some m => m | None => 0 end.

(** An instant a whole number of days later (local offset unchanged). *)
Definition add_days (t : Instant) (n : Z) : Instant :=
  mkInstant (epoch_ms t + n * msPerDay) (tz_offset_ms t).

Lemma getHours_range (t : Instant) : 0 <= getHours t <= 23.
Proof.
  unfold getHours, msPerDay, msPerHour.
  pose proof (Z.mod_pos_bound (local_ms t) 86400000 ltac:(lia)).
  split; [apply Z.div_pos; lia|].
  apply Z.lt_succ_r, Z.div_lt_upper_bound; lia.
Qed.

Lemma getDay_range (t : Instant) : 0 <= getDay t <= 6.
Proof.
  unfold getDay. pose proof (Z.mod_pos_bound (local_ms t / msPerDay + 4) 7 ltac:(lia)).
  lia.
Qed.

Lemma getHours_add_days (t : Instant) (n : Z) : getHours (add_days t n) = getHours t.
Proof.
  unfold getHours, add_days, local_ms; simpl.
  replace (epoch_ms t + n * msPerDay + tz_offset_ms t)
    with (epoch_ms t + tz_offset_ms t + n * msPerDay) by lia.
  rewrite Z_mod_plus_full. reflexivity.
Qed.

Lemma getDay_add_days (t : Instant) (n : Z) : getDay (add_days t n) = (getDay t + n) mod 7.
Proof.
  unfold getDay, add_days, local_ms; simpl.
  replace (epoch_ms t + n * msPerDay + tz_offset_ms t)
    with (epoch_ms t + tz_offset_ms t + n * msPerDay) by lia.
  rewrite Z_div_plus_full by (unfold msPerDay; lia).
  rewrite Zplus_mod_idemp_l.
  f_equal. lia.
Qed.

#[export] Hint Resolve getHours_range getDay_range : js.
