(* ===== verification/JsString.v ===== *)
(** * JsString: the string operations the code calls

    [String.prototype.toLowerCase] (on ASCII letters: the station names,
    brands and addresses of the code are ASCII), [includes], the
    [Array.prototype.join] of strings, the truthiness of a string in
    [a || b], and [String(n)] of an integer (used by template literals
    such as [`osm_${el.id}`]).  These are library calls; their
    definitions follow the ECMAScript specification, restricted to the
    inputs the code gives them. *)

From Stdlib Require Import String Ascii DecimalString.
From S2P Require Import Prelude.

Local Open Scope string_scope.

Definition ascii_lower (c : ascii) : ascii :=
  let n := nat_of_ascii c in
  if (65 <=? n)%nat && (n <=? 90)%nat then ascii_of_nat (n + 32) else c.

(** [s.toLowerCase()]. *)
Fixpoint toLowerCase (s : string) : string :=
  match s with
  | EmptyString => EmptyString
  | String c rest => String (ascii_lower c) (toLowerCase rest)
  end.

(** [hay.includes(needle)]: some suffix of [hay] starts with [needle]. *)
Fixpoint includes (hay needle : string) : bool :=
  prefix needle hay ||
  match hay with
  | EmptyString => false
  | String _ rest => includes rest needle
  end.

(** A string is truthy when it is not empty. *)
Definition truthy (s : string) : bool :=
  match s with EmptyString => false | _ => true end.

(** [a || b] on optional strings ([undefined] is falsy), as in
    [el.tags?.name || el.tags?.operator]. *)
Definition str_or (a : option string) (b : string) : string :=
  match a with Some x => if truthy x then x else b | None => b end.

Definition opt_str_or (a b : option string) : option string :=
  match a with Some x => if truthy x then Some x else b | None => b end.

(** [parts.join(sep)]. *)
Fixpoint join (sep : string) (parts : list string) : string :=
  match parts with
  | [] => EmptyString
  | [x] => x
  | x :: rest => x ++ sep ++ join sep rest
  end.

(** [String(n)] for an integer [n]. *)
Definition string_of_Z (z : Z) : string := NilZero.string_of_int (Z.to_int z).

Lemma prefix_empty (s : string) : prefix "" s = true.
Proof. destruct s; reflexivity. Qed.

Lemma includes_empty (s : string) : includes s "" = true.
Proof. destruct s; reflexivity. Qed.

Lemma prefix_refl (s : string) : prefix s s = true.
Proof.
  induction s as [|c s IH]; [reflexivity|]. simpl.
  destruct (ascii_dec c c) as [_|n]; [exact IH|contradiction].
Qed.

Lemma includes_refl (s : string) : includes s s = true.
Proof. pose proof (prefix_refl s) as H. destruct s; simpl in *; [reflexivity|]. rewrite H. reflexivity. Qed.

Lemma ascii_lower_idem (c : ascii) : ascii_lower (ascii_lower c) = ascii_lower c.
Proof.
  destruct c as [b0 b1 b2 b3 b4 b5 b6 b7].
  destruct b0, b1, b2, b3, b4, b5, b6, b7; reflexivity.
Qed.

Lemma toLowerCase_idem (s : string) : toLowerCase (toLowerCase s) = toLowerCase s.
Proof. induction s as [|c s IH]; simpl; [reflexivity|]. rewrite ascii_lower_idem, IH. reflexivity. Qed.

Lemma length_toLowerCase (s : string) : String.length (toLowerCase s) = String.length s.
Proof. induction s as [|c s IH]; simpl; congruence. Qed.
