(* ===== verification/Station.v ===== *)
(** * Station: the pump record shared by every component

    A pump of [this.pumps] in [src/public/app.js] is a JavaScript object.
    The record below keeps the fields the modelled code reads or writes:
    - the ones set by the loaders ([loadSampleData], [loadKnownCNGStations],
      [loadRealCNGStations]);
    - the ones mutated by [calculateSmartQueueStatus] ([trafficDensity],
      [predictedQueue], [predictionConfidence]);
    - the ones mutated by [submitQueueUpdate] and [refreshData]
      ([queueLength], [lastUpdated], [queueStatus], [trafficDensity]).
    [null] and absent fields are [None].  A date is its milliseconds
    since the epoch.  [historicalData.avgQueueByHour] is [avgQueueByHour]:
    [None] when either object level is missing, which is the falsy case
    of the code's [pump.historicalData && pump.historicalData.avgQueueByHour]. *)

From Stdlib Require Import String.
Local Open Scope string_scope.
From S2P Require Import Prelude.

(** The CSS status classes: ['green'], ['yellow'], ['red'], ['gray']. *)
Inductive QueueStatus : Type := Green | Yellow | Red | Gray.

(** The traffic density strings: ['low'], ['medium'], ['high']. *)
Inductive Density : Type := Low | Medium | High.

Definition QueueStatus_eq_dec (a b : QueueStatus) : {a = b} + {a <> b}.
Proof. decide equality. Defined.

Definition Density_eq_dec (a b : Density) : {a = b} + {a <> b}.
Proof. decide equality. Defined.

(** Rank of a status and of a density for the monotonicity statements. *)
Definition status_rank (s : QueueStatus) : nat :=
  match s with Green => 0 | Yellow => 1 | Red => 2 | Gray => 3 end%nat.

Definition density_rank (d : Density) : nat :=
  match d with Low => 0 | Medium => 1 | High => 2 end%nat.

Record Pump : Type := mkPump {
  pid : string;
  name : string;
  location : Q * Q;
  address : string;
  brand : string;
  queueStatus : QueueStatus;
  queueLength : option Q;
  lastUpdated : option Z;
  distance : option Q;
  avgQueueByHour : option (list Q);
  trafficDensity : option Density;
  predictedQueue : option jsval;
  predictionConfidence : option Q
}.

(** [queueLength <= 5 ? 'green' : queueLength <= 15 ? 'yellow' : 'red'],
    the status rule of [submitQueueUpdate] and [refreshData]. *)
Definition statusOfQueue (q : Q) : QueueStatus :=
  if Qle_bool q 5 then Green else if Qle_bool q 15 then Yellow else Red.

(** The three writes at the end of [calculateSmartQueueStatus]. *)
Definition set_estimate (p : Pump) (d : Density) (pred : jsval) (conf : Q) : Pump :=
  {| pid := pid p; name := name p; location := location p; address := address p; brand := brand p;
     queueStatus := queueStatus p; queueLength := queueLength p;
     lastUpdated := lastUpdated p; distance := distance p;
     avgQueueByHour := avgQueueByHour p;
     trafficDensity := Some d; predictedQueue := Some pred;
     predictionConfidence := Some conf |}.

(** The four writes of [submitQueueUpdate] (and of [refreshData]). *)
Definition set_reading (p : Pump) (q : Q) (at_ms : Z) (d : Density) : Pump :=
  {| pid := pid p; name := name p; location := location p; address := address p; brand := brand p;
     queueStatus := statusOfQueue q; queueLength := Some q;
     lastUpdated := Some at_ms; distance := distance p;
     avgQueueByHour := avgQueueByHour p;
     trafficDensity := Some d; predictedQueue := predictedQueue p;
     predictionConfidence := predictionConfidence p |}.

(** [pump.distance = ...] in [updateDistances]. *)
Definition set_distance (p : Pump) (dist : Q) : Pump :=
  {| pid := pid p; name := name p; location := location p; address := address p; brand := brand p;
     queueStatus := queueStatus p; queueLength := queueLength p;
     lastUpdated := lastUpdated p; distance := Some dist;
     avgQueueByHour := avgQueueByHour p;
     trafficDensity := trafficDensity p; predictedQueue := predictedQueue p;
     predictionConfidence := predictionConfidence p |}.

(** The same pump with another reading; used to state monotonicity. *)
Definition with_queueLength (p : Pump) (q : option Q) : Pump :=
  {| pid := pid p; name := name p; location := location p; address := address p; brand := brand p;
     queueStatus := queueStatus p; queueLength := q;
     lastUpdated := lastUpdated p; distance := distance p;
     avgQueueByHour := avgQueueByHour p;
     trafficDensity := trafficDensity p; predictedQueue := predictedQueue p;
     predictionConfidence := predictionConfidence p |}.

Lemma statusOfQueue_mono (q q' : Q) :
  q <= q' -> (status_rank (statusOfQueue q) <= status_rank (statusOfQueue q'))%nat.
Proof.
  intros H. unfold statusOfQueue. case_qbool; simpl; lia || lra.
Qed.

Lemma statusOfQueue_not_gray (q : Q) : statusOfQueue q <> Gray.
Proof. unfold statusOfQueue. destruct (Qle_bool q 5), (Qle_bool q 15); discriminate. Qed.

(** The status agrees with the reading: the bucket of the queue length,
    or gray when there is no reading.  Every loader creates such pumps
    and every write of the code keeps it. *)
Definition status_consistent (p : Pump) : bool :=
  match queueLength p with
  | Some q => if QueueStatus_eq_dec (queueStatus p) (statusOfQueue q) then true else false
  | None => if QueueStatus_eq_dec (queueStatus p) Gray then true else false
  end.

Lemma set_estimate_consistent (p : Pump) (d : Density) (v : jsval) (c : Q) :
  status_consistent (set_estimate p d v c) = status_consistent p.
Proof. reflexivity. Qed.

Lemma set_distance_consistent (p : Pump) (x : Q) :
  status_consistent (set_distance p x) = status_consistent p.
Proof. reflexivity. Qed.

Lemma set_reading_consistent (p : Pump) (q : Q) (t : Z) (d : Density) :
  status_consistent (set_reading p q t d) = true.
Proof.
  unfold status_consistent; simpl.
  destruct (QueueStatus_eq_dec (statusOfQueue q) (statusOfQueue q)); [reflexivity|congruence].
Qed.

Lemma set_estimate_pid (p : Pump) (d : Density) (v : jsval) (c : Q) :
  pid (set_estimate p d v c) = pid p.
Proof. reflexivity. Qed.
