(* ===== verification/SmartQueue.v ===== *)
(** * SmartQueue: the queue-status estimator of [src/public/app.js]

    [calculateSmartQueueStatus(pump)] (lines 598-660) and
    [calculateTrafficDensity(queueLength)] (lines 672-681), and the status
    and label choice of [getMarkerIcon(status, pump)] (lines 510-526).
    The code reads the clock itself; the model takes the instant [now] as
    an argument.  The function mutates the pump it is given; the model
    returns the result together with the updated pump.

    Its stages are separate definitions, composed as the code composes
    them.  [historical_blend] is step 1 of the code.  [peak_adjust] is
    step 2.  [smartStatus] is step 3.  Step 4 is [calculateTrafficDensity]
    on the current queue.  Step 5 is the writes and the result. *)

From Stdlib Require Import String.
From S2P Require Import Prelude Clock Station.

Module SmartQueue.

#[local] Open Scope Q_scope.

(** [calculateTrafficDensity]: [>= 20] is high, [>= 10] is medium, and
    anything else, [NaN] and [undefined] included, is low. *)
Definition calculateTrafficDensity (queueLength : jsval) : Density :=
  if js_ge queueLength 20 then High
  else if js_ge queueLength 10 then Medium
  else Low.

(** The object returned by [calculateSmartQueueStatus]. *)
Record SmartData : Type := mkSmartData {
  sd_status : QueueStatus;
  sd_predictedQueue : jsval;
  sd_confidence : Q;
  sd_trafficDensity : Density;
  sd_isPrediction : bool
}.

(** [(now - pump.lastUpdated) / 60000], in minutes. *)
Definition timeSinceUpdate (now : Instant) (lastUpdated : option Z) : Q :=
  Qmake (ms_since now lastUpdated) 60000.

(** [pump.queueLength || 0], and also [null * x], which is [0 * x]. *)
Definition num_or_zero (q : option Q) : Q :=
  match q with Some x => x | None => 0 end.

(** Step 1: the predicted queue and the confidence after the
    time-based prediction from the history. *)
Definition historical_blend (t : Q) (currentHour : Z) (ql : option Q)
    (hist : option (list Q)) : jsval * Q :=
  match hist with
  | None => (JNum (num_or_zero ql), 100)
  | Some avg =>
      let historicalAvg := js_index avg currentHour in
      if Qltb 30 t then (historicalAvg, 60)
      else
        let weight := Qmin (t / 60) (1 # 2) in
        (js_round (js_add (JNum (num_or_zero ql * (1 - weight)))
                          (js_mul historicalAvg weight)),
         Qmax 50 (100 - t))
  end.

(** [(8 <= h && h <= 10) || (17 <= h && h <= 20)]. *)
Definition isPeakHour (h : Z) : bool :=
  (((8 <=? h) && (h <=? 10)) || ((17 <=? h) && (h <=? 20)))%Z.

(** [dayOfWeek === 0 || dayOfWeek === 6]. *)
Definition isWeekend (d : Z) : bool := ((d =? 0) || (d =? 6))%Z.

(** Step 2: the 30% peak-hour increase. *)
Definition peak_adjust (h d : Z) (t : Q) (pred : jsval) : jsval :=
  if isPeakHour h && negb (isWeekend d) && Qltb 20 t
  then js_round (js_mul pred (13 # 10))
  else pred.

(** Step 3: the status from the predicted queue. *)
Definition smartStatus (pred : jsval) : QueueStatus :=
  if js_le pred 5 then Green
  else if js_le pred 15 then Yellow
  else Red.

(** [calculateSmartQueueStatus(pump)] at the instant [now]: the returned
    object and the pump after its three writes. *)
Definition calculateSmartQueueStatus (now : Instant) (pump : Pump) : SmartData * Pump :=
  let currentHour := getHours now in
  let dayOfWeek := getDay now in
  let t := timeSinceUpdate now (lastUpdated pump) in
  let '(pred1, confidence) :=
    historical_blend t currentHour (queueLength pump) (avgQueueByHour pump) in
  let pred := peak_adjust currentHour dayOfWeek t pred1 in
  let status := smartStatus pred in
  let currentQueue :=
    match queueLength pump with Some q => JNum q | None => pred end in
  let traffic := calculateTrafficDensity currentQueue in
  (mkSmartData status pred confidence traffic (Qltb 30 t),
   set_estimate pump traffic pred confidence).

Definition estimate (now : Instant) (pump : Pump) : SmartData :=
  fst (calculateSmartQueueStatus now pump).

(** The shape of history the code indexes by the hour: an array of 24
    hourly averages, or no history at all. *)
Definition hist_ok (p : Pump) : bool :=
  match avgQueueByHour p with Some avg => (length avg =? 24)%nat | None => true end.

(** The number drawn on a marker: [~predicted], the reading, or [?]. *)
Inductive MarkerLabel : Type :=
| Approx (v : jsval)
| Exact (q : Q)
| Unknown.

(** The status and label chosen by [getMarkerIcon(pump.queueStatus, pump)],
    with the pump as the embedded call to [calculateSmartQueueStatus]
    leaves it. *)
Definition getMarkerIcon (now : Instant) (pump : Pump) : QueueStatus * MarkerLabel * Pump :=
  let '(sd, pump') := calculateSmartQueueStatus now pump in
  let useSmartStatus := Qltb 70 (sd_confidence sd) || sd_isPrediction sd in
  let finalStatus := if useSmartStatus then sd_status sd else queueStatus pump in
  let label :=
    if sd_isPrediction sd then Approx (sd_predictedQueue sd)
    else match queueLength pump with Some q => Exact q | None => Unknown end in
  (finalStatus, label, pump').

(** ** Concrete instants and pumps for the scenarios *)

(** Tuesday 1970-01-06, 09:00 UTC (day 5 after a Thursday). *)
Definition tuesday_9am : Instant := mkInstant (5 * 86400000 + 9 * 3600000)%Z 0%Z.

(** Thursday 1970-01-08, 14:00 UTC: not a peak hour. *)
Definition thursday_2pm : Instant := mkInstant (7 * 86400000 + 14 * 3600000)%Z 0%Z.

Definition minutes_before (t : Instant) (m : Z) : option Z :=
  Some (epoch_ms t - m * 60000)%Z.

Definition test_pump (ql : option Q) (lu : option Z) (hist : option (list Q)) : Pump :=
  mkPump "pump_t"%string "Test"%string (0, 0) "Somewhere"%string "Independent"%string Gray ql lu None hist None None None.

Definition flat_history (v : Q) : list Q := repeat v 24.

Example scenario_A :
  estimate thursday_2pm (test_pump (Some 3) (minutes_before thursday_2pm 10) None)
  = mkSmartData Green (JNum 3) 100 Low false.
Proof. reflexivity. Qed.


(** ** Stage lemmas *)

Lemma calculateSmartQueueStatus_pump (now : Instant) (p : Pump) :
  exists d v c, snd (calculateSmartQueueStatus now p) = set_estimate p d v c.
Proof.
  unfold calculateSmartQueueStatus. destruct (historical_blend _ _ _ _).
  do 3 eexists. reflexivity.
Qed.

Lemma calculateSmartQueueStatus_pid (now : Instant) (p : Pump) :
  pid (snd (calculateSmartQueueStatus now p)) = pid p.
Proof. destruct (calculateSmartQueueStatus_pump now p) as (d & v & c & ->). reflexivity. Qed.

Lemma getMarkerIcon_pump (now : Instant) (p : Pump) :
  snd (getMarkerIcon now p) = snd (calculateSmartQueueStatus now p).
Proof. unfold getMarkerIcon. destruct (calculateSmartQueueStatus now p). reflexivity. Qed.


Section Stages.

Variables (now : Instant) (p : Pump).

Let h := getHours now.
Let d := getDay now.
Let t := timeSinceUpdate now (lastUpdated p).
Let blend := historical_blend t h (queueLength p) (avgQueueByHour p).
Let pred := peak_adjust h d t (fst blend).

(** The five fields of the result, each as the code computes it. *)
Lemma estimate_fields :
  estimate now p =
  mkSmartData (smartStatus pred) pred (snd blend)
    (calculateTrafficDensity
       (match queueLength p with Some q => JNum q | None => pred end))
    (Qltb 30 t).
Proof.
  unfold estimate, calculateSmartQueueStatus, pred, blend, t, h, d.
  destruct (historical_blend _ _ _ _); reflexivity.
Qed.

End Stages.

Lemma smartStatus_num (q : Q) : smartStatus (JNum q) = statusOfQueue q.
Proof. reflexivity. Qed.

Lemma smartStatus_mono (a b : jsval) :
  a <=js b -> (status_rank (smartStatus a) <= status_rank (smartStatus b))%nat.
Proof.
  destruct a as [x| |], b as [y| |]; simpl; try tauto; try lia.
  intros H. rewrite !smartStatus_num. apply statusOfQueue_mono. exact H.
Qed.

Lemma smartStatus_not_number (a : jsval) : (forall x, a <> JNum x) -> smartStatus a = Red.
Proof. destruct a; [intros H; exfalso; exact (H q eq_refl) | reflexivity | reflexivity]. Qed.

Lemma calculateTrafficDensity_mono (a b : jsval) :
  a <=js b ->
  (density_rank (calculateTrafficDensity a) <= density_rank (calculateTrafficDensity b))%nat.
Proof.
  destruct a as [x| |], b as [y| |]; simpl; try tauto; try lia.
  intros H. unfold calculateTrafficDensity; simpl. case_qbool; simpl; lia || lra.
Qed.

Lemma peak_adjust_quiet (h d : Z) (t : Q) (a : jsval) : t <= 20 -> peak_adjust h d t a = a.
Proof.
  intros H. unfold peak_adjust.
  replace (Qltb 20 t) with false by (symmetry; apply Qltb_false; exact H).
  rewrite andb_false_r. reflexivity.
Qed.

Lemma peak_adjust_mono (h d : Z) (t : Q) (a b : jsval) :
  a <=js b -> peak_adjust h d t a <=js peak_adjust h d t b.
Proof.
  intros H. unfold peak_adjust. destruct (_ && _ && _); [|exact H].
  apply js_round_mono, js_mul_mono; [discriminate | exact H].
Qed.

Lemma peak_adjust_nonneg (h d : Z) (t x : Q) :
  0 <= x -> exists y, peak_adjust h d t (JNum x) = JNum y /\ 0 <= y.
Proof.
  intros H. unfold peak_adjust. destruct (_ && _ && _); [|eauto].
  eexists; split; [reflexivity|].
  apply inject_round_nonneg, Qmult_le_0_compat; [exact H | discriminate].
Qed.

Lemma peak_adjust_not_number (h d : Z) (t : Q) (a : jsval) :
  (forall x, a <> JNum x) -> forall x, peak_adjust h d t a <> JNum x.
Proof.
  intros Ha x. unfold peak_adjust. destruct (_ && _ && _); [|apply Ha].
  destruct a; [exfalso; exact (Ha q eq_refl) | discriminate | discriminate].
Qed.

(** In the blending branch the weight [t / 60] never reaches its cap
    [0.5], and the confidence [100 - t] never reaches its floor [50]. *)
Lemma historical_blend_fresh (t : Q) (h : Z) (ql : option Q) (avg : list Q) :
  t <= 30 ->
  historical_blend t h ql (Some avg) =
  (js_round (js_add (JNum (num_or_zero ql * (1 - t / 60))) (js_mul (js_index avg h) (t / 60))),
   100 - t).
Proof.
  intros H. unfold historical_blend.
  replace (Qltb 30 t) with false by (symmetry; apply Qltb_false; exact H).
  rewrite Qmin_l_eq by (apply Qle_shift_div_r; [reflexivity | lra]).
  rewrite Qmax_r_eq by lra. reflexivity.
Qed.

Lemma historical_blend_stale (t : Q) (h : Z) (ql : option Q) (avg : list Q) :
  30 < t -> historical_blend t h ql (Some avg) = (js_index avg h, 60).
Proof.
  intros H. unfold historical_blend.
  replace (Qltb 30 t) with true by (symmetry; apply Qltb_true; exact H).
  reflexivity.
Qed.

Lemma historical_blend_mono (t : Q) (h : Z) (q q' : Q) (hist : option (list Q)) :
  q <= q' ->
  fst (historical_blend t h (Some q) hist) <=js fst (historical_blend t h (Some q') hist).
Proof.
  intros H. destruct hist as [avg|]; simpl; [|exact H].
  destruct (Qltb 30 t); simpl; [apply jsval_le_refl|].
  apply js_round_mono, js_add_mono_l.
  apply Qmult_le_compat_r; [exact H|].
  destruct (Qmin_cases (t / 60) (1 # 2)) as [[Hm ->]|[_ ->]]; lra.
Qed.

Lemma historical_blend_confidence (t : Q) (h : Z) (ql : option Q) (hist : option (list Q)) :
  0 <= t -> 60 <= snd (historical_blend t h ql hist) <= 100.
Proof.
  intros H. destruct hist as [avg|]; [|simpl; lra].
  destruct (Qlt_le_dec 30 t) as [Hs|Hf].
  - rewrite historical_blend_stale by exact Hs. simpl. lra.
  - rewrite historical_blend_fresh by exact Hf. simpl. lra.
Qed.

Lemma historical_blend_nonneg (t : Q) (h : Z) (ql : option Q) (avg : list Q) :
  0 <= t -> 0 <= num_or_zero ql -> Forall (fun v => 0 <= v) avg -> (0 <= h)%Z ->
  (Z.to_nat h < length avg)%nat ->
  exists x, fst (historical_blend t h ql (Some avg)) = JNum x /\ 0 <= x.
Proof.
  intros Ht Hq Hall Hh Hlen.
  destruct (js_index_in_range avg h Hh Hlen) as [a Ha].
  pose proof (js_index_nonneg avg h a Hall Ha) as Hapos.
  destruct (Qlt_le_dec 30 t) as [Hs|Hf].
  - rewrite historical_blend_stale by exact Hs. rewrite Ha. exists a. split; [reflexivity | exact Hapos].
  - rewrite historical_blend_fresh by exact Hf. rewrite Ha. simpl.
    eexists; split; [reflexivity|]. apply inject_round_nonneg.
    assert (0 <= t / 60) by (apply Qle_shift_div_l; [reflexivity | lra]).
    assert (t / 60 <= 1) by (apply Qle_shift_div_r; [reflexivity | lra]).
    assert (0 <= num_or_zero ql * (1 - t / 60)) by (apply Qmult_le_0_compat; lra).
    assert (0 <= a * (t / 60)) by (apply Qmult_le_0_compat; lra).
    lra.
Qed.

Lemma num_or_zero_nonneg (ql : option Q) :
  (forall q, ql = Some q -> 0 <= q) -> 0 <= num_or_zero ql.
Proof. destruct ql as [q|]; simpl; [intros H; exact (H q eq_refl) | intros _; apply Qle_refl]. Qed.

(** With no reading date, [now - null] is the whole epoch time. *)
Lemma timeSinceUpdate_null (now : Instant) :
  (30 * 60000 < epoch_ms now)%Z -> 30 < timeSinceUpdate now None.
Proof. intros H. unfold timeSinceUpdate, ms_since, Qlt; simpl. lia. Qed.

(** The estimate of a pump that has never been observed. *)
Lemma estimate_unobserved (now : Instant) (p : Pump) :
  queueLength p = None -> lastUpdated p = None -> avgQueueByHour p = None ->
  (30 * 60000 < epoch_ms now)%Z ->
  estimate now p = mkSmartData Green (JNum 0) 100 Low true.
Proof.
  intros Hq Hl Hh Ht. rewrite estimate_fields, Hq, Hl, Hh.
  cbn [historical_blend fst snd num_or_zero].
  replace (Qltb 30 (timeSinceUpdate now None)) with true
    by (symmetry; apply Qltb_true, timeSinceUpdate_null, Ht).
  unfold peak_adjust. destruct (_ && _ && _); reflexivity.
Qed.

(** ** Functional behaviour of [calculateSmartQueueStatus] *)

(** C1. A reading at most 20 minutes old, at a station without history,
    is reported as it is: the predicted queue is the reading, the
    confidence is 100, it is not a prediction, and the status and the
    traffic density are the buckets of the reading. *)
Theorem estimate_fresh_reading (now : Instant) (p : Pump) (q : Q) :
  queueLength p = Some q -> avgQueueByHour p = None ->
  timeSinceUpdate now (lastUpdated p) <= 20 ->
  estimate now p =
  mkSmartData (statusOfQueue q) (JNum q) 100 (calculateTrafficDensity (JNum q)) false.
Proof.
  intros Hq Hh Ht. rewrite estimate_fields, Hq, Hh.
  cbn [historical_blend fst snd num_or_zero].
  rewrite peak_adjust_quiet by exact Ht.
  replace (Qltb 30 _) with false by (symmetry; apply Qltb_false; lra).
  reflexivity.
Qed.

Lemma estimate_fresh_reading_witness :
  estimate thursday_2pm (test_pump (Some 3) (minutes_before thursday_2pm 10) None) =
  mkSmartData Green (JNum 3) 100 Low false.
Proof.
  apply (estimate_fresh_reading thursday_2pm _ 3);
    [reflexivity | reflexivity | apply Qle_bool_iff; reflexivity].
Defined.

(** C2. A reading more than 30 minutes old, at a station with history,
    is replaced by the history's average for the current hour (raised by
    30% and rounded on a weekday peak hour).  The confidence is 60 and
    the result is flagged as a prediction. *)
Theorem estimate_stale_history (now : Instant) (p : Pump) (avg : list Q) (a : Q) :
  avgQueueByHour p = Some avg -> nth_error avg (Z.to_nat (getHours now)) = Some a ->
  30 < timeSinceUpdate now (lastUpdated p) ->
  sd_predictedQueue (estimate now p) =
    (if isPeakHour (getHours now) && negb (isWeekend (getDay now))
     then JNum (inject_Z (Math_round (a * (13 # 10)))) else JNum a) /\
  sd_confidence (estimate now p) = 60 /\
  sd_isPrediction (estimate now p) = true.
Proof.
  intros Hh Ha Ht. rewrite estimate_fields, Hh.
  rewrite historical_blend_stale by exact Ht.
  rewrite (js_index_nth avg _ a) by (apply getHours_range || exact Ha).
  unfold peak_adjust. cbn [fst snd sd_predictedQueue sd_confidence sd_isPrediction].
  replace (Qltb 20 _) with true by (symmetry; apply Qltb_true; lra).
  replace (Qltb 30 _) with true by (symmetry; apply Qltb_true; lra).
  rewrite andb_true_r. auto.
Qed.

Lemma estimate_stale_history_witness :
  let p := test_pump (Some 20) (minutes_before thursday_2pm 45) (Some (flat_history 10)) in
  sd_predictedQueue (estimate thursday_2pm p) = JNum 10 /\
  sd_confidence (estimate thursday_2pm p) = 60 /\
  sd_isPrediction (estimate thursday_2pm p) = true.
Proof.
  apply (estimate_stale_history thursday_2pm _ (flat_history 10) 10);
    [reflexivity | reflexivity | apply Qltb_true; reflexivity].
Defined.

(** C3. A reading at most 30 minutes old at a station with history is
    blended with the hour's average, with the weight [t / 60] on the
    average: the 0.5 cap of the code is never reached.  The confidence
    is [100 - t]: the floor of 50 is never reached.  The result is not a
    prediction. *)
Theorem estimate_blend (now : Instant) (p : Pump) (q a : Q) (avg : list Q) :
  queueLength p = Some q -> avgQueueByHour p = Some avg ->
  nth_error avg (Z.to_nat (getHours now)) = Some a ->
  timeSinceUpdate now (lastUpdated p) <= 30 ->
  let t := timeSinceUpdate now (lastUpdated p) in
  sd_predictedQueue (estimate now p) =
    peak_adjust (getHours now) (getDay now) t
      (JNum (inject_Z (Math_round (q * (1 - t / 60) + a * (t / 60))))) /\
  sd_confidence (estimate now p) = 100 - t /\
  sd_isPrediction (estimate now p) = false.
Proof.
  intros Hq Hh Ha Ht t. rewrite estimate_fields, Hq, Hh.
  rewrite historical_blend_fresh by exact Ht.
  rewrite (js_index_nth avg _ a) by (apply getHours_range || exact Ha).
  cbn [fst snd sd_predictedQueue sd_confidence sd_isPrediction num_or_zero js_mul js_add js_round].
  replace (Qltb 30 _) with false by (symmetry; apply Qltb_false; exact Ht).
  auto.
Qed.

Lemma estimate_blend_witness :
  let p := test_pump (Some 5) (minutes_before tuesday_9am 25) (Some (flat_history 15)) in
  sd_predictedQueue (estimate tuesday_9am p) = JNum 12 /\
  sd_confidence (estimate tuesday_9am p) = 100 - (1500000 # 60000) /\
  sd_isPrediction (estimate tuesday_9am p) = false.
Proof.
  intros p.
  destruct (estimate_blend tuesday_9am p 5 15 (flat_history 15) eq_refl eq_refl eq_refl
              ltac:(apply Qle_bool_iff; reflexivity)) as [H1 [H2 H3]].
  split; [rewrite H1; reflexivity | split; [exact H2 | exact H3]].
Defined.

(** C4. Whenever the reading is not dated in the future, the confidence
    lies between 60 and 100. *)
Theorem estimate_confidence_bounds (now : Instant) (p : Pump) :
  0 <= timeSinceUpdate now (lastUpdated p) ->
  60 <= sd_confidence (estimate now p) <= 100.
Proof.
  intros Ht. rewrite estimate_fields. apply historical_blend_confidence, Ht.
Qed.

Lemma estimate_confidence_bounds_witness :
  60 <= sd_confidence (estimate thursday_2pm
          (test_pump (Some 20) (minutes_before thursday_2pm 45) (Some (flat_history 10)))) <= 100.
Proof. apply estimate_confidence_bounds. apply Qle_bool_iff; reflexivity. Defined.

(** C5. Monotonicity in the reading: a longer reported queue, all else
    fixed, never gives a smaller predicted queue, a lower status or a
    lower traffic density. *)
Theorem estimate_monotone (now : Instant) (p : Pump) (q q' : Q) :
  q <= q' ->
  let e := estimate now (with_queueLength p (Some q)) in
  let e' := estimate now (with_queueLength p (Some q')) in
  sd_predictedQueue e <=js sd_predictedQueue e' /\
  (status_rank (sd_status e) <= status_rank (sd_status e'))%nat /\
  (density_rank (sd_trafficDensity e) <= density_rank (sd_trafficDensity e'))%nat.
Proof.
  intros Hq e e'. subst e e'. rewrite !estimate_fields.
  cbn [with_queueLength queueLength lastUpdated avgQueueByHour
       sd_predictedQueue sd_status sd_trafficDensity].
  pose proof (peak_adjust_mono (getHours now) (getDay now)
                (timeSinceUpdate now (lastUpdated p)) _ _
                (historical_blend_mono (timeSinceUpdate now (lastUpdated p))
                   (getHours now) q q' (avgQueueByHour p) Hq)) as Hpred.
  split; [exact Hpred|]. split; [apply smartStatus_mono, Hpred|].
  apply calculateTrafficDensity_mono. exact Hq.
Qed.

Lemma estimate_monotone_witness :
  let p := test_pump None (minutes_before tuesday_9am 25) (Some (flat_history 15)) in
  let e := estimate tuesday_9am (with_queueLength p (Some 3)) in
  let e' := estimate tuesday_9am (with_queueLength p (Some 30)) in
  sd_predictedQueue e <=js sd_predictedQueue e' /\
  (status_rank (sd_status e) <= status_rank (sd_status e'))%nat /\
  (density_rank (sd_trafficDensity e) <= density_rank (sd_trafficDensity e'))%nat.
Proof. intros p. apply estimate_monotone. apply Qle_bool_iff; reflexivity. Defined.

(** C6. With a well-formed history (24 non-negative hourly averages), a
    non-negative reading and a reading date not in the future, the
    predicted queue is a non-negative number: never [NaN] nor
    [undefined]. *)
Theorem estimate_predicted_nonneg (now : Instant) (p : Pump) (avg : list Q) :
  avgQueueByHour p = Some avg -> length avg = 24%nat ->
  Forall (fun v => 0 <= v) avg ->
  (forall q, queueLength p = Some q -> 0 <= q) ->
  0 <= timeSinceUpdate now (lastUpdated p) ->
  exists x, sd_predictedQueue (estimate now p) = JNum x /\ 0 <= x.
Proof.
  intros Hh Hlen Hall Hq Ht. rewrite estimate_fields, Hh.
  pose proof (getHours_range now) as Hr.
  destruct (historical_blend_nonneg (timeSinceUpdate now (lastUpdated p)) (getHours now)
              (queueLength p) avg Ht (num_or_zero_nonneg _ Hq) Hall ltac:(lia) ltac:(lia))
    as [x [Hx Hpos]].
  cbn [sd_predictedQueue]. rewrite Hx. apply peak_adjust_nonneg, Hpos.
Qed.

Lemma estimate_predicted_nonneg_witness :
  exists x, sd_predictedQueue (estimate thursday_2pm
    (test_pump (Some 20) (minutes_before thursday_2pm 45) (Some (flat_history 10)))) = JNum x
    /\ 0 <= x.
Proof.
  apply (estimate_predicted_nonneg _ _ (flat_history 10)); [reflexivity | reflexivity | | | ].
  - repeat constructor; discriminate.
  - intros q Hq. injection Hq as <-. discriminate.
  - apply Qle_bool_iff; reflexivity.
Defined.

(** ** Error paths *)

(** C7. A history array shorter than the current hour, read for a stale
    reading, makes the predicted queue [undefined] (or [NaN] after the
    peak multiplier).  Every comparison with it is false, so the status
    falls through to red.  The code raises no error. *)
Theorem estimate_short_history_red (now : Instant) (p : Pump) (avg : list Q) :
  avgQueueByHour p = Some avg -> (length avg <= Z.to_nat (getHours now))%nat ->
  30 < timeSinceUpdate now (lastUpdated p) ->
  sd_status (estimate now p) = Red /\ (forall x, sd_predictedQueue (estimate now p) <> JNum x).
Proof.
  intros Hh Hlen Ht. rewrite estimate_fields, Hh.
  rewrite historical_blend_stale by exact Ht. rewrite js_index_out_of_range by exact Hlen.
  cbn [fst sd_status sd_predictedQueue].
  assert (Hn : forall x, peak_adjust (getHours now) (getDay now)
                           (timeSinceUpdate now (lastUpdated p)) JUndefined <> JNum x)
    by (apply peak_adjust_not_number; discriminate).
  split; [apply smartStatus_not_number, Hn | exact Hn].
Qed.

Lemma estimate_short_history_red_witness :
  let p := test_pump None (minutes_before thursday_2pm 45) (Some [1; 2]) in
  sd_status (estimate thursday_2pm p) = Red /\
  (forall x, sd_predictedQueue (estimate thursday_2pm p) <> JNum x).
Proof.
  intros p. apply (estimate_short_history_red _ _ [1; 2]);
    [reflexivity | vm_compute; repeat constructor | apply Qltb_true; reflexivity].
Defined.

(** C8. A reading dated in the future (a clock ahead of the device's)
    at a station with history gives a confidence above 100. *)
Theorem estimate_future_confidence (now : Instant) (p : Pump) (avg : list Q) :
  avgQueueByHour p = Some avg -> timeSinceUpdate now (lastUpdated p) < 0 ->
  100 < sd_confidence (estimate now p).
Proof.
  intros Hh Ht. rewrite estimate_fields, Hh.
  rewrite historical_blend_fresh by lra. cbn [snd sd_confidence]. lra.
Qed.

Lemma estimate_future_confidence_witness :
  100 < sd_confidence (estimate thursday_2pm
          (test_pump (Some 10) (minutes_before thursday_2pm (-20)) (Some (flat_history 10)))).
Proof.
  apply (estimate_future_confidence _ _ (flat_history 10));
    [reflexivity | apply Qltb_true; reflexivity].
Defined.

(** C9. At a weekday peak hour, a reading between 20 and 30 minutes old
    at a station without history is reported as a direct reading (not a
    prediction, confidence 100) whose value is the reading raised by 30%
    and rounded. *)
Theorem estimate_fresh_peak_scaled (now : Instant) (p : Pump) (q : Q) :
  queueLength p = Some q -> avgQueueByHour p = None ->
  isPeakHour (getHours now) = true -> isWeekend (getDay now) = false ->
  20 < timeSinceUpdate now (lastUpdated p) <= 30 ->
  sd_predictedQueue (estimate now p) = JNum (inject_Z (Math_round (q * (13 # 10)))) /\
  sd_confidence (estimate now p) = 100 /\
  sd_isPrediction (estimate now p) = false.
Proof.
  intros Hq Hh Hp Hw [Ht1 Ht2]. rewrite estimate_fields, Hq, Hh.
  cbn [historical_blend fst snd num_or_zero sd_predictedQueue sd_confidence sd_isPrediction].
  unfold peak_adjust. rewrite Hp, Hw.
  replace (Qltb 20 _) with true by (symmetry; apply Qltb_true; exact Ht1).
  replace (Qltb 30 _) with false by (symmetry; apply Qltb_false; exact Ht2).
  auto.
Qed.

Lemma estimate_fresh_peak_scaled_witness :
  let p := test_pump (Some 10) (minutes_before tuesday_9am 25) None in
  sd_predictedQueue (estimate tuesday_9am p) = JNum 13 /\
  sd_confidence (estimate tuesday_9am p) = 100 /\
  sd_isPrediction (estimate tuesday_9am p) = false.
Proof.
  intros p. apply (estimate_fresh_peak_scaled _ _ 10);
    [reflexivity | reflexivity | reflexivity | reflexivity | ].
  split; [apply Qltb_true | apply Qle_bool_iff]; reflexivity.
Defined.

Lemma getMarkerIcon_unobserved (now : Instant) (p : Pump) :
  queueLength p = None -> lastUpdated p = None -> avgQueueByHour p = None ->
  (30 * 60000 < epoch_ms now)%Z ->
  fst (getMarkerIcon now p) = (Green, Approx (JNum 0)).
Proof.
  intros Hq Hl Hh Ht. unfold getMarkerIcon.
  pose proof (estimate_unobserved now p Hq Hl Hh Ht) as He. unfold estimate in He.
  destruct (calculateSmartQueueStatus now p) as [sd p']. cbn [fst] in He. subst sd.
  reflexivity.
Qed.

(** C10. A station that was never observed (no reading, no date, no
    history) is reported, at any instant after the first half hour of
    1970, as a confident prediction of an empty queue: green, predicted
    0, confidence 100, traffic low, flagged as a prediction.  On the map
    it gets a green pin labelled [~0], whatever its stored status: the
    loaders give such stations the status gray, and [getMarkerIcon]
    overrides it because the result is flagged as a prediction. *)
Theorem estimate_no_data (now : Instant) (p : Pump) :
  queueLength p = None -> lastUpdated p = None -> avgQueueByHour p = None ->
  (30 * 60000 < epoch_ms now)%Z ->
  estimate now p = mkSmartData Green (JNum 0) 100 Low true /\
  fst (getMarkerIcon now p) = (Green, Approx (JNum 0)).
Proof.
  intros Hq Hl Hh Ht.
  split; [apply estimate_unobserved | apply getMarkerIcon_unobserved]; assumption.
Qed.

Lemma estimate_no_data_witness :
  estimate tuesday_9am (test_pump None None None) = mkSmartData Green (JNum 0) 100 Low true /\
  fst (getMarkerIcon tuesday_9am (test_pump None None None)) = (Green, Approx (JNum 0)).
Proof. apply estimate_no_data; reflexivity. Defined.

(** ** The writes to the pump *)

(** The three fields [calculateSmartQueueStatus] writes into the
    pump are never read by it: estimating again from the updated pump,
    at any instant, gives what the original pump gives. *)
Theorem estimate_after_writes (now now' : Instant) (p : Pump) :
  estimate now' (snd (calculateSmartQueueStatus now p)) = estimate now' p.
Proof.
  destruct (calculateSmartQueueStatus_pump now p) as (d & v & c & ->). rewrite !estimate_fields. reflexivity.
Qed.

End SmartQueue.
