(* ===== verification/Store.v ===== *)
(** * Store: the state of a [CNGFlowApp] object ([src/public/app.js])

    The constructor (lines 3-13) creates [this.pumps], [this.markers],
    [this.selectedPump], [this.favorites] and [this.userPoints], the
    last two read from [localStorage].  The pumps are JavaScript objects
    shared by reference.  [this.pumps] is an array of such references.
    [this.selectedPump] keeps a reference to an object that a later load
    may drop from the array, and the handlers find "the" pump again with
    [this.pumps.find(p => p.id === ...)].  To keep this aliasing the model
    has a heap of pump objects indexed by [positive] references.
    A Leaflet marker holds its icon and popup as HTML rendered when
    [setIcon], [bindPopup] or [setPopupContent] ran; the state keeps the
    instant and the copy of the pump each was rendered from ([icons],
    [popups]), and [Views] renders them.

    [localStorage] holds strings.  The model keeps each key's decoded
    value: the favourites array of [JSON.stringify] and the number of
    [String(userPoints)].  A handler that throws a [TypeError] leaves the
    state as the writes before the throw made it: the outcome [Threw]
    carries that state. *)

From stdpp Require Import base gmap strings list.
From Stdlib Require Import String.
From S2P Require Import Prelude Clock Station SmartQueue.

(** The [type] argument of [showNotification]. *)
Inductive NoticeType : Type := NInfo | NSuccess | NWarning | NError.

Record Notice : Type := mkNotice { n_message : string; n_type : NoticeType }.

(** The keys of [localStorage] the class reads and writes. *)
Record Storage : Type := mkStorage {
  st_favorites : option (list string);
  st_userPoints : option Z;
  st_theme : option string;
  st_isPremium : option string
}.

Record App : Type := mkApp {
  heap : gmap positive Pump;
  next_ref : positive;
  pumps : list positive;
  markers : gset string;
  icons : gmap string (Instant * Pump);
  popups : gmap string (Instant * Pump);
  selectedPump : option positive;
  favorites : list string;
  userPoints : Z;
  storage : Storage;
  notification : option Notice;
  userLocation : option (Q * Q)
}.

(** A handler returns normally, or throws after some of its writes. *)
Inductive Outcome : Type :=
| Done (s : App)
| Threw (error : string) (s : App).

Definition outcome_state (o : Outcome) : App :=
  match o with Done s => s | Threw _ s => s end.

Lemma outcome_state_Done (s : App) : outcome_state (Done s) = s.
Proof. reflexivity. Qed.

(** ** Field updates *)

Definition set_heap (s : App) (h : gmap positive Pump) : App :=
  mkApp h (next_ref s) (pumps s) (markers s) (icons s) (popups s) (selectedPump s) (favorites s)
    (userPoints s) (storage s) (notification s) (userLocation s).

Definition set_pumps (s : App) (l : list positive) : App :=
  mkApp (heap s) (next_ref s) l (markers s) (icons s) (popups s) (selectedPump s) (favorites s)
    (userPoints s) (storage s) (notification s) (userLocation s).

Definition set_markers (s : App) (m : gset string) : App :=
  mkApp (heap s) (next_ref s) (pumps s) m (icons s) (popups s) (selectedPump s) (favorites s)
    (userPoints s) (storage s) (notification s) (userLocation s).

Definition set_selected (s : App) (r : option positive) : App :=
  mkApp (heap s) (next_ref s) (pumps s) (markers s) (icons s) (popups s) r (favorites s)
    (userPoints s) (storage s) (notification s) (userLocation s).

Definition set_favorites (s : App) (f : list string) : App :=
  mkApp (heap s) (next_ref s) (pumps s) (markers s) (icons s) (popups s) (selectedPump s) f
    (userPoints s) (storage s) (notification s) (userLocation s).

Definition set_points (s : App) (n : Z) : App :=
  mkApp (heap s) (next_ref s) (pumps s) (markers s) (icons s) (popups s) (selectedPump s) (favorites s)
    n (storage s) (notification s) (userLocation s).

Definition set_storage (s : App) (st : Storage) : App :=
  mkApp (heap s) (next_ref s) (pumps s) (markers s) (icons s) (popups s) (selectedPump s) (favorites s)
    (userPoints s) st (notification s) (userLocation s).

Definition set_location (s : App) (loc : option (Q * Q)) : App :=
  mkApp (heap s) (next_ref s) (pumps s) (markers s) (icons s) (popups s) (selectedPump s) (favorites s)
    (userPoints s) (storage s) (notification s) loc.

(** [marker.setIcon(this.getMarkerIcon(...))] or the [icon] option of
    [L.marker]: the icon of the marker of [id] is drawn from the object
    [p] at the instant [now]. *)
Definition set_icon (s : App) (id : string) (now : Instant) (p : Pump) : App :=
  mkApp (heap s) (next_ref s) (pumps s) (markers s) (<[id := (now, p)]> (icons s)) (popups s)
    (selectedPump s) (favorites s) (userPoints s) (storage s) (notification s) (userLocation s).

(** [marker.bindPopup(this.createPopupContent(pump))] or
    [setPopupContent]: the popup of the marker of [id] holds the HTML
    rendered from [p] at [now]. *)
Definition set_popup (s : App) (id : string) (now : Instant) (p : Pump) : App :=
  mkApp (heap s) (next_ref s) (pumps s) (markers s) (icons s) (<[id := (now, p)]> (popups s))
    (selectedPump s) (favorites s) (userPoints s) (storage s) (notification s) (userLocation s).

(** The marker layer replaced as a whole, the rest of the page kept: the
    form in which the lemmas state what a handler leaves. *)
Definition set_layer (s : App) (ic pp : gmap string (Instant * Pump)) : App :=
  mkApp (heap s) (next_ref s) (pumps s) (markers s) ic pp
    (selectedPump s) (favorites s) (userPoints s) (storage s) (notification s) (userLocation s).

(** [showNotification(message, type)]: the text shown last. *)
Definition showNotification (s : App) (msg : string) (ty : NoticeType) : App :=
  mkApp (heap s) (next_ref s) (pumps s) (markers s) (icons s) (popups s) (selectedPump s) (favorites s)
    (userPoints s) (storage s) (Some (mkNotice msg ty)) (userLocation s).

(** [localStorage.setItem('favorites', JSON.stringify(...))]. *)
Definition store_favorites (st : Storage) (f : list string) : Storage :=
  mkStorage (Some f) (st_userPoints st) (st_theme st) (st_isPremium st).

(** [localStorage.setItem('userPoints', this.userPoints)]. *)
Definition store_points (st : Storage) (n : Z) : Storage :=
  mkStorage (st_favorites st) (Some n) (st_theme st) (st_isPremium st).

(** [localStorage.setItem('theme', newTheme)]. *)
Definition store_theme (st : Storage) (t : string) : Storage :=
  mkStorage (st_favorites st) (st_userPoints st) (Some t) (st_isPremium st).

(** ** Objects *)

(** Allocating a new object, as an object literal does. *)
Definition alloc (s : App) (p : Pump) : positive * App :=
  let r := next_ref s in
  (r, mkApp (<[r := p]> (heap s)) (Pos.succ r) (pumps s) (markers s)
         (icons s) (popups s) (selectedPump s) (favorites s) (userPoints s) (storage s)
         (notification s) (userLocation s)).

(** Allocating one object per literal of an array, in order. *)
Fixpoint alloc_all (s : App) (l : list Pump) : list positive * App :=
  match l with
  | [] => ([], s)
  | p :: rest =>
      let '(r, s1) := alloc s p in
      let '(rs, s2) := alloc_all s1 rest in
      (r :: rs, s2)
  end.

(** [this.pumps.find(p => p.id === id)]: the first reference whose
    object has that id. *)
Fixpoint find_ref (h : gmap positive Pump) (l : list positive) (id : string) : option positive :=
  match l with
  | [] => None
  | r :: rest =>
      match h !! r with
      | Some p => if String.eqb (pid p) id then Some r else find_ref h rest id
      | None => find_ref h rest id
      end
  end.

(** Mutating the object behind a reference. *)
Definition write (s : App) (r : positive) (p : Pump) : App := set_heap s (<[r := p]> (heap s)).

(** The objects of [this.pumps], in order. *)
Definition pump_objects (s : App) : list Pump := omap (heap s !!.) (pumps s).

(** ** The constructor *)

(** [new CNGFlowApp()] up to its synchronous part: the favourites and the
    points are read from storage ([|| '[]'], [|| '0']); the map starts
    with no pumps and no markers. *)
Definition constructor (st : Storage) : App :=
  mkApp ∅ 1%positive [] ∅ ∅ ∅ None
    (default [] (st_favorites st)) (default 0%Z (st_userPoints st)) st None None.

(** ** Well-formedness *)

(** Every reference the state holds points to an object, and the
    allocator is fresh. *)
Definition wf (s : App) : Prop :=
  (∀ r, r ∈ pumps s → is_Some (heap s !! r)) ∧
  (∀ r, selectedPump s = Some r → is_Some (heap s !! r)) ∧
  (∀ r, is_Some (heap s !! r) → (r < next_ref s)%positive).

Lemma find_ref_in (h : gmap positive Pump) (l : list positive) (id : string) (r : positive) :
  find_ref h l id = Some r → r ∈ l ∧ ∃ p, h !! r = Some p ∧ pid p = id.
Proof.
  induction l as [|r' l IH]; simpl; [discriminate|].
  destruct (h !! r') as [p|] eqn:E.
  - destruct (String.eqb_spec (pid p) id) as [Heq|_].
    + intros [= <-]. split; [left|eauto].
    + intros H. destruct (IH H) as [Hin Hp]. split; [right; exact Hin|exact Hp].
  - intros H. destruct (IH H) as [Hin Hp]. split; [right; exact Hin|exact Hp].
Qed.

Lemma alloc_fresh (s : App) (p : Pump) :
  wf s → heap s !! next_ref s = None.
Proof.
  intros (_ & _ & Hfresh). destruct (heap s !! next_ref s) eqn:E; [|done].
  exfalso. specialize (Hfresh (next_ref s) ltac:(rewrite E; eauto)). lia.
Qed.

Lemma alloc_fields (s : App) (p : Pump) :
  heap (alloc s p).2 = <[next_ref s := p]> (heap s) ∧ next_ref (alloc s p).2 = Pos.succ (next_ref s) ∧
  pumps (alloc s p).2 = pumps s ∧ selectedPump (alloc s p).2 = selectedPump s ∧
  (alloc s p).1 = next_ref s.
Proof. repeat split. Qed.

Lemma alloc_other_fields (s : App) (p : Pump) :
  markers (alloc s p).2 = markers s ∧ favorites (alloc s p).2 = favorites s ∧
  userPoints (alloc s p).2 = userPoints s ∧ storage (alloc s p).2 = storage s ∧
  notification (alloc s p).2 = notification s ∧ userLocation (alloc s p).2 = userLocation s.
Proof. repeat split. Qed.

Lemma alloc_wf (s : App) (p : Pump) : wf s → wf (alloc s p).2.
Proof.
  intros Hwf. pose proof (alloc_fresh s p Hwf) as Hn. destruct Hwf as (Hp & Hs & Hf).
  unfold wf. destruct (alloc_fields s p) as (-> & -> & -> & -> & _). split; [|split].
  - intros r Hr. destruct (decide (r = next_ref s)) as [->|Hne].
    + rewrite lookup_insert_eq. eauto.
    + rewrite lookup_insert_ne by congruence. auto.
  - intros r Hr. destruct (decide (r = next_ref s)) as [->|Hne].
    + rewrite lookup_insert_eq. eauto.
    + rewrite lookup_insert_ne by congruence. auto.
  - intros r Hr. destruct (decide (r = next_ref s)) as [->|Hne]; [lia|].
    rewrite lookup_insert_ne in Hr by congruence. specialize (Hf r Hr). lia.
Qed.

(** [this.pumps.find] finds an object for the id of any object of the
    array. *)
Lemma find_ref_complete (h : gmap positive Pump) (l : list positive) (r : positive) (p : Pump) :
  r ∈ l → h !! r = Some p → ∃ r', find_ref h l (pid p) = Some r'.
Proof.
  induction l as [|r0 l IH]; intros Hr Hp; [inversion Hr|]. simpl.
  destruct (h !! r0) as [p0|] eqn:E.
  - destruct (String.eqb_spec (pid p0) (pid p)); [eauto|].
    apply elem_of_cons in Hr as [->|Hr]; [congruence | apply IH, Hp; exact Hr].
  - apply elem_of_cons in Hr as [->|Hr]; [congruence | apply IH, Hp; exact Hr].
Qed.

(** Writing an object with the same id does not change what
    [this.pumps.find] finds. *)
Lemma find_ref_write (h : gmap positive Pump) (l : list positive) (r : positive) (old p : Pump) (id : string) :
  h !! r = Some old → pid p = pid old → find_ref (<[r := p]> h) l id = find_ref h l id.
Proof.
  intros Hold Hpid. induction l as [|r0 l IH]; [reflexivity|]. simpl.
  destruct (decide (r0 = r)) as [->|Hne].
  - rewrite lookup_insert_eq, Hold, Hpid, IH. reflexivity.
  - rewrite lookup_insert_ne by congruence. rewrite IH. reflexivity.
Qed.

Lemma write_wf (s : App) (r : positive) (p : Pump) :
  wf s → is_Some (heap s !! r) → wf (write s r p).
Proof.
  intros (Hp & Hs & Hf) Hr. unfold wf.
  change (heap (write s r p)) with (<[r := p]> (heap s)).
  change (pumps (write s r p)) with (pumps s).
  change (selectedPump (write s r p)) with (selectedPump s).
  change (next_ref (write s r p)) with (next_ref s). split; [|split].
  - intros r' Hr'. destruct (decide (r' = r)) as [->|Hne];
      [rewrite lookup_insert_eq; eauto | rewrite lookup_insert_ne by congruence; auto].
  - intros r' Hr'. destruct (decide (r' = r)) as [->|Hne];
      [rewrite lookup_insert_eq; eauto | rewrite lookup_insert_ne by congruence; auto].
  - intros r' Hr'. destruct (decide (r' = r)) as [->|Hne]; [auto|].
    rewrite lookup_insert_ne in Hr' by congruence. auto.
Qed.

Lemma constructor_wf (st : Storage) : wf (constructor st).
Proof.
  unfold wf, constructor; simpl. split; [|split].
  - intros r Hr. inversion Hr.
  - discriminate.
  - intros r [x Hx]. rewrite lookup_empty in Hx. discriminate.
Qed.

(** ** Allocation of an array of literals *)

(** Everything but the heap and the allocator is left alone, the old
    objects are untouched, and the new references point to the literals
    in order. *)
Lemma alloc_all_spec (s : App) (l : list Pump) :
  wf s →
  let '(rs, s') := alloc_all s l in
  wf s' ∧ omap (heap s' !!.) rs = l ∧ length rs = length l ∧
  pumps s' = pumps s ∧ markers s' = markers s ∧ selectedPump s' = selectedPump s ∧
  favorites s' = favorites s ∧ userPoints s' = userPoints s ∧ storage s' = storage s ∧
  notification s' = notification s ∧ userLocation s' = userLocation s ∧
  (∀ r, (r < next_ref s)%positive → heap s' !! r = heap s !! r) ∧
  (∀ r, r ∈ rs → (next_ref s <= r)%positive) ∧ (next_ref s <= next_ref s')%positive.
Proof.
  revert s. induction l as [|p l IH]; intros s Hwf; cbn [alloc_all].
  { split; [exact Hwf|]. repeat split; auto; intros; try reflexivity; try lia.
    exfalso; eapply not_elem_of_nil; eassumption. }
  pose proof (alloc_fresh s p Hwf) as Hfresh.
  specialize (IH (alloc s p).2 (alloc_wf s p Hwf)).
  assert (Hf := alloc_fields s p). assert (Ho := alloc_other_fields s p).
  destruct (alloc s p) as [r s1] eqn:Ha. simpl in IH, Hf, Ho.
  destruct Ho as (Hm1 & Hf1 & Hu1 & Hst1 & Hn1 & Hl1).
  destruct Hf as (Hh & Hn & Hp & Hsel & ->).
  destruct (alloc_all s1 l) as [rs s2].
  destruct IH as (Hwf2 & Hobj & Hlen & Hp2 & Hm2 & Hs2 & Hf2 & Hu2 & Hst2 & Hn2 & Hl2 & Hold & Hnew & Hnext).
  assert (Hr : heap s2 !! next_ref s = Some p).
  { rewrite Hold by lia. rewrite Hh. apply lookup_insert_eq. }
  clear Ha.
  assert (Homap : omap (heap s2 !!.) (next_ref s :: rs) = p :: l).
  { rewrite <- Hobj. simpl. rewrite Hr. reflexivity. }
  rewrite Homap. split; [exact Hwf2|].
  split; [reflexivity|]. split; [simpl; congruence|].
  do 8 (split; [congruence|]). split; [|split].
  - intros r' Hlt. rewrite Hold by lia. rewrite Hh, lookup_insert_ne by lia. reflexivity.
  - intros r' Hin. apply elem_of_cons in Hin as [->|Hin]; [lia|]. specialize (Hnew r' Hin). lia.
  - lia.
Qed.

Lemma length_omap_le {A B} (f : A → option B) (l : list A) : length (omap f l) ≤ length l.
Proof.
  induction l as [|x l IH]; [simpl; lia|].
  change (omap f (x :: l)) with (match f x with Some y => y :: omap f l | None => omap f l end).
  destruct (f x); simpl; lia.
Qed.

Lemma omap_lookup_is_Some (h : gmap positive Pump) (rs : list positive) (l : list Pump) :
  omap (h !!.) rs = l → length rs = length l → ∀ r, r ∈ rs → is_Some (h !! r).
Proof.
  revert l. induction rs as [|r rs IH]; intros l Hom Hlen r' Hin; [set_solver|].
  change (omap (h !!.) (r :: rs)) with
    (match h !! r with Some y => y :: omap (h !!.) rs | None => omap (h !!.) rs end) in Hom.
  destruct (h !! r) as [p|] eqn:E.
  - destruct l as [|p' l]; [discriminate|]. injection Hom as _ Hom. simpl in Hlen.
    apply elem_of_cons in Hin as [->|Hin]; [eauto|]. eapply IH; [exact Hom|lia|exact Hin].
  - exfalso. pose proof (length_omap_le (h !!.) rs) as Hle. rewrite Hom in Hle. simpl in Hlen. lia.
Qed.

Lemma wf_set_pumps (s : App) (rs : list positive) :
  wf s → (∀ r, r ∈ rs → is_Some (heap s !! r)) → wf (set_pumps s rs).
Proof. intros (Hp & Hs & Hf) Hrs. split; [exact Hrs | split; assumption]. Qed.

Lemma wf_showNotification (s : App) (m : string) (t : NoticeType) :
  wf s → wf (showNotification s m t).
Proof. intros H. exact H. Qed.

Lemma wf_set_markers (s : App) (m : gset string) : wf s → wf (set_markers s m).
Proof. intros H. exact H. Qed.

(** The ids of the pumps of [this.pumps], in order. *)
Definition pids (s : App) : list string := map pid (pump_objects s).

Lemma map_pid_omap_ext (h1 h2 : gmap positive Pump) (l : list positive) :
  (∀ r, pid <$> h1 !! r = pid <$> h2 !! r) →
  map pid (omap (h1 !!.) l) = map pid (omap (h2 !!.) l).
Proof.
  intros H. induction l as [|r l IH]; [reflexivity|].
  change (omap (h1 !!.) (r :: l)) with
    (match h1 !! r with Some y => y :: omap (h1 !!.) l | None => omap (h1 !!.) l end).
  change (omap (h2 !!.) (r :: l)) with
    (match h2 !! r with Some y => y :: omap (h2 !!.) l | None => omap (h2 !!.) l end).
  specialize (H r). destruct (h1 !! r), (h2 !! r); simpl in H; try discriminate.
  - injection H as Hp. simpl. rewrite Hp, IH. reflexivity.
  - exact IH.
Qed.

(** Writing an object with the same id as the one it replaces keeps the
    ids of [this.pumps]. *)
Lemma write_pids (s : App) (r : positive) (old p : Pump) :
  heap s !! r = Some old → pid p = pid old → pids (write s r p) = pids s.
Proof.
  intros Hold Hpid. unfold pids, pump_objects.
  change (heap (write s r p)) with (<[r := p]> (heap s)).
  change (pumps (write s r p)) with (pumps s).
  apply map_pid_omap_ext. intros r'. destruct (decide (r' = r)) as [->|Hne].
  - rewrite lookup_insert_eq, Hold. simpl. rewrite Hpid. reflexivity.
  - rewrite lookup_insert_ne by congruence. reflexivity.
Qed.

Lemma write_write (s : App) (r : positive) (p1 p2 : Pump) : write (write s r p1) r p2 = write s r p2.
Proof. unfold write, set_heap. f_equal. apply insert_insert_eq. Qed.

(** The marker layer commutes with the writes to the heap. *)
Lemma write_set_layer (s : App) (ic pp : gmap string (Instant * Pump)) (r : positive) (p : Pump) :
  write (set_layer s ic pp) r p = set_layer (write s r p) ic pp.
Proof. reflexivity. Qed.

Lemma set_icon_layer (s : App) (id : string) (t : Instant) (p : Pump) :
  set_icon s id t p = set_layer s (<[id := (t, p)]> (icons s)) (popups s).
Proof. reflexivity. Qed.

Lemma set_popup_layer (s : App) (id : string) (t : Instant) (p : Pump) :
  set_popup s id t p = set_layer s (icons s) (<[id := (t, p)]> (popups s)).
Proof. reflexivity. Qed.

Lemma set_layer_layer (s : App) (ic pp ic' pp' : gmap string (Instant * Pump)) :
  set_layer (set_layer s ic pp) ic' pp' = set_layer s ic' pp'.
Proof. reflexivity. Qed.

Lemma wf_set_layer (s : App) (ic pp : gmap string (Instant * Pump)) : wf s → wf (set_layer s ic pp).
Proof. intros H. exact H. Qed.

#[export] Hint Rewrite set_icon_layer set_popup_layer write_set_layer set_layer_layer write_write : layer.

Lemma write_fields (s : App) (r : positive) (p : Pump) :
  pumps (write s r p) = pumps s ∧ markers (write s r p) = markers s ∧
  selectedPump (write s r p) = selectedPump s ∧ favorites (write s r p) = favorites s ∧
  userPoints (write s r p) = userPoints s ∧ storage (write s r p) = storage s ∧
  userLocation (write s r p) = userLocation s ∧ next_ref (write s r p) = next_ref s.
Proof. repeat split. Qed.

Lemma wf_set_location (s : App) (loc : option (Q * Q)) : wf s → wf (set_location s loc).
Proof. intros H. exact H. Qed.

Lemma pids_showNotification (s : App) (m : string) (t : NoticeType) :
  pids (showNotification s m t) = pids s.
Proof. reflexivity. Qed.

Lemma pump_objects_set_pumps_alloc (s : App) (l : list Pump) :
  wf s → let '(rs, s1) := alloc_all s l in
  pump_objects (set_pumps s1 rs) = l ∧ wf (set_pumps s1 rs) ∧ markers s1 = markers s ∧
  userLocation s1 = userLocation s.
Proof.
  intros Hwf. pose proof (alloc_all_spec s l Hwf) as H. destruct (alloc_all s l) as [rs s1].
  destruct H as (Hw & Hom & Hlen & _ & Hm & _ & _ & _ & _ & _ & Hl & _).
  split; [exact Hom|]. split; [|split; assumption].
  apply wf_set_pumps; [exact Hw|]. exact (omap_lookup_is_Some _ _ _ Hom Hlen).
Qed.
