(* ===== verification/Loaders.v ===== *)
(** * Loaders: how [CNGFlowApp] fills [this.pumps] ([src/public/app.js])

    - [loadSampleData] (lines 243-466) replaces the pumps by twelve
      sample objects, each dated relative to [Date.now()].
    - [loadKnownCNGStations] (lines 174-229) loads three curated stations
      and then calls [loadSampleData], which replaces them.
    - [loadRealCNGStations] (lines 83-162) maps the elements of an
      Overpass answer with [formatAddress] (lines 164-172).
    - [addPumpMarkers] (lines 481-508) and [updateDistances] (lines
      1121-1145) are called by the loaders.
    - [extractBrand] (lines 231-241), which no code calls.
    The haversine [calculateDistance] is a parameter of the section
    ([Distance] defines it).  The Overpass request is an input: its
    failure or its decoded elements. *)

From stdpp Require Import base gmap strings list sorting.
From Stdlib Require Import String.
From S2P Require Import Prelude Clock JsString Station SmartQueue Store.

Local Open Scope string_scope.
Import SmartQueue.

Module Loaders.

(** ** The sample data of [loadSampleData] *)

(** [pump_001]: [Indian Oil - Sector 18]. *)
Definition pump_001 (now_ms : Z) : Pump :=
  {| pid := "pump_001"; name := "Indian Oil - Sector 18";
     location := (28.5672, 77.3256); address := "Sector 18, Noida, UP";
     brand := "Indian Oil"; queueStatus := Green; queueLength := Some 3;
     lastUpdated := Some (now_ms - 15 * 60000)%Z; distance := Some 2.5;
     avgQueueByHour := Some [0; 0; 0; 0; 2; 5; 8; 12; 15; 10; 8; 12; 18; 15; 12; 10; 8; 15; 20; 18; 12; 8; 5; 2];
     trafficDensity := Some Low; predictedQueue := None; predictionConfidence := None |}.

(** [pump_002]: [Bharat Petroleum - DLF Phase 2]. *)
Definition pump_002 (now_ms : Z) : Pump :=
  {| pid := "pump_002"; name := "Bharat Petroleum - DLF Phase 2";
     location := (28.4912, 77.0895); address := "DLF Phase 2, Gurgaon, Haryana";
     brand := "Bharat Petroleum"; queueStatus := Yellow; queueLength := Some 12;
     lastUpdated := Some (now_ms - 30 * 60000)%Z; distance := Some 5.1;
     avgQueueByHour := Some [2; 1; 1; 1; 3; 8; 15; 20; 25; 18; 15; 18; 22; 20; 18; 15; 12; 18; 25; 22; 15; 10; 5; 3];
     trafficDensity := Some Medium; predictedQueue := None; predictionConfidence := None |}.

(** [pump_003]: [IGL Station - Connaught Place]. *)
Definition pump_003 (now_ms : Z) : Pump :=
  {| pid := "pump_003"; name := "IGL Station - Connaught Place";
     location := (28.6315, 77.2167); address := "Connaught Place, New Delhi";
     brand := "IGL"; queueStatus := Red; queueLength := Some 25;
     lastUpdated := Some (now_ms - 5 * 60000)%Z; distance := Some 8.3;
     avgQueueByHour := None;
     trafficDensity := None; predictedQueue := None; predictionConfidence := None |}.

(** [pump_004]: [Indian Oil - Dwarka]. *)
Definition pump_004 (now_ms : Z) : Pump :=
  {| pid := "pump_004"; name := "Indian Oil - Dwarka";
     location := (28.5921, 77.0460); address := "Sector 6, Dwarka, New Delhi";
     brand := "Indian Oil"; queueStatus := Green; queueLength := Some 0;
     lastUpdated := Some (now_ms - 45 * 60000)%Z; distance := Some 12.7;
     avgQueueByHour := None;
     trafficDensity := None; predictedQueue := None; predictionConfidence := None |}.

(** [pump_005]: [Shell - Greater Noida]. *)
Definition pump_005 (now_ms : Z) : Pump :=
  {| pid := "pump_005"; name := "Shell - Greater Noida";
     location := (28.4744, 77.5040); address := "Knowledge Park, Greater Noida";
     brand := "Shell"; queueStatus := Gray; queueLength := None;
     lastUpdated := Some (now_ms - 120 * 60000)%Z; distance := Some 15.2;
     avgQueueByHour := Some [1; 0; 0; 0; 2; 5; 10; 15; 18; 12; 10; 14; 20; 18; 15; 12; 10; 15; 18; 15; 10; 6; 3; 2];
     trafficDensity := Some Low; predictedQueue := None; predictionConfidence := None |}.

(** [pump_006]: [Indian Oil - Rohini Sector 3]. *)
Definition pump_006 (now_ms : Z) : Pump :=
  {| pid := "pump_006"; name := "Indian Oil - Rohini Sector 3";
     location := (28.7495, 77.1045); address := "Sector 3, Rohini, Delhi";
     brand := "Indian Oil"; queueStatus := Yellow; queueLength := Some 10;
     lastUpdated := Some (now_ms - 25 * 60000)%Z; distance := Some 8.5;
     avgQueueByHour := Some [1; 1; 0; 1; 3; 7; 12; 18; 20; 15; 12; 15; 22; 18; 15; 12; 10; 18; 22; 20; 15; 8; 4; 2];
     trafficDensity := Some Medium; predictedQueue := None; predictionConfidence := None |}.

(** [pump_007]: [Bharat Petroleum - Janakpuri]. *)
Definition pump_007 (now_ms : Z) : Pump :=
  {| pid := "pump_007"; name := "Bharat Petroleum - Janakpuri";
     location := (28.6219, 77.0878); address := "District Centre, Janakpuri, Delhi";
     brand := "Bharat Petroleum"; queueStatus := Green; queueLength := Some 2;
     lastUpdated := Some (now_ms - 10 * 60000)%Z; distance := Some 7.2;
     avgQueueByHour := Some [2; 1; 1; 1; 4; 8; 14; 20; 22; 16; 12; 14; 20; 18; 14; 11; 9; 16; 20; 18; 14; 10; 6; 3];
     trafficDensity := Some Low; predictedQueue := None; predictionConfidence := None |}.

(** [pump_008]: [IGL Station - Vasant Kunj]. *)
Definition pump_008 (now_ms : Z) : Pump :=
  {| pid := "pump_008"; name := "IGL Station - Vasant Kunj";
     location := (28.5245, 77.1492); address := "Vasant Kunj, New Delhi";
     brand := "IGL"; queueStatus := Red; queueLength := Some 22;
     lastUpdated := Some (now_ms - 8 * 60000)%Z; distance := Some 10.3;
     avgQueueByHour := Some [2; 1; 1; 2; 5; 10; 16; 22; 25; 18; 14; 16; 24; 20; 16; 13; 11; 20; 25; 22; 16; 12; 8; 4];
     trafficDensity := Some High; predictedQueue := None; predictionConfidence := None |}.

(** [pump_009]: [Indian Oil - Mayur Vihar]. *)
Definition pump_009 (now_ms : Z) : Pump :=
  {| pid := "pump_009"; name := "Indian Oil - Mayur Vihar";
     location := (28.6083, 77.2908); address := "Mayur Vihar Phase 1, Delhi";
     brand := "Indian Oil"; queueStatus := Yellow; queueLength := Some 13;
     lastUpdated := Some (now_ms - 40 * 60000)%Z; distance := Some 4.8;
     avgQueueByHour := Some [1; 1; 0; 1; 3; 8; 15; 20; 22; 16; 12; 14; 20; 17; 14; 11; 9; 17; 22; 20; 15; 10; 5; 2];
     trafficDensity := Some Medium; predictedQueue := None; predictionConfidence := None |}.

(** [pump_010]: [Shell - Saket]. *)
Definition pump_010 (now_ms : Z) : Pump :=
  {| pid := "pump_010"; name := "Shell - Saket";
     location := (28.5244, 77.2066); address := "Saket District Centre, Delhi";
     brand := "Shell"; queueStatus := Green; queueLength := Some 4;
     lastUpdated := Some (now_ms - 12 * 60000)%Z; distance := Some 9.1;
     avgQueueByHour := Some [2; 1; 1; 1; 4; 9; 15; 20; 23; 17; 13; 15; 21; 18; 15; 12; 10; 18; 23; 20; 15; 11; 6; 3];
     trafficDensity := Some Low; predictedQueue := None; predictionConfidence := None |}.

(** [pump_011]: [Bharat Petroleum - Faridabad]. *)
Definition pump_011 (now_ms : Z) : Pump :=
  {| pid := "pump_011"; name := "Bharat Petroleum - Faridabad";
     location := (28.4089, 77.3178); address := "Sector 15, Faridabad, Haryana";
     brand := "Bharat Petroleum"; queueStatus := Yellow; queueLength := Some 14;
     lastUpdated := Some (now_ms - 35 * 60000)%Z; distance := Some 18.5;
     avgQueueByHour := Some [1; 0; 0; 1; 3; 7; 14; 19; 21; 15; 11; 13; 19; 16; 13; 10; 8; 16; 21; 19; 14; 9; 5; 2];
     trafficDensity := Some Medium; predictedQueue := None; predictionConfidence := None |}.

(** [pump_012]: [IGL Station - Karol Bagh]. *)
Definition pump_012 (now_ms : Z) : Pump :=
  {| pid := "pump_012"; name := "IGL Station - Karol Bagh";
     location := (28.6514, 77.1907); address := "Karol Bagh, Central Delhi";
     brand := "IGL"; queueStatus := Red; queueLength := Some 28;
     lastUpdated := Some (now_ms - 20 * 60000)%Z; distance := Some 6.4;
     avgQueueByHour := Some [3; 2; 1; 2; 6; 12; 18; 25; 28; 20; 16; 18; 26; 22; 18; 15; 13; 22; 28; 25; 18; 14; 10; 5];
     trafficDensity := Some High; predictedQueue := None; predictionConfidence := None |}.

Definition sample_pumps (now_ms : Z) : list Pump :=
  [pump_001 now_ms; pump_002 now_ms; pump_003 now_ms; pump_004 now_ms;
   pump_005 now_ms; pump_006 now_ms; pump_007 now_ms; pump_008 now_ms;
   pump_009 now_ms; pump_010 now_ms; pump_011 now_ms; pump_012 now_ms].

(** [loadSampleData()]: [this.pumps = [ ... ]], new objects. *)
Definition loadSampleData (now_ms : Z) (s : App) : App :=
  let '(rs, s1) := alloc_all s (sample_pumps now_ms) in set_pumps s1 rs.

(** ** The curated stations of [loadKnownCNGStations] *)

Record KnownStation : Type := mkKnown {
  k_id : string; k_name : string; k_location : Q * Q; k_address : string; k_brand : string
}.

Definition knownStations : list KnownStation :=
  [mkKnown "real_001" "Indian Oil CNG Station - Noida Sector 18" (28.5703, 77.3219)
     "Sector 18, Noida, Uttar Pradesh" "Indian Oil";
   mkKnown "real_002" "IGL CNG Station - Connaught Place" (28.6328, 77.2197)
     "Connaught Place, New Delhi" "IGL";
   mkKnown "real_003" "Bharat Gas CNG - Gurgaon Sector 29" (28.4601, 77.0725)
     "Sector 29, Gurgaon, Haryana" "Bharat Gas"].

(** [{...station, queueStatus: 'gray', queueLength: null, lastUpdated:
    null, distance: null, isReal: true}]. *)
Definition known_to_pump (k : KnownStation) : Pump :=
  {| pid := k_id k; name := k_name k; location := k_location k;
     address := k_address k; brand := k_brand k; queueStatus := Gray;
     queueLength := None; lastUpdated := None; distance := None;
     avgQueueByHour := None; trafficDensity := None; predictedQueue := None;
     predictionConfidence := None |}.

(** ** Markers and distances *)

Section WithDistance.

(** [calculateDistance(lat1, lon1, lat2, lon2)]: the haversine formula,
    rounded to a tenth of a kilometre, is not modelled. *)
Variable calculateDistance : Q -> Q -> Q -> Q -> Q.

(** One pump of [addPumpMarkers] (lines 481-507): [getMarkerIcon] and
    [createPopupContent] each run [calculateSmartQueueStatus] on it; the
    marker's icon is drawn from the pump as it was, its popup from the
    pump after the icon's writes, and the marker is stored under its
    id. *)
Definition add_marker (now : Instant) (s : App) (r : positive) : App :=
  match heap s !! r with
  | Some p =>
      let p1 := snd (getMarkerIcon now p) in
      let p2 := snd (calculateSmartQueueStatus now p1) in
      set_markers (set_popup (set_icon (write s r p2) (pid p) now p) (pid p) now p1)
        ({[pid p]} ∪ markers s)
  | None => s
  end.

(** [addPumpMarkers()]. *)
Definition addPumpMarkers (now : Instant) (s : App) : App :=
  fold_left (add_marker now) (pumps s) s.

(** The sort key of [(a, b) => a.distance - b.distance]: a [null]
    distance counts as [0]. *)
Definition distance_key (s : App) (r : positive) : Q :=
  match heap s !! r with Some p => num_or_zero (distance p) | None => 0 end.

(** A stable insertion by key: [Array.prototype.sort] is stable, and a
    stable sort by a consistent comparator has a unique result. *)
Fixpoint insert_by {A} (key : A -> Q) (x : A) (l : list A) : list A :=
  match l with
  | [] => [x]
  | y :: rest => if Qle_bool (key x) (key y) then x :: y :: rest else y :: insert_by key x rest
  end.

Definition sort_by {A} (key : A -> Q) (l : list A) : list A :=
  fold_right (insert_by key) [] l.

(** One pump of [updateDistances]: the new distance, and a new icon
    (one more [calculateSmartQueueStatus]) when it has a marker. *)
Definition update_distance (now : Instant) (loc : Q * Q) (s : App) (r : positive) : App :=
  match heap s !! r with
  | Some p =>
      let p1 := set_distance p (calculateDistance loc.1 loc.2 (location p).1 (location p).2) in
      if bool_decide (pid p1 ∈ markers s) then set_icon (write s r (snd (getMarkerIcon now p1))) (pid p1) now p1
      else write s r p1
  | None => s
  end.

(** [updateDistances()]: nothing without a user location; otherwise new
    distances, then [this.pumps.sort] by distance, in place. *)
Definition updateDistances (now : Instant) (s : App) : App :=
  match userLocation s with
  | None => s
  | Some loc =>
      let s1 := fold_left (update_distance now loc) (pumps s) s in
      set_pumps s1 (sort_by (distance_key s1) (pumps s1))
  end.

(** [loadKnownCNGStations()]: the curated list, then, because it has
    fewer than five stations, [loadSampleData()], which replaces it. *)
Definition loadKnownCNGStations (now : Instant) (s : App) : App :=
  let '(rs, s1) := alloc_all s (map known_to_pump knownStations) in
  let s2 := set_pumps s1 rs in
  if (length rs <? 5)%nat
  then loadSampleData (epoch_ms now)
         (showNotification s2 "Limited real data, adding sample stations" NInfo)
  else showNotification (addPumpMarkers now (updateDistances now s2))
         ("Loaded " ++ string_of_Z (Z.of_nat (length rs)) ++ " known CNG stations") NSuccess.

(** ** OpenStreetMap *)

(** An element of the Overpass answer: [el.id], [el.lat], [el.lon] and
    [el.tags] (a JSON object, here its key-value pairs). *)
Record OsmElement : Type := mkOsm {
  osm_id : Z;
  osm_lat : option Q;
  osm_lon : option Q;
  osm_tags : option (list (string * string))
}.

(** [tags?.[k]]. *)
Definition tag (tags : option (list (string * string))) (k : string) : option string :=
  match tags with
  | Some l => option_map snd (List.find (fun kv => String.eqb kv.1 k) l)
  | None => None
  end.

(** [if (tags?.[k]) parts.push(tags[k])]. *)
Definition truthy_tag (tags : option (list (string * string))) (k : string) : option string :=
  match tag tags k with Some v => if truthy v then Some v else None | None => None end.

(** [formatAddress(tags)]. *)
Definition formatAddress (tags : option (list (string * string))) : string :=
  let parts := omap (truthy_tag tags)
                 ["addr:housenumber"; "addr:street"; "addr:city"; "addr:postcode"] in
  match parts with
  | [] => str_or (tag tags "addr:full") "Address not available"
  | _ => join ", " parts
  end.

(** [el => el.lat && el.lon]. *)
Definition osm_has_coords (el : OsmElement) : bool :=
  num_truthy (osm_lat el) && num_truthy (osm_lon el).

(** The object built by [.map((el, index) => ({ ... }))]. *)
Definition osm_to_pump (index : nat) (el : OsmElement) : Pump :=
  let t := osm_tags el in
  {| pid := "osm_" ++ string_of_Z (osm_id el);
     name := str_or (opt_str_or (tag t "name") (tag t "operator"))
               ("CNG Station " ++ string_of_Z (Z.of_nat index + 1));
     location := (default 0 (osm_lat el), default 0 (osm_lon el));
     address := formatAddress t;
     brand := str_or (opt_str_or (tag t "brand") (tag t "operator")) "Independent";
     queueStatus := Gray; queueLength := None; lastUpdated := None;
     distance := None; avgQueueByHour := None; trafficDensity := None;
     predictedQueue := None; predictionConfidence := None |}.

(** What [fetch] and [response.json()] give: a rejection, or the
    decoded [data] with its optional [elements] array. *)
Inductive OverpassAnswer : Type :=
| OverpassFailed
| OverpassData (elements : option (list OsmElement)).

(** [loadRealCNGStations()]. *)
Definition loadRealCNGStations (now : Instant) (answer : OverpassAnswer) (s : App) : App :=
  match userLocation s with
  | None => loadKnownCNGStations now s
  | Some _ =>
      let s0 := showNotification s "Searching for real CNG stations..." NInfo in
      match answer with
      | OverpassFailed => loadKnownCNGStations now s0
      | OverpassData (Some ((_ :: _) as els)) =>
          let '(rs, s1) := alloc_all s0 (imap osm_to_pump (filter osm_has_coords els)) in
          let s2 := addPumpMarkers now (updateDistances now (set_pumps s1 rs)) in
          showNotification s2
            ("Found " ++ string_of_Z (Z.of_nat (length rs)) ++ " real CNG stations!") NSuccess
      | OverpassData _ => showNotification s0 "No CNG stations found in your area" NWarning
      end
  end.

End WithDistance.

(** [extractBrand(name)] (lines 231-241): the first brand of the list
    that the lower-cased name contains, by substring.  No code calls it:
    [loadRealCNGStations] uses [el.tags?.brand] or ['Independent']. *)
Definition extract_brands : list string :=
  ["Indian Oil"; "Bharat Petroleum"; "HP"; "Shell"; "IGL"; "Mahanagar Gas"].

Fixpoint find_brand (nameLower : string) (brands : list string) : string :=
  match brands with
  | [] => "Independent"
  | b :: rest => if includes nameLower (toLowerCase b) then b else find_brand nameLower rest
  end.

Definition extractBrand (name : string) : string := find_brand (toLowerCase name) extract_brands.

(** ** Lemmas on the loaders *)

Lemma insert_by_perm {A} (key : A -> Q) (x : A) (l : list A) : insert_by key x l ≡ₚ x :: l.
Proof.
  induction l as [|y l IH]; simpl; [reflexivity|].
  destruct (Qle_bool (key x) (key y)); [reflexivity|].
  rewrite IH. apply Permutation_swap.
Qed.

Lemma sort_by_perm {A} (key : A -> Q) (l : list A) : sort_by key l ≡ₚ l.
Proof.
  induction l as [|x l IH]; simpl; [reflexivity|]. rewrite insert_by_perm, IH. reflexivity.
Qed.

Section LoaderLemmas.

Variable calculateDistance : Q -> Q -> Q -> Q -> Q.

Lemma add_marker_inv (now : Instant) (s : App) (r : positive) :
  wf s -> wf (add_marker now s r) /\ pids (add_marker now s r) = pids s /\
  pumps (add_marker now s r) = pumps s /\ selectedPump (add_marker now s r) = selectedPump s.
Proof.
  intros Hwf. unfold add_marker. destruct (heap s !! r) as [p|] eqn:E; [|auto].
  split; [apply wf_set_markers, write_wf; eauto|].
  split; [|split; reflexivity].
  apply (write_pids s r p). { exact E. }
  rewrite getMarkerIcon_pump, !calculateSmartQueueStatus_pid. reflexivity.
Qed.

Lemma addPumpMarkers_inv (now : Instant) (s : App) :
  wf s -> wf (addPumpMarkers now s) /\ pids (addPumpMarkers now s) = pids s /\
  pumps (addPumpMarkers now s) = pumps s.
Proof.
  intros Hwf. unfold addPumpMarkers.
  apply (fold_left_preserve (fun s' => wf s' /\ pids s' = pids s /\ pumps s' = pumps s)).
  - intros s' r (Hw & Hp & Hq). destruct (add_marker_inv now s' r Hw) as (? & ? & ? & _).
    split; [assumption | split; congruence].
  - auto.
Qed.

Lemma update_distance_inv (now : Instant) (loc : Q * Q) (s : App) (r : positive) :
  wf s -> wf (update_distance calculateDistance now loc s r) /\
  pids (update_distance calculateDistance now loc s r) = pids s /\
  pumps (update_distance calculateDistance now loc s r) = pumps s /\
  userLocation (update_distance calculateDistance now loc s r) = userLocation s.
Proof.
  intros Hwf. unfold update_distance. destruct (heap s !! r) as [p|] eqn:E; [|auto].
  case_bool_decide; (split; [apply write_wf; eauto|]); (split; [|split; reflexivity]);
    (apply (write_pids s r p); [exact E|]);
    [rewrite getMarkerIcon_pump, calculateSmartQueueStatus_pid|]; reflexivity.
Qed.

(** The object [update_distance] leaves behind the reference: the new
    distance, with the estimate of the redrawn icon when there is a
    marker. *)
Lemma update_distance_heap (now : Instant) (loc : Q * Q) (s : App) (r : positive) :
  heap (update_distance calculateDistance now loc s r) =
  match heap s !! r with
  | Some p =>
      let p1 := set_distance p (calculateDistance loc.1 loc.2 (location p).1 (location p).2) in
      <[r := if bool_decide (pid p1 ∈ markers s) then snd (getMarkerIcon now p1) else p1]> (heap s)
  | None => heap s
  end.
Proof. unfold update_distance. destruct (heap s !! r); [case_bool_decide|]; reflexivity. Qed.

Lemma updateDistances_inv (now : Instant) (s : App) :
  wf s -> wf (updateDistances calculateDistance now s) /\
  pids (updateDistances calculateDistance now s) ≡ₚ pids s.
Proof.
  intros Hwf. unfold updateDistances. destruct (userLocation s) as [loc|]; [|auto].
  set (s1 := fold_left _ (pumps s) s).
  assert (H1 : wf s1 /\ pids s1 = pids s /\ pumps s1 = pumps s).
  { apply (fold_left_preserve (fun s' => wf s' /\ pids s' = pids s /\ pumps s' = pumps s)).
    - intros s' r (Hw & Hp & Hq). destruct (update_distance_inv now loc s' r Hw) as (? & ? & ? & _).
      split; [assumption | split; congruence].
    - auto. }
  destruct H1 as (Hw1 & Hp1 & _). split.
  - apply wf_set_pumps; [exact Hw1|]. intros r Hr.
    apply (proj1 Hw1). rewrite <- (sort_by_perm (distance_key s1) (pumps s1)). exact Hr.
  - rewrite <- Hp1. unfold pids, pump_objects. cbn [heap pumps set_pumps].
    rewrite (sort_by_perm (distance_key s1) (pumps s1)). reflexivity.
Qed.

Lemma loadSampleData_spec (now_ms : Z) (s : App) :
  wf s -> pump_objects (loadSampleData now_ms s) = sample_pumps now_ms /\
  wf (loadSampleData now_ms s) /\ markers (loadSampleData now_ms s) = markers s.
Proof.
  intros Hwf. unfold loadSampleData.
  pose proof (pump_objects_set_pumps_alloc s (sample_pumps now_ms) Hwf) as H.
  destruct (alloc_all s (sample_pumps now_ms)) as [rs s1]. destruct H as (? & ? & ? & _). auto.
Qed.

Lemma map_pid_imap_osm (l : list OsmElement) (f : nat -> OsmElement -> Pump) :
  (forall i el, pid (f i el) = "osm_" ++ string_of_Z (osm_id el)) ->
  map pid (imap f l) = map (fun el => "osm_" ++ string_of_Z (osm_id el)) l.
Proof.
  revert f. induction l as [|el l IH]; intros f Hf; [reflexivity|].
  rewrite imap_cons. simpl. rewrite Hf, (IH (f ∘ S)); [reflexivity|]. intros i e. apply Hf.
Qed.

(** What [loadKnownCNGStations] leaves: the samples only, no new marker. *)
Lemma loadKnownCNGStations_spec (now : Instant) (s : App) :
  wf s ->
  pump_objects (loadKnownCNGStations calculateDistance now s) = sample_pumps (epoch_ms now) /\
  markers (loadKnownCNGStations calculateDistance now s) = markers s /\
  wf (loadKnownCNGStations calculateDistance now s).
Proof.
  intros Hwf. unfold loadKnownCNGStations.
  pose proof (alloc_all_spec s (map known_to_pump knownStations) Hwf) as H.
  destruct (alloc_all s (map known_to_pump knownStations)) as [rs s1].
  destruct H as (Hw & Hom & Hlen & _ & Hm & _).
  replace (length rs <? 5)%nat with true by (rewrite Hlen; reflexivity).
  assert (Hw2 : wf (showNotification (set_pumps s1 rs) "Limited real data, adding sample stations" NInfo)).
  { apply wf_showNotification, wf_set_pumps; [exact Hw|].
    exact (omap_lookup_is_Some _ _ _ Hom Hlen). }
  destruct (loadSampleData_spec (epoch_ms now) _ Hw2) as (H1 & H2 & H3).
  split; [exact H1|]. split; [rewrite H3; exact Hm | exact H2].
Qed.

(** C14. The stations loaded from an Overpass answer with elements are
    the elements with a truthy latitude and longitude, as [osm_<id>]
    ids, reordered by distance.  An element at latitude or longitude
    exactly [0] is dropped, and so is every way or relation (they have
    no coordinates). *)
Theorem loadRealCNGStations_ids (now : Instant) (s : App) (loc : Q * Q) (els : list OsmElement) :
  wf s -> userLocation s = Some loc -> els <> [] ->
  wf (loadRealCNGStations calculateDistance now (OverpassData (Some els)) s) /\
  pids (loadRealCNGStations calculateDistance now (OverpassData (Some els)) s) ≡ₚ
    map (fun el => "osm_" ++ string_of_Z (osm_id el)) (filter osm_has_coords els).
Proof.
  intros Hwf Hloc Hne. unfold loadRealCNGStations. rewrite Hloc.
  destruct els as [|el0 els']; [contradiction|].
  set (kept := filter osm_has_coords (el0 :: els')).
  set (s0 := showNotification s "Searching for real CNG stations..." NInfo).
  pose proof (pump_objects_set_pumps_alloc s0 (imap osm_to_pump kept)
                (wf_showNotification _ _ _ Hwf)) as H.
  destruct (alloc_all s0 (imap osm_to_pump kept)) as [rs s1].
  destruct H as (Hobj & Hw1 & _ & _).
  destruct (updateDistances_inv now (set_pumps s1 rs) Hw1) as (Hw2 & Hp2).
  destruct (addPumpMarkers_inv now _ Hw2) as (Hw3 & Hp3 & _).
  split; [apply wf_showNotification, Hw3|].
  rewrite pids_showNotification, Hp3, Hp2. unfold pids. rewrite Hobj.
  rewrite (map_pid_imap_osm kept osm_to_pump) by reflexivity. reflexivity.
Qed.

Lemma loadRealCNGStations_wf (now : Instant) (a : OverpassAnswer) (s : App) :
  wf s -> wf (loadRealCNGStations calculateDistance now a s).
Proof.
  intros Hwf. unfold loadRealCNGStations. destruct (userLocation s).
  2: { apply loadKnownCNGStations_spec, Hwf. }
  destruct a as [|[[|el els]|]].
  - apply loadKnownCNGStations_spec, wf_showNotification, Hwf.
  - apply wf_showNotification, wf_showNotification, Hwf.
  - match goal with |- context [alloc_all ?x ?l] =>
      pose proof (pump_objects_set_pumps_alloc x l (wf_showNotification _ _ _ Hwf)) as H;
      destruct (alloc_all x l) end.
    destruct H as (_ & Hw1 & _).
    apply wf_showNotification, addPumpMarkers_inv, updateDistances_inv, Hw1.
  - apply wf_showNotification, wf_showNotification, Hwf.
Qed.

End LoaderLemmas.

(** An element without tags (such as the member nodes of a way,
    which the query's [>; out skel qt] returns with coordinates) becomes
    a station named [CNG Station <index + 1>] of brand [Independent]
    with no address. *)
Theorem osm_to_pump_untagged (i : nat) (el : OsmElement) :
  osm_tags el = None ->
  name (osm_to_pump i el) = "CNG Station " ++ string_of_Z (Z.of_nat i + 1) /\
  brand (osm_to_pump i el) = "Independent" /\
  address (osm_to_pump i el) = "Address not available".
Proof. intros Ht. unfold osm_to_pump. rewrite Ht. auto. Qed.

(** ** Concrete inputs *)

Definition zero_distance : Q -> Q -> Q -> Q -> Q := fun _ _ _ _ => 0.
Definition empty_storage : Storage := mkStorage None None None None.
Definition app_at_delhi : App := set_location (constructor empty_storage) (Some (28.6139, 77.2090)).

Definition osm_sample : list OsmElement :=
  [mkOsm 101 (Some 28.5) (Some 77.1) (Some [("name", "Green Gas CNG")]);
   mkOsm 102 (Some 0) (Some 77.0) None;
   mkOsm 103 (Some 28.7) (Some 77.3) None].

Lemma loadRealCNGStations_ids_witness :
  wf (loadRealCNGStations zero_distance tuesday_9am (OverpassData (Some osm_sample)) app_at_delhi) /\
  pids (loadRealCNGStations zero_distance tuesday_9am (OverpassData (Some osm_sample)) app_at_delhi)
    ≡ₚ map (fun el => "osm_" ++ string_of_Z (osm_id el)) (filter osm_has_coords osm_sample).
Proof.
  apply (loadRealCNGStations_ids zero_distance tuesday_9am app_at_delhi (28.6139, 77.2090)).
  - apply wf_set_location, constructor_wf.
  - reflexivity.
  - discriminate.
Defined.

(** [extractBrand] returns one of its brands or ['Independent']. *)
Lemma extractBrand_range (name : string) :
  extractBrand name ∈ extract_brands \/ extractBrand name = "Independent".
Proof.
  unfold extractBrand. induction extract_brands as [|b bs IH]; simpl; [right; reflexivity|].
  destruct (includes _ _); [left; left | destruct IH as [H|H]; [left; right; exact H | right; exact H]].
Qed.

(** The brands are tried in the list's order, by substring: a Shell
    station on Ashpur Road is an [HP] station, since ["ashpur"] contains
    ["hp"] and [HP] comes before [Shell]. *)
Lemma extractBrand_substring : extractBrand "Shell CNG, Ashpur Road" = "HP".
Proof. vm_compute. reflexivity. Qed.

End Loaders.
