(* ===== verification/Handlers.v ===== *)
(** * Handlers: the event handlers of [CNGFlowApp] ([src/public/app.js])

    Each handler is a function from the state (and its inputs: the
    instant, the button the user chose, the random numbers) to an
    [Outcome].  A [TypeError] thrown half-way keeps the writes made
    before it.  The browser keeps running after an event handler throws,
    so [step] continues from the state in [Threw] as well.
    - [showPumpDetails] (lines 881-937) and [showUpdateModal] (951-961)
      set [this.selectedPump];
    - [submitQueueUpdate] (963-1006) writes the reading into the pump
      found by id, sets its marker's icon and awards ten points;
    - [toggleFavorite] (1013-1029) with [isPremium] (1031-1033);
    - [refreshData] (1332-1363) with the numbers of [Math.random()] as an
      input;
    - [showNearestPumpForUpdate] (1236-1239), [showFavorites]
      (1210-1234), [handleNavigation] (1185-1208);
    - the geolocation callbacks of [init] (lines 15-50) and
      [requestUserLocation] (1035-1087) with the callbacks it registers
      ([run_geo_callback]);
    - [Event] and [step]: the listeners of [bindEvents] (683-787) that
      reach these handlers, one event run to completion.
    It ends with the functional theorems of [submitQueueUpdate] and
    [toggleFavorite] and two concrete runs: the page whose Overpass
    request failed, and the page without geolocation. *)

From stdpp Require Import base gmap strings list.
From Stdlib Require Import String.
From S2P Require Import Prelude Clock JsString Station SmartQueue Store Loaders.

Local Open Scope string_scope.
Import SmartQueue Loaders.

Module Handlers.

Section WithDistance.

Variable calculateDistance : Q -> Q -> Q -> Q -> Q.

(** The argument of [showPumpDetails]: an id string or a pump object
    (the [typeof pump === 'string'] test), or [undefined].  A pump object
    is a reference; one that names no object cannot be passed by the code
    and is treated as [undefined]. *)
Inductive PumpArg : Type :=
| ById (id : string)
| ByRef (r : positive)
| NoPump.

(** [showPumpDetails(pump)]: resolve the argument, select it, and
    compute its smart status (which writes into the object).  The DOM
    updates are not modelled. *)
Definition showPumpDetails (now : Instant) (arg : PumpArg) (s : App) : App :=
  let target :=
    match arg with
    | ById id => find_ref (heap s) (pumps s) id
    | ByRef r => if bool_decide (is_Some (heap s !! r)) then Some r else None
    | NoPump => None
    end in
  match target with
  | None => s
  | Some r =>
      let s1 := set_selected s (Some r) in
      match heap s1 !! r with
      | Some p => write s1 r (snd (calculateSmartQueueStatus now p))
      | None => s1
      end
  end.

(** [showUpdateModal(pumpToUpdate)]: [this.selectedPump = pumpToUpdate]
    comes first, so an [undefined] target clears the selection before
    [pumpToUpdate.name] throws. *)
Definition showUpdateModal (target : option positive) (s : App) : Outcome :=
  let s1 := set_selected s target in
  match target with
  | None => Threw "TypeError: Cannot read properties of undefined (reading 'name')" s1
  | Some _ => Done s1
  end.

(** [submitQueueUpdate()] with the chosen button's [data-queue] (if a
    button is selected) and whether the marker's popup is open. *)
Definition submitQueueUpdate (now : Instant) (selectedBtn : option Z) (popupOpen : bool)
    (s : App) : Outcome :=
  match selectedBtn with
  | None => Done (showNotification s "Please select queue length" NWarning)
  | Some n =>
      let queueLength := inject_Z n in
      match selectedPump s with
      | None => Threw "TypeError: Cannot read properties of null (reading 'id')" s
      | Some sel =>
          match heap s !! sel with
          | None => Threw "TypeError: Cannot read properties of undefined (reading 'id')" s
          | Some selp =>
              match find_ref (heap s) (pumps s) (pid selp) with
              | None => Threw "TypeError: Cannot set properties of undefined (setting 'queueLength')" s
              | Some r =>
                  match heap s !! r with
                  | None => Threw "TypeError: Cannot set properties of undefined (setting 'queueLength')" s
                  | Some p =>
                      let p1 := set_reading p queueLength (epoch_ms now)
                                  (calculateTrafficDensity (JNum queueLength)) in
                      let s1 := write s r p1 in
                      if bool_decide (pid p1 ∈ markers s1) then
                        let p2 := snd (getMarkerIcon now p1) in
                        let s2 := set_icon (write s1 r p2) (pid p1) now p1 in
                        let s3 := if popupOpen
                                  then set_popup (write s2 r (snd (calculateSmartQueueStatus now p2))) (pid p1) now p2
                                  else s2 in
                        let s4 := set_points s3 (userPoints s3 + 10) in
                        let s5 := set_storage s4 (store_points (storage s4) (userPoints s4)) in
                        Done (showNotification s5 "Queue updated successfully! +10 points" NSuccess)
                      else Threw "TypeError: Cannot read properties of undefined (reading 'setIcon')" s1
                  end
              end
          end
      end
  end.

(** [isPremium()]. *)
Definition isPremium (s : App) : bool :=
  match st_isPremium (storage s) with Some v => String.eqb v "true" | None => false end.

(** [indexOf] and [splice(index, 1)]: remove the first occurrence. *)
Fixpoint remove_first (x : string) (l : list string) : list string :=
  match l with
  | [] => []
  | y :: rest => if String.eqb x y then rest else y :: remove_first x rest
  end.

(** [toggleFavorite(pumpToToggle)]. *)
Definition toggleFavorite (now : Instant) (target : option positive) (s : App) : Outcome :=
  match target with
  | None => Threw "TypeError: Cannot read properties of null (reading 'id')" s
  | Some r =>
      match heap s !! r with
      | None => Threw "TypeError: Cannot read properties of undefined (reading 'id')" s
      | Some p =>
          let id := pid p in
          let s1 :=
            if bool_decide (id ∈ favorites s) then
              Some (showNotification (set_favorites s (remove_first id (favorites s)))
                      "Removed from favorites" NSuccess)
            else if (3 <=? length (favorites s))%nat && negb (isPremium s) then None
            else Some (showNotification (set_favorites s (favorites s ++ [id]))
                         "Added to favorites" NSuccess) in
          match s1 with
          | None => Done (showNotification s "Upgrade to Premium for unlimited favorites" NWarning)
          | Some s1 =>
              let s2 := set_storage s1 (store_favorites (storage s1) (favorites s1)) in
              Done (showPumpDetails now (ByRef r) s2)
          end
      end
  end.

(** One pump of [refreshData]: [Math.random() > 0.7] decides, and
    [Math.floor(Math.random() * 25)] is the new length. *)
Definition refresh_pump (now : Instant) (u1 u2 : Q) (s : App) (r : positive) : App :=
  match heap s !! r with
  | None => s
  | Some p =>
      if Qltb (7 # 10) u1 then
        let q := inject_Z (Qfloor (u2 * 25)) in
        let p1 := set_reading p q (epoch_ms now) (calculateTrafficDensity (JNum q)) in
        if bool_decide (pid p1 ∈ markers s) then set_icon (write s r (snd (getMarkerIcon now p1))) (pid p1) now p1
        else write s r p1
      else s
  end.

(** [refreshData()] after its timeouts, with the [i]-th pump's two
    random numbers [rand i]. *)
Definition refreshData (now : Instant) (rand : nat -> Q * Q) (s : App) : App :=
  let '(_, s1) :=
    fold_left (fun '(i, s') r => (S i, refresh_pump now (rand i).1 (rand i).2 s' r))
      (pumps s) (0%nat, s) in
  showNotification s1 "Data refreshed successfully!" NSuccess.

(** [showNearestPumpForUpdate()]: sort [this.pumps] in place by
    distance and open the update modal on the first. *)
Definition showNearestPumpForUpdate (s : App) : Outcome :=
  let s1 := set_pumps s (sort_by (distance_key s) (pumps s)) in
  showUpdateModal (head (pumps s1)) s1.

(** The notification part of [showFavorites()]. *)
Definition showFavorites (s : App) : App :=
  if bool_decide (List.filter (fun id => bool_decide (id ∈ favorites s)) (pids s) = [])
  then showNotification s "No favorites yet. Add some pumps!" NInfo
  else s.

(** [showHistory()]. *)
Definition showHistory (s : App) : App := showNotification s "History feature coming soon!" NInfo.

(** [showProfile()]. *)
Definition showProfile (s : App) : App :=
  showNotification s ("You have " ++ string_of_Z (userPoints s) ++ " points!") NSuccess.

(** [handleNavigation(page)]. *)
Definition handleNavigation (page : string) (s : App) : Outcome :=
  if String.eqb page "favorites" then Done (showFavorites s)
  else if String.eqb page "update" then showNearestPumpForUpdate s
  else if String.eqb page "history" then Done (showHistory s)
  else if String.eqb page "profile" then Done (showProfile s)
  else Done s.

(** ** The geolocation callbacks *)

(** The success callback of [init]'s [getCurrentPosition]. *)
Definition initGeoSuccess (now : Instant) (loc : Q * Q) (answer : OverpassAnswer) (s : App) : App :=
  let s1 := set_location s (Some loc) in
  let s2 := loadRealCNGStations calculateDistance now answer s1 in
  showNotification s2 "Location found!" NSuccess.

(** The error callback of [init]'s [getCurrentPosition]. *)
Definition initGeoError (now : Instant) (s : App) : App :=
  let s1 := showNotification s "Using default location" NInfo in
  addPumpMarkers now (loadSampleData (epoch_ms now) s1).

(** [init] without [navigator.geolocation]. *)
Definition initNoGeolocation (now : Instant) (s : App) : App :=
  addPumpMarkers now (loadSampleData (epoch_ms now) s).

(** [initMap()] (lines 468-479): the Leaflet map and its tiles, then
    [addPumpMarkers] over the pumps there are. *)
Definition initMap (now : Instant) (s : App) : App := addPumpMarkers now s.

(** [init()] (lines 15-50) up to its return: [initTheme] acts on the
    theme state of [Theme], [bindEvents] and [updateUI] only wire and
    render.  With [navigator.geolocation] ([geo]) it registers the two
    callbacks of [getCurrentPosition], the events [InitGeoSuccess] and
    [InitGeoError]; without it loads the samples at once. *)
Definition init (geo : bool) (now : Instant) (s : App) : App :=
  let s1 := initMap now s in
  if geo then s1 else initNoGeolocation now s1.

(** The callbacks [requestUserLocation] registers with the browser. *)
Inductive GeoCallback : Type := CurrentPosition | WatchPosition.

(** [requestUserLocation()] (lines 1035-1087), run to its return: with
    [navigator.geolocation] ([geo]) it shows ['Getting your
    location...'] and registers [getCurrentPosition]'s and
    [watchPosition]'s callbacks, which the browser runs later
    ([run_geo_callback]); without, it shows ['Geolocation not
    supported']. *)
Definition requestUserLocation (geo : bool) (s : App) : App * list GeoCallback :=
  if geo then (showNotification s "Getting your location..." NInfo, [CurrentPosition; WatchPosition])
  else (showNotification s "Geolocation not supported" NError, []).

(** [centerOnUserLocation()] (lines 1112-1119): with no location it asks
    for one.  The registered callbacks are the events [LocationFound],
    [LocationDenied] and [PositionWatch]. *)
Definition centerOnUserLocation (geo : bool) (s : App) : App :=
  match userLocation s with
  | Some _ => s
  | None => fst (requestUserLocation geo (showNotification s "Location access required" NWarning))
  end.

(** The success callback of [requestUserLocation]. *)
Definition locationFound (now : Instant) (loc : Q * Q) (s : App) : App :=
  let s1 := updateDistances calculateDistance now (set_location s (Some loc)) in
  showNotification (centerOnUserLocation true s1) "Location found!" NSuccess.

(** The error callback of [requestUserLocation]: Connaught Place. *)
Definition locationDenied (now : Instant) (s : App) : App :=
  let s1 := showNotification s "Location access denied. Using default location." NWarning in
  updateDistances calculateDistance now (set_location s1 (Some (28.6315, 77.2167))).

(** The [watchPosition] callback. *)
Definition positionWatch (now : Instant) (loc : Q * Q) (s : App) : App :=
  updateDistances calculateDistance now (set_location s (Some loc)).

(** A registered callback run with the browser's answer: a position, or
    the error (the [watchPosition] error callback only logs). *)
Definition run_geo_callback (now : Instant) (cb : GeoCallback) (pos : option (Q * Q)) (s : App) : App :=
  match cb, pos with
  | CurrentPosition, Some loc => locationFound now loc s
  | CurrentPosition, None => locationDenied now s
  | WatchPosition, Some loc => positionWatch now loc s
  | WatchPosition, None => s
  end.

(** ** Events and reachable states *)

(** The events of the page.  [Refresh] is the timer callback of the
    pull-to-refresh gesture ([PullRefresh]); [initPullToRefresh] is never
    called, so the page never receives it, and with it the reachable
    states over-approximate the page's: an invariant proved for them
    holds a fortiori. *)
Inductive Event : Type :=
| InitGeoSuccess (loc : Q * Q) (answer : OverpassAnswer)
| InitGeoError
| InitNoGeolocation
| LocateMe (geo : bool)
| LocationFound (loc : Q * Q)
| LocationDenied
| PositionWatch (loc : Q * Q)
| ShowDetails (arg : PumpArg)
| OpenUpdateModal
| SubmitUpdate (selectedBtn : option Z) (popupOpen : bool)
| FavoriteButton
| Refresh (rand : nat -> Q * Q)
| Navigate (page : string).

(** What the class does on each event, at the instant [now]. *)
Definition step (now : Instant) (e : Event) (s : App) : Outcome :=
  match e with
  | InitGeoSuccess loc answer => Done (initGeoSuccess now loc answer s)
  | InitGeoError => Done (initGeoError now s)
  | InitNoGeolocation => Done (initNoGeolocation now s)
  | LocateMe geo => Done (centerOnUserLocation geo s)
  | LocationFound loc => Done (locationFound now loc s)
  | LocationDenied => Done (locationDenied now s)
  | PositionWatch loc => Done (positionWatch now loc s)
  | ShowDetails arg => Done (showPumpDetails now arg s)
  | OpenUpdateModal => showUpdateModal (selectedPump s) s
  | SubmitUpdate btn popupOpen => submitQueueUpdate now btn popupOpen s
  | FavoriteButton => toggleFavorite now (selectedPump s) s
  | Refresh rand => Done (refreshData now rand s)
  | Navigate page => handleNavigation page s
  end.

(** Running a sequence of events. *)
Fixpoint run (s : App) (evs : list (Instant * Event)) : App :=
  match evs with
  | [] => s
  | (now, e) :: rest => run (outcome_state (step now e s)) rest
  end.

End WithDistance.

(** ** Functional behaviour of the update and favourite handlers *)

Lemma showPumpDetails_favorites (now : Instant) (arg : PumpArg) (s : App) :
  favorites (showPumpDetails now arg s) = favorites s.
Proof. unfold showPumpDetails. repeat case_match; reflexivity. Qed.

Definition setIcon_error : string :=
  "TypeError: Cannot read properties of undefined (reading 'setIcon')".

(** C22. Submitting an update for a pump that has no marker throws when
    [marker.setIcon] is evaluated, after the reading has been written
    into the pump: the pump shows the new queue, the points are not
    awarded and nothing is stored. *)
Theorem submitQueueUpdate_no_marker_throws (now : Instant) (q : Z) (pop : bool) (s : App)
    (r r' : positive) (p p' : Pump) :
  selectedPump s = Some r -> heap s !! r = Some p ->
  find_ref (heap s) (pumps s) (pid p) = Some r' -> heap s !! r' = Some p' ->
  pid p' ∉ markers s ->
  submitQueueUpdate now (Some q) pop s =
  Threw setIcon_error
    (write s r' (set_reading p' (inject_Z q) (epoch_ms now)
                   (calculateTrafficDensity (JNum (inject_Z q))))).
Proof.
  intros Hs Hp Hf Hp' Hm. unfold submitQueueUpdate. rewrite Hs, Hp, Hf, Hp'.
  rewrite bool_decide_false by exact Hm. reflexivity.
Qed.

(** The state a successful update leaves: the pump found by id holds
    the reading (and the estimate fields its icon and popup write), the
    points are ten more and stored. *)
Lemma submitQueueUpdate_marker_eq (now : Instant) (q : Z) (pop : bool) (s : App)
    (r r' : positive) (p p' : Pump) :
  selectedPump s = Some r -> heap s !! r = Some p ->
  find_ref (heap s) (pumps s) (pid p) = Some r' -> heap s !! r' = Some p' ->
  pid p' ∈ markers s ->
  exists p'' ic pp, submitQueueUpdate now (Some q) pop s =
    Done (showNotification
            (set_storage (set_points (set_layer (write s r' p'') ic pp) (userPoints s + 10)%Z)
               (store_points (storage s) (userPoints s + 10)%Z))
            "Queue updated successfully! +10 points" NSuccess) /\
    queueLength p'' = Some (inject_Z q) /\ lastUpdated p'' = Some (epoch_ms now) /\
    queueStatus p'' = statusOfQueue (inject_Z q) /\ pid p'' = pid p'.
Proof.
  intros Hs Hp Hf Hp' Hm. unfold submitQueueUpdate. rewrite Hs, Hp, Hf, Hp'.
  rewrite bool_decide_true by exact Hm. cbv zeta.
  set (p1 := set_reading p' (inject_Z q) (epoch_ms now) (calculateTrafficDensity (JNum (inject_Z q)))).
  destruct (calculateSmartQueueStatus_pump now p1) as (d1 & v1 & c1 & H1).
  rewrite getMarkerIcon_pump, H1. autorewrite with layer.
  destruct pop.
  - destruct (calculateSmartQueueStatus_pump now (set_estimate p1 d1 v1 c1)) as (d2 & v2 & c2 & H2).
    rewrite H2. autorewrite with layer. do 3 eexists; split; [reflexivity | repeat split].
  - rewrite <- (set_layer_layer _ (icons s) (popups s)). do 3 eexists; split; [reflexivity | repeat split].
Qed.

(** C24. Submitting [q] for the selected pump when its marker exists
    stores the reading in the pump found by id: queue [q], dated [now],
    status the bucket of [q].  It awards ten points and stores them. *)
Theorem submitQueueUpdate_success (now : Instant) (q : Z) (pop : bool) (s : App)
    (r r' : positive) (p p' : Pump) :
  selectedPump s = Some r -> heap s !! r = Some p ->
  find_ref (heap s) (pumps s) (pid p) = Some r' -> heap s !! r' = Some p' ->
  pid p' ∈ markers s ->
  exists s' p'', submitQueueUpdate now (Some q) pop s = Done s' /\
    heap s' !! r' = Some p'' /\ queueLength p'' = Some (inject_Z q) /\
    lastUpdated p'' = Some (epoch_ms now) /\ queueStatus p'' = statusOfQueue (inject_Z q) /\
    userPoints s' = (userPoints s + 10)%Z /\ st_userPoints (storage s') = Some (userPoints s + 10)%Z.
Proof.
  intros Hs Hp Hf Hp' Hm.
  destruct (submitQueueUpdate_marker_eq now q pop s r r' p p' Hs Hp Hf Hp' Hm) as (p'' & ic & pp & -> & Hq & Hl & Hst & _).
  exists (showNotification (set_storage (set_points (set_layer (write s r' p'') ic pp) (userPoints s + 10)%Z)
                              (store_points (storage s) (userPoints s + 10)%Z))
            "Queue updated successfully! +10 points" NSuccess), p''.
  split; [reflexivity|]. split; [apply lookup_insert_eq|]. auto.
Qed.

Lemma remove_first_snoc (x : string) (l : list string) : x ∉ l -> remove_first x (app l [x]) = l.
Proof.
  induction l as [|y l IH]; intros Hx; simpl.
  - rewrite String.eqb_refl. reflexivity.
  - destruct (String.eqb_spec x y) as [->|_]; [set_solver|]. rewrite IH by set_solver. reflexivity.
Qed.

Lemma showPumpDetails_ref (now : Instant) (r : positive) (p : Pump) (s : App) :
  heap s !! r = Some p ->
  selectedPump (showPumpDetails now (ByRef r) s) = Some r /\
  favorites (showPumpDetails now (ByRef r) s) = favorites s /\
  exists p', heap (showPumpDetails now (ByRef r) s) !! r = Some p' /\ pid p' = pid p.
Proof.
  intros Hp. unfold showPumpDetails. rewrite bool_decide_true by (rewrite Hp; eauto).
  change (heap (set_selected s (Some r))) with (heap s). rewrite Hp.
  split; [reflexivity|]. split; [reflexivity|].
  eexists. split; [apply lookup_insert_eq|]. apply calculateSmartQueueStatus_pid.
Qed.

(** C25. Pressing the favourite button twice on the selected pump, when
    it is not a favourite and there is room, adds it and then removes it:
    the favourites are back as they were. *)
Theorem toggleFavorite_twice (now now' : Instant) (s : App) (r : positive) (p : Pump) :
  selectedPump s = Some r -> heap s !! r = Some p -> pid p ∉ favorites s ->
  ((length (favorites s) < 3)%nat \/ isPremium s = true) ->
  let s1 := outcome_state (toggleFavorite now (selectedPump s) s) in
  pid p ∈ favorites s1 /\
  favorites (outcome_state (toggleFavorite now' (selectedPump s1) s1)) = favorites s.
Proof.
  intros Hs Hp Hnot Hroom s1. subst s1. rewrite Hs.
  set (favs := app (favorites s) [pid p]).
  set (s2 := set_storage (showNotification (set_favorites s favs) "Added to favorites" NSuccess)
                         (store_favorites (storage s) favs)).
  assert (E : toggleFavorite now (Some r) s = Done (showPumpDetails now (ByRef r) s2)).
  { unfold toggleFavorite. rewrite Hp. rewrite bool_decide_false by exact Hnot.
    replace ((3 <=? length (favorites s))%nat && negb (isPremium s)) with false
      by (destruct Hroom as [Hl | ->]; [apply Nat.leb_gt in Hl; rewrite Hl|rewrite andb_false_r]; reflexivity).
    reflexivity. }
  rewrite E. cbn [outcome_state].
  assert (Hp2 : heap s2 !! r = Some p) by exact Hp.
  destruct (showPumpDetails_ref now r p s2 Hp2) as (Hsel & Hfav & p' & Hp' & Hpid).
  rewrite Hfav. split; [simpl; set_solver|].
  rewrite Hsel. unfold toggleFavorite. rewrite Hp', Hfav, Hpid.
  rewrite bool_decide_true by (simpl; set_solver).
  cbn [outcome_state]. rewrite showPumpDetails_favorites. simpl.
  apply remove_first_snoc, Hnot.
Qed.

(** ** Concrete runs *)

(** The page at New Delhi whose Overpass request failed: the known
    stations fall back to the samples, and the user opens pump_001. *)
Definition fallback_demo : App :=
  run zero_distance (constructor empty_storage)
    [(tuesday_9am, InitGeoSuccess (28.6139, 77.2090) OverpassFailed);
     (tuesday_9am, ShowDetails (ById "pump_001"))].

(** The page without geolocation: samples with their markers; the user
    opens pump_001. *)
Definition sample_demo : App :=
  run zero_distance (constructor empty_storage)
    [(tuesday_9am, InitNoGeolocation); (tuesday_9am, ShowDetails (ById "pump_001"))].

Lemma submitQueueUpdate_no_marker_throws_witness :
  exists (r : positive) (p : Pump), selectedPump fallback_demo = Some r /\ heap fallback_demo !! r = Some p /\
    find_ref (heap fallback_demo) (pumps fallback_demo) (pid p) = Some r /\ (pid p ∉ markers fallback_demo) /\
    submitQueueUpdate tuesday_9am (Some 5%Z) false fallback_demo =
    Threw setIcon_error (write fallback_demo r (set_reading p (inject_Z 5) (epoch_ms tuesday_9am)
                           (calculateTrafficDensity (JNum (inject_Z 5))))).
Proof.
  assert (Hsel : selectedPump fallback_demo = Some 4%positive) by (vm_compute; reflexivity).
  destruct (heap fallback_demo !! 4%positive) as [p|] eqn:Hp; [|vm_compute in Hp; discriminate].
  assert (Hf : find_ref (heap fallback_demo) (pumps fallback_demo) (pid p) = Some 4%positive)
    by (vm_compute in Hp; injection Hp as <-; vm_compute; reflexivity).
  assert (Hm : pid p ∉ markers fallback_demo)
    by (replace (markers fallback_demo) with (∅ : gset string) by (vm_compute; reflexivity);
        apply not_elem_of_empty).
  exists 4%positive, p. split; [exact Hsel|]. split; [exact Hp|]. split; [exact Hf|]. split; [exact Hm|].
  exact (submitQueueUpdate_no_marker_throws _ _ _ _ _ _ _ _ Hsel Hp Hf Hp Hm).
Defined.

Lemma submitQueueUpdate_success_witness :
  exists (r : positive) (p : Pump), selectedPump sample_demo = Some r /\ heap sample_demo !! r = Some p /\
    find_ref (heap sample_demo) (pumps sample_demo) (pid p) = Some r /\ (pid p ∈ markers sample_demo) /\
    exists s' p'', submitQueueUpdate tuesday_9am (Some 5%Z) true sample_demo = Done s' /\
      heap s' !! r = Some p'' /\ queueLength p'' = Some (inject_Z 5) /\
      lastUpdated p'' = Some (epoch_ms tuesday_9am) /\ queueStatus p'' = statusOfQueue (inject_Z 5) /\
      userPoints s' = (userPoints sample_demo + 10)%Z /\
      st_userPoints (storage s') = Some (userPoints sample_demo + 10)%Z.
Proof.
  assert (Hsel : selectedPump sample_demo = Some 1%positive) by (vm_compute; reflexivity).
  destruct (heap sample_demo !! 1%positive) as [p|] eqn:Hp; [|vm_compute in Hp; discriminate].
  assert (Hf : find_ref (heap sample_demo) (pumps sample_demo) (pid p) = Some 1%positive)
    by (vm_compute in Hp; injection Hp as <-; vm_compute; reflexivity).
  assert (Hm : pid p ∈ markers sample_demo)
    by (vm_compute in Hp; injection Hp as <-; apply (bool_decide_unpack (_ ∈ markers sample_demo)); vm_compute; reflexivity).
  exists 1%positive, p. split; [exact Hsel|]. split; [exact Hp|]. split; [exact Hf|]. split; [exact Hm|].
  exact (submitQueueUpdate_success _ _ _ _ _ _ _ _ Hsel Hp Hf Hp Hm).
Defined.

Lemma toggleFavorite_twice_witness :
  exists (r : positive) (p : Pump), selectedPump sample_demo = Some r /\ heap sample_demo !! r = Some p /\
    (pid p ∉ favorites sample_demo) /\ ((length (favorites sample_demo) < 3)%nat \/ isPremium sample_demo = true) /\
    let s1 := outcome_state (toggleFavorite tuesday_9am (selectedPump sample_demo) sample_demo) in
    pid p ∈ favorites s1 /\
    favorites (outcome_state (toggleFavorite thursday_2pm (selectedPump s1) s1)) = favorites sample_demo.
Proof.
  assert (Hsel : selectedPump sample_demo = Some 1%positive) by (vm_compute; reflexivity).
  destruct (heap sample_demo !! 1%positive) as [p|] eqn:Hp; [|vm_compute in Hp; discriminate].
  assert (Hnot : pid p ∉ favorites sample_demo)
    by (replace (favorites sample_demo) with (@nil string) by (vm_compute; reflexivity);
        apply not_elem_of_nil).
  assert (Hroom : (length (favorites sample_demo) < 3)%nat \/ isPremium sample_demo = true)
    by (left; apply Nat.ltb_lt; vm_compute; reflexivity).
  exists 1%positive, p. split; [exact Hsel|]. split; [exact Hp|]. split; [exact Hnot|]. split; [exact Hroom|].
  exact (toggleFavorite_twice _ _ _ _ _ Hsel Hp Hnot Hroom).
Defined.

End Handlers.
