(* ===== verification/Invariants.v ===== *)
(** * Invariants of the reachable states of [CNGFlowApp]

    Every state reached from [new CNGFlowApp()] by any sequence of
    events, throwing handlers included, satisfies:
    - [wf]: every reference held points to an object;
    - the storage mirror: [localStorage] holds exactly the favourites and
      the points in memory (or nothing, for their defaults), so a reload
      restores them;
    - the favourites have no duplicates, and without premium there are
      at most three;
    - the points are the stored points plus exactly ten per report that
      passed every guard of [submitQueueUpdate] ([report_accepted],
      counted along the run by [reports]).
    The fallback path of [init] (geolocation granted, Overpass failed)
    reaches a state with the sample pumps and no marker.
    [reachable] (the constructor, then any events of [bindEvents]) is
    defined here; the proofs go by induction on it, from one lemma per
    handler.  The frame lemmas say which handlers leave the user's
    preferences alone. *)

From stdpp Require Import base gmap strings list.
From Stdlib Require Import String.
From S2P Require Import Prelude Clock JsString Station SmartQueue Store Loaders Handlers.

Local Open Scope nat_scope.
Local Open Scope string_scope.
Import SmartQueue Loaders Handlers.

Module Invariants.

(** The states a page that started with the storage [st] can reach:
    the constructor, then any sequence of events of [bindEvents], each
    run to completion.  After a handler throws, the page keeps the state
    the throw left. *)
Inductive reachable (calculateDistance : Q -> Q -> Q -> Q -> Q) (st : Storage) : App -> Prop :=
| reach_init : reachable calculateDistance st (constructor st)
| reach_step (s : App) (now : Instant) (e : Event) :
    reachable calculateDistance st s ->
    reachable calculateDistance st (outcome_state (step calculateDistance now e s)).

(** The part of the state the user owns: favourites, points, storage. *)
Definition prefs (s : App) : list string * Z * Storage := (favorites s, userPoints s, storage s).

(** ** Frame lemmas: operations that leave the preferences alone *)

Lemma alloc_all_prefs (s : App) (l : list Pump) : prefs (alloc_all s l).2 = prefs s.
Proof.
  revert s. induction l as [|p l IH]; intros s; [reflexivity|].
  cbn [alloc_all]. destruct (alloc s p) as [r s1] eqn:Ha.
  specialize (IH s1). destruct (alloc_all s1 l) as [rs s2]. simpl in *. rewrite IH.
  assert (Hs1 : s1 = (alloc s p).2) by (rewrite Ha; reflexivity). subst s1. reflexivity.
Qed.

Lemma addPumpMarkers_prefs (now : Instant) (s : App) : prefs (addPumpMarkers now s) = prefs s.
Proof.
  unfold addPumpMarkers. apply (fold_left_preserve (fun s' => prefs s' = prefs s)); [|reflexivity].
  intros s' r H. unfold add_marker. destruct (heap s' !! r); exact H.
Qed.

Section Frame.

Variable calculateDistance : Q -> Q -> Q -> Q -> Q.

Lemma updateDistances_prefs (now : Instant) (s : App) :
  prefs (updateDistances calculateDistance now s) = prefs s.
Proof.
  unfold updateDistances. destruct (userLocation s); [|reflexivity].
  change (prefs (set_pumps ?x ?l)) with (prefs x).
  apply (fold_left_preserve (fun s' => prefs s' = prefs s)); [|reflexivity].
  intros s' r H. unfold update_distance. destruct (heap s' !! r); [case_bool_decide|]; exact H.
Qed.

Lemma loadSampleData_prefs (n : Z) (s : App) : prefs (loadSampleData n s) = prefs s.
Proof.
  unfold loadSampleData. pose proof (alloc_all_prefs s (sample_pumps n)) as H.
  destruct (alloc_all s (sample_pumps n)). exact H.
Qed.

Lemma loadKnownCNGStations_prefs (now : Instant) (s : App) :
  prefs (loadKnownCNGStations calculateDistance now s) = prefs s.
Proof.
  unfold loadKnownCNGStations. pose proof (alloc_all_prefs s (map known_to_pump knownStations)) as H.
  destruct (alloc_all s _) as [rs s1]. simpl in H.
  destruct (length rs <? 5)%nat.
  - rewrite loadSampleData_prefs. exact H.
  - change (prefs (showNotification ?x _ _)) with (prefs x).
    rewrite addPumpMarkers_prefs, updateDistances_prefs. exact H.
Qed.

Lemma loadRealCNGStations_prefs (now : Instant) (a : OverpassAnswer) (s : App) :
  prefs (loadRealCNGStations calculateDistance now a s) = prefs s.
Proof.
  unfold loadRealCNGStations. destruct (userLocation s); [|apply loadKnownCNGStations_prefs].
  destruct a as [|[[|el els]|]].
  - rewrite loadKnownCNGStations_prefs. reflexivity.
  - reflexivity.
  - match goal with |- context [alloc_all ?x ?l] =>
      pose proof (alloc_all_prefs x l) as H; destruct (alloc_all x l) end.
    change (prefs (showNotification ?x _ _)) with (prefs x).
    rewrite addPumpMarkers_prefs, updateDistances_prefs. exact H.
  - reflexivity.
Qed.

Lemma showPumpDetails_prefs (now : Instant) (arg : PumpArg) (s : App) :
  prefs (showPumpDetails now arg s) = prefs s.
Proof.
  unfold showPumpDetails. repeat case_match; reflexivity.
Qed.

Lemma showPumpDetails_points (now : Instant) (arg : PumpArg) (s : App) :
  userPoints (showPumpDetails now arg s) = userPoints s.
Proof. exact (f_equal (fun x => x.1.2) (showPumpDetails_prefs now arg s)). Qed.

Lemma refreshData_prefs (now : Instant) (rand : nat -> Q * Q) (s : App) :
  prefs (refreshData now rand s) = prefs s.
Proof.
  unfold refreshData.
  assert (H : prefs (fold_left (fun '(i, s') r => (S i, refresh_pump now (rand i).1 (rand i).2 s' r))
                       (pumps s) (0%nat, s)).2 = prefs s).
  { apply (fold_left_preserve (fun p => prefs p.2 = prefs s)); [|reflexivity].
    intros [i s'] r H. simpl in H |- *. unfold refresh_pump. destruct (heap s' !! r); [|exact H].
    destruct (Qltb _ _); [case_bool_decide|]; exact H. }
  destruct (fold_left _ _ _). exact H.
Qed.

End Frame.

(** ** Well-formedness of every step *)

Section Steps.

Variable calculateDistance : Q -> Q -> Q -> Q -> Q.

Lemma wf_set_selected (s : App) (r : positive) :
  wf s -> is_Some (heap s !! r) -> wf (set_selected s (Some r)).
Proof. intros (Hp & Hs & Hf) Hr. split; [exact Hp|split; [|exact Hf]]. simpl. intros r' [= <-]. exact Hr. Qed.

Lemma showPumpDetails_wf (now : Instant) (arg : PumpArg) (s : App) :
  wf s -> wf (showPumpDetails now arg s).
Proof.
  intros Hwf. unfold showPumpDetails.
  assert (Hsel : forall r, is_Some (heap s !! r) ->
            wf (match heap (set_selected s (Some r)) !! r with
                | Some p => write (set_selected s (Some r)) r (snd (calculateSmartQueueStatus now p))
                | None => set_selected s (Some r)
                end)).
  { intros r Ht. pose proof (wf_set_selected s r Hwf Ht) as Hw1.
    change (heap (set_selected s (Some r))) with (heap s).
    destruct (heap s !! r) eqn:E2; [|exact Hw1]. apply write_wf; [exact Hw1|].
    change (heap (set_selected s (Some r))) with (heap s). rewrite E2. eauto. }
  destruct arg as [id|r0|].
  - destruct (find_ref (heap s) (pumps s) id) as [r|] eqn:E; [|exact Hwf].
    apply Hsel. destruct (find_ref_in _ _ _ _ E) as (_ & p & Hp & _). eauto.
  - case_bool_decide; [apply Hsel; assumption | exact Hwf].
  - exact Hwf.
Qed.

Lemma showUpdateModal_wf (t : option positive) (s : App) :
  wf s -> (forall r, t = Some r -> is_Some (heap s !! r)) -> wf (outcome_state (showUpdateModal t s)).
Proof.
  intros Hwf Ht. destruct t as [r|]; simpl; [apply wf_set_selected; auto|].
  destruct Hwf as (Hp & _ & Hf). split; [exact Hp|split; [|exact Hf]]. discriminate.
Qed.

Lemma submitQueueUpdate_wf (now : Instant) (b : option Z) (pop : bool) (s : App) :
  wf s -> wf (outcome_state (submitQueueUpdate now b pop s)).
Proof.
  intros Hwf. unfold submitQueueUpdate.
  destruct b as [n|]; [|exact Hwf].
  destruct (selectedPump s) as [sel|]; [|exact Hwf].
  destruct (heap s !! sel) as [selp|]; [|exact Hwf].
  destruct (find_ref (heap s) (pumps s) (pid selp)) as [r|] eqn:Hf; [|exact Hwf].
  destruct (heap s !! r) as [p|] eqn:Hr; [|exact Hwf].
  assert (Hw1 : wf (write s r (set_reading p (inject_Z n) (epoch_ms now)
                                (calculateTrafficDensity (JNum (inject_Z n)))))).
  { apply write_wf; [exact Hwf|]. rewrite Hr. eauto. }
  case_bool_decide; [|exact Hw1]. cbn zeta.
  destruct pop; autorewrite with layer; (apply write_wf; [exact Hwf | rewrite Hr; eauto]).
Qed.

Lemma toggleFavorite_wf (now : Instant) (t : option positive) (s : App) :
  wf s -> wf (outcome_state (toggleFavorite now t s)).
Proof.
  intros Hwf. unfold toggleFavorite. destruct t as [r|]; [|exact Hwf].
  destruct (heap s !! r) as [p|]; [|exact Hwf].
  repeat case_match; simplify_eq; try exact Hwf; simpl; apply showPumpDetails_wf; exact Hwf.
Qed.

Lemma refreshData_wf (now : Instant) (rand : nat -> Q * Q) (s : App) :
  wf s -> wf (refreshData now rand s).
Proof.
  intros Hwf. unfold refreshData.
  assert (H : wf (fold_left (fun '(i, s') r => (S i, refresh_pump now (rand i).1 (rand i).2 s' r))
                    (pumps s) (0%nat, s)).2).
  { apply (fold_left_preserve (fun p => wf p.2)); [|exact Hwf].
    intros [i s'] r H. simpl in H |- *. unfold refresh_pump.
    destruct (heap s' !! r) eqn:E; [|exact H]. destruct (Qltb _ _); [|exact H].
    case_bool_decide; (apply write_wf; [exact H|]); rewrite E; eauto. }
  destruct (fold_left _ _ _). exact H.
Qed.

Lemma showNearestPumpForUpdate_wf (s : App) : wf s -> wf (outcome_state (showNearestPumpForUpdate s)).
Proof.
  intros Hwf. unfold showNearestPumpForUpdate.
  assert (Hw1 : wf (set_pumps s (sort_by (distance_key s) (pumps s)))).
  { apply wf_set_pumps; [exact Hwf|]. intros r Hr. apply (proj1 Hwf).
    rewrite <- (sort_by_perm (distance_key s) (pumps s)). exact Hr. }
  apply showUpdateModal_wf; [exact Hw1|]. intros r Hr. apply (proj1 Hw1).
  destruct (pumps (set_pumps s _)) as [|x l]; [discriminate|]. injection Hr as ->. left.
Qed.

Lemma handleNavigation_wf (page : string) (s : App) : wf s -> wf (outcome_state (handleNavigation page s)).
Proof.
  intros Hwf. unfold handleNavigation.
  destruct (String.eqb page "favorites"); [unfold showFavorites; simpl; case_bool_decide; exact Hwf|].
  destruct (String.eqb page "update"); [apply showNearestPumpForUpdate_wf, Hwf|].
  repeat case_match; exact Hwf.
Qed.

Lemma centerOnUserLocation_wf (geo : bool) (s : App) : wf s -> wf (centerOnUserLocation geo s).
Proof. intros H. unfold centerOnUserLocation, requestUserLocation. destruct (userLocation s), geo; exact H. Qed.

Lemma step_wf (now : Instant) (e : Event) (s : App) :
  wf s -> wf (outcome_state (step calculateDistance now e s)).
Proof.
  intros Hwf. destruct e; cbn [step outcome_state].
  - apply wf_showNotification, loadRealCNGStations_wf, wf_set_location, Hwf.
  - apply addPumpMarkers_inv, loadSampleData_spec, wf_showNotification, Hwf.
  - apply addPumpMarkers_inv, loadSampleData_spec, Hwf.
  - apply centerOnUserLocation_wf, Hwf.
  - apply wf_showNotification, centerOnUserLocation_wf, updateDistances_inv, wf_set_location, Hwf.
  - apply updateDistances_inv, wf_set_location, wf_showNotification, Hwf.
  - apply updateDistances_inv, wf_set_location, Hwf.
  - apply showPumpDetails_wf, Hwf.
  - apply showUpdateModal_wf; [exact Hwf|]. intros r Hr. exact (proj1 (proj2 Hwf) r Hr).
  - apply submitQueueUpdate_wf, Hwf.
  - apply toggleFavorite_wf, Hwf.
  - apply refreshData_wf, Hwf.
  - apply handleNavigation_wf, Hwf.
Qed.

(** ** Which events touch the preferences *)

Lemma centerOnUserLocation_prefs (geo : bool) (s : App) : prefs (centerOnUserLocation geo s) = prefs s.
Proof. unfold centerOnUserLocation, requestUserLocation. destruct (userLocation s), geo; reflexivity. Qed.

Lemma handleNavigation_prefs (page : string) (s : App) :
  prefs (outcome_state (handleNavigation page s)) = prefs s.
Proof.
  unfold handleNavigation, showNearestPumpForUpdate, showUpdateModal, showFavorites.
  repeat case_match; reflexivity.
Qed.

(** Every event but a submitted update and the favourite button leaves
    the favourites, the points and the storage as they are. *)
Lemma step_frame (now : Instant) (e : Event) (s : App) :
  (forall b pop, e <> SubmitUpdate b pop) -> e <> FavoriteButton ->
  prefs (outcome_state (step calculateDistance now e s)) = prefs s.
Proof.
  intros Hsub Hfav. destruct e; cbn [step outcome_state].
  - unfold initGeoSuccess. change (prefs (showNotification ?x _ _)) with (prefs x).
    rewrite loadRealCNGStations_prefs. reflexivity.
  - unfold initGeoError. rewrite addPumpMarkers_prefs, loadSampleData_prefs. reflexivity.
  - unfold initNoGeolocation. rewrite addPumpMarkers_prefs, loadSampleData_prefs. reflexivity.
  - apply centerOnUserLocation_prefs.
  - unfold locationFound. change (prefs (showNotification ?x _ _)) with (prefs x).
    rewrite centerOnUserLocation_prefs, updateDistances_prefs. reflexivity.
  - unfold locationDenied. rewrite updateDistances_prefs. reflexivity.
  - unfold positionWatch. rewrite updateDistances_prefs. reflexivity.
  - apply showPumpDetails_prefs.
  - unfold showUpdateModal. destruct (selectedPump s); reflexivity.
  - exfalso. exact (Hsub _ _ eq_refl).
  - contradiction.
  - apply refreshData_prefs.
  - apply handleNavigation_prefs.
Qed.

Lemma step_frame_points (now : Instant) (e : Event) (s : App) :
  (forall b pop, e <> SubmitUpdate b pop) -> e <> FavoriteButton ->
  userPoints (outcome_state (step calculateDistance now e s)) = userPoints s.
Proof. intros Hsub Hfav. exact (f_equal (fun x => x.1.2) (step_frame now e s Hsub Hfav)). Qed.

End Steps.

(** ** The storage mirror *)

(** [localStorage] holds the favourites and the points of memory, or
    nothing when they have their defaults [[]] and [0]. *)
Definition mirrored (s : App) : Prop :=
  default [] (st_favorites (storage s)) = favorites s /\
  default 0%Z (st_userPoints (storage s)) = userPoints s.

Lemma mirrored_prefs (s s' : App) : prefs s' = prefs s -> mirrored s -> mirrored s'.
Proof. unfold prefs, mirrored. intros H. injection H as -> -> ->. auto. Qed.

Lemma submitQueueUpdate_mirrored (now : Instant) (b : option Z) (pop : bool) (s : App) :
  mirrored s -> mirrored (outcome_state (submitQueueUpdate now b pop s)).
Proof.
  intros [Hf Hp]. unfold submitQueueUpdate.
  repeat case_match; try (split; assumption).
  all: split; [exact Hf | reflexivity].
Qed.

Lemma toggleFavorite_mirrored (now : Instant) (t : option positive) (s : App) :
  mirrored s -> mirrored (outcome_state (toggleFavorite now t s)).
Proof.
  intros [Hf Hp]. unfold toggleFavorite.
  repeat case_match; simplify_eq; try (split; assumption);
    simpl; (eapply mirrored_prefs; [apply showPumpDetails_prefs|]); split; simpl; auto.
Qed.

(** ** The favourites *)

Lemma remove_first_in (z x : string) (l : list string) : In z (remove_first x l) -> In z l.
Proof. induction l as [|y l IH]; simpl; [auto|]. destruct (String.eqb x y); simpl; intuition. Qed.

Lemma remove_first_nodup (x : string) (l : list string) : NoDup l -> NoDup (remove_first x l).
Proof.
  induction l as [|y l IH]; simpl; [auto|]. intros Hnd. inversion Hnd as [|? ? Hy Hnd']; subst.
  destruct (String.eqb x y); [exact Hnd'|]. constructor; [|auto].
  intros Hin. apply Hy, (remove_first_in _ x), Hin.
Qed.

Lemma length_remove_first (x : string) (l : list string) : length (remove_first x l) <= length l.
Proof. induction l as [|y l IH]; simpl; [lia|]. destruct (String.eqb x y); simpl; lia. Qed.

(** The invariant of the favourites for a page started with [st]: no
    duplicates, the premium flag unchanged, and at most three without
    premium. *)
Definition favorites_ok (st : Storage) (s : App) : Prop :=
  NoDup (favorites s) /\ st_isPremium (storage s) = st_isPremium st /\
  (st_isPremium st <> Some "true" -> length (favorites s) <= 3).

Lemma favorites_ok_prefs (st : Storage) (s s' : App) :
  prefs s' = prefs s -> favorites_ok st s -> favorites_ok st s'.
Proof. unfold prefs, favorites_ok. intros H. injection H as Hf _ Hs. rewrite Hf, Hs. auto. Qed.

Lemma isPremium_false (s : App) : st_isPremium (storage s) <> Some "true" -> isPremium s = false.
Proof.
  unfold isPremium. destruct (st_isPremium (storage s)) as [v|]; [|reflexivity].
  intros H. destruct (String.eqb_spec v "true"); [congruence|reflexivity].
Qed.

Lemma toggleFavorite_favorites_ok (st : Storage) (now : Instant) (t : option positive) (s : App) :
  favorites_ok st s -> favorites_ok st (outcome_state (toggleFavorite now t s)).
Proof.
  intros (Hnd & Hprem & Hlen). unfold toggleFavorite.
  destruct t as [r|]; [|split; auto]. destruct (heap s !! r) as [p|]; [|split; auto].
  case_bool_decide as Hin.
  - cbn [outcome_state]. eapply favorites_ok_prefs; [apply showPumpDetails_prefs|].
    split; [apply remove_first_nodup, Hnd|]. split; [exact Hprem|].
    intros Hnp. simpl. pose proof (length_remove_first (pid p) (favorites s)). specialize (Hlen Hnp). lia.
  - destruct ((3 <=? length (favorites s))%nat && negb (isPremium s)) eqn:Hfull.
    { split; auto. }
    cbn [outcome_state]. eapply favorites_ok_prefs; [apply showPumpDetails_prefs|].
    split; [|split; [exact Hprem|]]; simpl.
    + apply NoDup_app; [exact Hnd | constructor; [intros []|constructor] |].
      intros a Ha [<-|[]]. apply Hin, list_elem_of_In, Ha.
    + intros Hnp. rewrite length_app. simpl.
      rewrite isPremium_false in Hfull by congruence. rewrite andb_true_r in Hfull.
      apply Nat.leb_gt in Hfull. lia.
Qed.

Lemma submitQueueUpdate_favorites_ok (st : Storage) (now : Instant) (b : option Z) (pop : bool) (s : App) :
  favorites_ok st s -> favorites_ok st (outcome_state (submitQueueUpdate now b pop s)).
Proof. intros H. unfold submitQueueUpdate. repeat case_match; exact H. Qed.

(** ** The points *)

(** Whether the event is a report [submitQueueUpdate] accepts in the
    state [s]: a queue button chosen, the selected pump found by id in
    [this.pumps] and its marker present (the guards of
    [submitQueueUpdate], in their order). *)
Definition report_accepted (e : Event) (s : App) : bool :=
  match e with
  | SubmitUpdate (Some _) _ =>
      match selectedPump s with
      | Some sel =>
          match heap s !! sel with
          | Some selp =>
              match find_ref (heap s) (pumps s) (pid selp) with
              | Some r =>
                  match heap s !! r with
                  | Some p => bool_decide (pid p ∈ markers s)
                  | None => false
                  end
              | None => false
              end
          | None => false
          end
      | None => false
      end
  | _ => false
  end.

Section Points.

Variable calculateDistance : Q -> Q -> Q -> Q -> Q.

(** The number of accepted reports along a run of events. *)
Fixpoint reports (s : App) (evs : list (Instant * Event)) : nat :=
  match evs with
  | [] => 0
  | (now, e) :: rest =>
      (if report_accepted e s then 1 else 0) + reports (outcome_state (step calculateDistance now e s)) rest
  end.

(** C21. The points of a page are the stored points plus exactly ten
    per accepted report: after any sequence of events from
    [new CNGFlowApp()], throwing handlers included, [userPoints] is the
    stored [userPoints] (or 0) plus ten times the number of reports
    that passed every guard of [submitQueueUpdate]; rejected reports,
    favourites and every other event leave the points alone. *)
Theorem run_points (st : Storage) (evs : list (Instant * Event)) :
  userPoints (run calculateDistance (constructor st) evs) =
  (default 0 (st_userPoints st) + 10 * Z.of_nat (reports (constructor st) evs))%Z.
Proof.
  assert (Hstep : forall now e s, userPoints (outcome_state (step calculateDistance now e s)) =
                    (userPoints s + if report_accepted e s then 10 else 0)%Z).
  { intros now e s. destruct e;
      try (rewrite step_frame_points by (intros; discriminate); cbn [report_accepted]; lia).
    - cbn [step report_accepted]. unfold submitQueueUpdate, write, set_reading.
      cbn [markers pid set_heap]. repeat case_match; cbn; lia.
    - cbn [step report_accepted]. unfold toggleFavorite.
      repeat case_match; simplify_eq; cbn [outcome_state]; rewrite ?showPumpDetails_points; cbn; lia. }
  assert (Hrun : forall s, userPoints (run calculateDistance s evs) =
                   (userPoints s + 10 * Z.of_nat (reports s evs))%Z).
  { induction evs as [|[now e] evs IH]; intros s; cbn [run reports]; [lia|].
    rewrite IH, Hstep. destruct (report_accepted e s); lia. }
  rewrite Hrun. reflexivity.
Qed.

End Points.

Section Reach.

Variable calculateDistance : Q -> Q -> Q -> Q -> Q.

Lemma reachable_ind_frame (P : App -> Prop) (st : Storage) :
  P (constructor st) ->
  (forall s s', prefs s' = prefs s -> P s -> P s') ->
  (forall now b pop s, P s -> P (outcome_state (submitQueueUpdate now b pop s))) ->
  (forall now t s, P s -> P (outcome_state (toggleFavorite now t s))) ->
  forall s, reachable calculateDistance st s -> P s.
Proof.
  intros Hinit Hframe Hsub Hfav s Hr. induction Hr as [|s now e Hr IH]; [exact Hinit|].
  destruct e; try (apply (Hframe s); [apply step_frame; discriminate|exact IH]).
  - apply Hsub, IH.
  - apply Hfav, IH.
Qed.

(** Every reachable state is well formed: the pump array, the
    selected pump and the allocator only hold references to objects. *)
Lemma reachable_wf (st : Storage) (s : App) :
  reachable calculateDistance st s -> wf s.
Proof.
  induction 1 as [|s now e _ IH]; [apply constructor_wf | apply step_wf, IH].
Qed.

(** C18. Reloading the page restores the favourites and the points:
    the constructor run on the storage of any reachable state reads back
    the state's favourites and points. *)
Theorem reload_restores_prefs (st : Storage) (s : App) :
  reachable calculateDistance st s ->
  favorites (constructor (storage s)) = favorites s /\
  userPoints (constructor (storage s)) = userPoints s.
Proof.
  intros Hr. apply (reachable_ind_frame mirrored st); auto.
  - split; reflexivity.
  - intros s1 s2 H. apply mirrored_prefs, H.
  - intros. apply submitQueueUpdate_mirrored. assumption.
  - intros. apply toggleFavorite_mirrored. assumption.
Qed.

Lemma reachable_favorites_ok (st : Storage) (s : App) :
  reachable calculateDistance st s ->
  NoDup (default [] (st_favorites st)) -> (length (default [] (st_favorites st)) <= 3)%nat ->
  favorites_ok st s.
Proof.
  intros Hr Hnd Hl. apply (reachable_ind_frame (favorites_ok st) st); auto.
  - split; [exact Hnd|]. split; [reflexivity|]. intros _. exact Hl.
  - apply favorites_ok_prefs.
  - intros. apply submitQueueUpdate_favorites_ok. assumption.
  - intros. apply toggleFavorite_favorites_ok. assumption.
Qed.

(** C19. The favourites of every reachable state never hold an id twice
    and, without premium, never number more than three, if the stored
    list had no duplicate and at most three ids. *)
Theorem reachable_favorites_invariant (st : Storage) (s : App) :
  reachable calculateDistance st s ->
  NoDup (default [] (st_favorites st)) -> (length (default [] (st_favorites st)) <= 3)%nat ->
  NoDup (favorites s) /\ (st_isPremium st <> Some "true" -> (length (favorites s) <= 3)%nat).
Proof.
  intros Hr Hnd Hl. destruct (reachable_favorites_ok st s Hr Hnd Hl) as (Hn & _ & Hlim).
  split; [exact Hn | exact Hlim].
Qed.

(** When geolocation succeeds and the Overpass request fails, the
    page falls back to the known stations and from there to the twelve
    samples, but never draws their markers: the state after [init] is
    reachable, its pumps are the samples and it has no marker. *)
Theorem fallback_without_markers (st : Storage) (now : Instant) (loc : Q * Q) :
  let s1 := outcome_state (step calculateDistance now (InitGeoSuccess loc OverpassFailed) (constructor st)) in
  reachable calculateDistance st s1 /\ pump_objects s1 = sample_pumps (epoch_ms now) /\ markers s1 = ∅.
Proof.
  intros s1. split; [apply reach_step, reach_init|].
  set (s0 := showNotification (set_location (constructor st) (Some loc)) "Searching for real CNG stations..." NInfo).
  assert (Hw : wf s0) by (apply wf_showNotification, wf_set_location, constructor_wf).
  destruct (loadKnownCNGStations_spec calculateDistance now s0 Hw) as (Hp & Hm & _).
  split; [exact Hp | exact Hm].
Qed.

(** The callbacks [requestUserLocation] registers are events of
    [step]: running one, with a position or an error, from a reachable
    state gives a reachable state.  So every theorem on [reachable]
    holds whenever the browser answers. *)
Lemma reachable_geo_callback (st : Storage) (s : App) (now : Instant) (cb : GeoCallback)
    (pos : option (Q * Q)) :
  reachable calculateDistance st s -> reachable calculateDistance st (run_geo_callback calculateDistance now cb pos s).
Proof.
  intros Hr. destruct cb, pos as [loc|]; cbn [run_geo_callback]; try exact Hr;
    [exact (reach_step _ _ s now (LocationFound loc) Hr)
    | exact (reach_step _ _ s now LocationDenied Hr)
    | exact (reach_step _ _ s now (PositionWatch loc) Hr)].
Qed.

(** The page [init] leaves is reachable: [initMap] finds no pump in
    the constructor's state, so it draws nothing, and without
    geolocation the samples are loaded as by the event
    [InitNoGeolocation]. *)
Lemma reachable_init (st : Storage) (geo : bool) (now : Instant) :
  reachable calculateDistance st (init geo now (constructor st)).
Proof.
  assert (E : initMap now (constructor st) = constructor st) by reflexivity.
  assert (Hs : forall s, step calculateDistance now InitNoGeolocation s = Done (initNoGeolocation now s))
    by reflexivity.
  pose proof (reach_step _ _ _ now InitNoGeolocation (reach_init calculateDistance st)) as H.
  rewrite Hs, outcome_state_Done in H. unfold init. rewrite E. destruct geo; [apply reach_init | exact H].
Qed.

(** With no location, the locate button leaves a reachable page whose
    last notification is ['Getting your location...'] when the browser
    has geolocation (the callbacks are then pending) and ['Geolocation
    not supported'], an error, when it has none. *)
Lemma reachable_locate_me (st : Storage) (s : App) (now : Instant) (geo : bool) :
  reachable calculateDistance st s -> userLocation s = None ->
  reachable calculateDistance st (centerOnUserLocation geo s) /\
  notification (centerOnUserLocation geo s) =
    Some (if geo then mkNotice "Getting your location..." NInfo else mkNotice "Geolocation not supported" NError).
Proof.
  intros Hr Hl. split; [exact (reach_step _ _ s now (LocateMe geo) Hr)|].
  unfold centerOnUserLocation, requestUserLocation. rewrite Hl. destruct geo; reflexivity.
Qed.

End Reach.

Lemma sample_demo_reachable : reachable zero_distance empty_storage sample_demo.
Proof. apply reach_step, reach_step, reach_init. Qed.

Lemma reload_restores_prefs_witness :
  reachable zero_distance empty_storage sample_demo /\
  favorites (constructor (storage sample_demo)) = favorites sample_demo /\
  userPoints (constructor (storage sample_demo)) = userPoints sample_demo.
Proof.
  split; [exact sample_demo_reachable|].
  exact (reload_restores_prefs zero_distance empty_storage sample_demo sample_demo_reachable).
Defined.

Lemma reachable_favorites_invariant_witness :
  reachable zero_distance empty_storage sample_demo /\
  NoDup (favorites sample_demo) /\ (length (favorites sample_demo) <= 3)%nat.
Proof.
  split; [exact sample_demo_reachable|].
  destruct (reachable_favorites_invariant zero_distance empty_storage sample_demo sample_demo_reachable)
    as [Hn Hl]; [constructor | simpl; lia |].
  split; [exact Hn | apply Hl; discriminate].
Defined.

End Invariants.
