(* ===== verification/Status.v ===== *)
(** * Status: what every pump of every reachable state satisfies

    [Section Good] proves, for any predicate [ok] on pumps, that [ok]
    holds of every object of the heap of every reachable state, from one
    lemma per loader and handler, as soon as [ok] holds of the pumps the
    loaders create ([sample_pumps], [known_to_pump], [osm_to_pump]), is
    kept by the writes of [calculateSmartQueueStatus] ([set_estimate])
    and [updateDistances] ([set_distance]), and is restored by a new
    reading ([set_reading], written by [submitQueueUpdate] and
    [refreshData]).  Two instances:
    - [status_consistent]: [pump.queueStatus] is the bucket of
      [pump.queueLength] ([<= 5] green, [<= 15] yellow, red above), gray
      without one (C26);
    - [hist_ok]: [avgQueueByHour] is an array of 24 averages or absent,
      since no handler writes it; so [avgQueueByHour[currentHour]] is
      defined and every prediction is a number (C16). *)

From stdpp Require Import base gmap strings list.
From Stdlib Require Import String.
From S2P Require Import Prelude Clock JsString Station SmartQueue Store Loaders Handlers Invariants.

Local Open Scope string_scope.
Import SmartQueue Loaders Handlers Invariants.

Module Status.

(** ** Heaps whose every object satisfies a predicate *)

Section Heap.

Context {ok : Pump -> bool}.

Definition heap_good (s : App) : Prop :=
  map_Forall (fun _ p => ok p = true) (heap s).

Lemma heap_good_write (s : App) (r : positive) (p : Pump) :
  heap_good s -> ok p = true -> heap_good (write s r p).
Proof. intros Hs Hp. apply map_Forall_insert_2; assumption. Qed.

Lemma heap_good_lookup (s : App) (r : positive) (p : Pump) :
  heap_good s -> heap s !! r = Some p -> ok p = true.
Proof. intros Hs Hr. exact (map_Forall_lookup_1 _ _ _ _ Hs Hr). Qed.

(** Writing back an object read from the heap, changed by a function
    that keeps the predicate. *)
Lemma heap_good_update (s : App) (r : positive) (p : Pump) (f : Pump -> Pump) :
  heap_good s -> heap s !! r = Some p ->
  (forall x, ok (f x) = ok x) -> heap_good (write s r (f p)).
Proof. intros Hs Hr Hf. apply heap_good_write; [exact Hs|]. rewrite Hf. eapply heap_good_lookup; eauto. Qed.

Lemma heap_good_alloc_all (s : App) (l : list Pump) :
  heap_good s -> Forall (fun p => ok p = true) l -> heap_good (alloc_all s l).2.
Proof.
  revert s. induction l as [|p l IH]; intros s Hs Hl; [exact Hs|].
  inversion Hl as [|? ? Hp Hl1]; subst. cbn [alloc_all].
  destruct (alloc s p) as [r s1] eqn:Ea.
  assert (H1 : heap_good s1).
  { unfold alloc in Ea. injection Ea as _ <-. apply map_Forall_insert_2; assumption. }
  specialize (IH s1 H1 Hl1). destruct (alloc_all s1 l). exact IH.
Qed.

Lemma Forall_imap_good {A} (f : nat -> A -> Pump) (l : list A) :
  (forall i x, ok (f i x) = true) -> Forall (fun p => ok p = true) (imap f l).
Proof.
  revert f. induction l as [|x l IH]; intros f Hf; [constructor|].
  rewrite imap_cons. constructor; [apply Hf|]. apply IH. intros i y. apply Hf.
Qed.

Lemma pump_objects_good (s : App) (p : Pump) :
  heap_good s -> p ∈ pump_objects s -> ok p = true.
Proof.
  intros Hs Hp. unfold pump_objects in Hp. apply list_elem_of_omap in Hp as (r & _ & Hl).
  exact (heap_good_lookup s r p Hs Hl).
Qed.

End Heap.

(** Every object of the heap has a consistent status. *)
Abbreviation heap_ok := (@heap_good status_consistent).

Lemma status_consistent_spec (p : Pump) :
  status_consistent p = true ->
  queueStatus p = match queueLength p with Some q => statusOfQueue q | None => Gray end.
Proof.
  unfold status_consistent. destruct (queueLength p); case_match; congruence.
Qed.

(** ** Every handler keeps a predicate that the writes keep

    The predicate [ok] survives the three writes of
    [calculateSmartQueueStatus] and the write of [updateDistances], is
    restored by a new reading, and holds of every pump a loader
    creates. *)

Create Rewrite HintDb good_rw.

Section Good.

Variable ok : Pump -> bool.
Hypothesis ok_estimate : forall p d v c, ok (set_estimate p d v c) = ok p.
Hypothesis ok_distance : forall p x, ok (set_distance p x) = ok p.
Hypothesis ok_reading : forall p q t d, ok p = true -> ok (set_reading p q t d) = true.
Hypothesis ok_samples : forall now_ms, Forall (fun p => ok p = true) (sample_pumps now_ms).
Hypothesis ok_known : Forall (fun p => ok p = true) (map known_to_pump knownStations).
Hypothesis ok_osm : forall i el, ok (osm_to_pump i el) = true.

Variable calculateDistance : Q -> Q -> Q -> Q -> Q.

Local Abbreviation good := (@heap_good ok).

Lemma calculateSmartQueueStatus_good (now : Instant) (p : Pump) :
  ok (snd (calculateSmartQueueStatus now p)) = ok p.
Proof. destruct (calculateSmartQueueStatus_pump now p) as (d & v & c & ->). apply ok_estimate. Qed.

Lemma getMarkerIcon_good (now : Instant) (p : Pump) : ok (snd (getMarkerIcon now p)) = ok p.
Proof. rewrite getMarkerIcon_pump. apply calculateSmartQueueStatus_good. Qed.

#[local] Hint Resolve heap_good_write heap_good_lookup ok_reading : core.
#[local] Hint Rewrite calculateSmartQueueStatus_good getMarkerIcon_good ok_distance ok_estimate : good_rw.

Lemma loadSampleData_good (now_ms : Z) (s : App) : good s -> good (loadSampleData now_ms s).
Proof.
  intros Hs. unfold loadSampleData.
  pose proof (heap_good_alloc_all s _ Hs (ok_samples now_ms)) as H.
  destruct (alloc_all s (sample_pumps now_ms)). exact H.
Qed.

Lemma addPumpMarkers_good (now : Instant) (s : App) : good s -> good (addPumpMarkers now s).
Proof.
  intros Hs. unfold addPumpMarkers. apply fold_left_preserve; [|exact Hs].
  intros s' r H. unfold add_marker. destruct (heap s' !! r) as [p|] eqn:E; [|exact H].
  apply (heap_good_update s' r p (fun x => snd (calculateSmartQueueStatus now (snd (getMarkerIcon now x)))));
    [exact H | exact E |]. intros x. autorewrite with good_rw. reflexivity.
Qed.

Lemma updateDistances_good (now : Instant) (s : App) :
  good s -> good (updateDistances calculateDistance now s).
Proof.
  intros Hs. unfold updateDistances. destruct (userLocation s) as [loc|]; [|exact Hs].
  match goal with |- heap_good (set_pumps ?x _) => change (good x) end.
  apply fold_left_preserve; [|exact Hs].
  intros s' r H. unfold update_distance. destruct (heap s' !! r) as [p|] eqn:E; [|exact H].
  case_bool_decide; (apply heap_good_write; [exact H|]); autorewrite with good_rw; eauto.
Qed.

Lemma loadKnownCNGStations_good (now : Instant) (s : App) :
  good s -> good (loadKnownCNGStations calculateDistance now s).
Proof.
  intros Hs. unfold loadKnownCNGStations.
  pose proof (heap_good_alloc_all s _ Hs ok_known) as H.
  destruct (alloc_all s (map known_to_pump knownStations)) as [rs s1].
  destruct (length rs <? 5)%nat.
  - apply loadSampleData_good, H.
  - apply addPumpMarkers_good, updateDistances_good, H.
Qed.

Lemma loadRealCNGStations_good (now : Instant) (a : OverpassAnswer) (s : App) :
  good s -> good (loadRealCNGStations calculateDistance now a s).
Proof.
  intros Hs. unfold loadRealCNGStations. destruct (userLocation s); [|apply loadKnownCNGStations_good, Hs].
  destruct a as [|[[|el els]|]]; try exact Hs; [apply loadKnownCNGStations_good, Hs|].
  match goal with |- context [alloc_all ?x ?l] =>
    pose proof (heap_good_alloc_all x l Hs (Forall_imap_good osm_to_pump _ ok_osm)) as H;
    destruct (alloc_all x l) end.
  apply addPumpMarkers_good, updateDistances_good, H.
Qed.

Lemma showPumpDetails_good (now : Instant) (arg : PumpArg) (s : App) :
  good s -> good (showPumpDetails now arg s).
Proof.
  intros Hs. unfold showPumpDetails.
  destruct (match arg with ById _ => _ | ByRef _ => _ | NoPump => _ end) as [r|]; [|exact Hs].
  change (heap (set_selected s (Some r))) with (heap s).
  destruct (heap s !! r) as [p|] eqn:E; [|exact Hs].
  exact (heap_good_update (set_selected s (Some r)) r p _ Hs E (calculateSmartQueueStatus_good now)).
Qed.

Lemma submitQueueUpdate_good (now : Instant) (b : option Z) (pop : bool) (s : App) :
  good s -> good (outcome_state (submitQueueUpdate now b pop s)).
Proof.
  intros Hs. unfold submitQueueUpdate.
  repeat (case_match; try exact Hs); simplify_eq; cbn [outcome_state]; autorewrite with layer;
    repeat (apply heap_good_write || autorewrite with good_rw); eauto.
Qed.

Lemma toggleFavorite_good (now : Instant) (t : option positive) (s : App) :
  good s -> good (outcome_state (toggleFavorite now t s)).
Proof.
  intros Hs. unfold toggleFavorite.
  repeat case_match; simplify_eq; try exact Hs; apply showPumpDetails_good, Hs.
Qed.

Lemma refreshData_good (now : Instant) (rand : nat -> Q * Q) (s : App) :
  good s -> good (refreshData now rand s).
Proof.
  intros Hs. unfold refreshData.
  assert (H : good (fold_left (fun '(i, s') r => (S i, refresh_pump now (rand i).1 (rand i).2 s' r))
                      (pumps s) (0%nat, s)).2).
  { apply (fold_left_preserve (fun x => good x.2)); [|exact Hs].
    intros [i s'] r H. simpl in H |- *. unfold refresh_pump.
    destruct (heap s' !! r) eqn:E; [|exact H]. destruct (Qltb _ _); [|exact H].
    case_bool_decide; (apply heap_good_write; [exact H|]); autorewrite with good_rw; eauto. }
  destruct (fold_left _ _ _). exact H.
Qed.

Lemma handleNavigation_good (page : string) (s : App) :
  good s -> good (outcome_state (handleNavigation page s)).
Proof.
  intros Hs. unfold handleNavigation, showFavorites, showNearestPumpForUpdate, showUpdateModal.
  repeat case_match; exact Hs.
Qed.

Lemma centerOnUserLocation_good (geo : bool) (s : App) : good s -> good (centerOnUserLocation geo s).
Proof. intros Hs. unfold centerOnUserLocation, requestUserLocation. destruct (userLocation s), geo; exact Hs. Qed.

Lemma step_good (now : Instant) (e : Event) (s : App) :
  good s -> good (outcome_state (step calculateDistance now e s)).
Proof.
  intros Hs. destruct e; cbn [step outcome_state].
  - apply (loadRealCNGStations_good now answer (set_location s (Some loc))), Hs.
  - apply addPumpMarkers_good, loadSampleData_good, Hs.
  - apply addPumpMarkers_good, loadSampleData_good, Hs.
  - apply centerOnUserLocation_good, Hs.
  - apply (centerOnUserLocation_good true (updateDistances calculateDistance now (set_location s (Some loc)))),
      updateDistances_good, Hs.
  - apply updateDistances_good, Hs.
  - apply updateDistances_good, Hs.
  - apply showPumpDetails_good, Hs.
  - destruct (selectedPump s); exact Hs.
  - apply submitQueueUpdate_good, Hs.
  - apply toggleFavorite_good, Hs.
  - apply refreshData_good, Hs.
  - apply handleNavigation_good, Hs.
Qed.

(** Every object of the heap of a reachable state satisfies [ok], the
    objects no longer listed included. *)
Lemma reachable_good (st : Storage) (s : App) : reachable calculateDistance st s -> good s.
Proof. induction 1 as [|s now e _ IH]; [apply map_Forall_empty | apply step_good, IH]. Qed.

End Good.

(** ** The two instances: the status and the history *)

Lemma sample_pumps_consistent (now_ms : Z) :
  Forall (fun p => status_consistent p = true) (sample_pumps now_ms).
Proof.
  assert (H : forallb status_consistent (sample_pumps now_ms) = true) by reflexivity.
  apply Forall_forall. intros p Hp. rewrite forallb_forall in H. apply H, Hp.
Qed.

Lemma sample_pumps_hist_ok (now_ms : Z) : Forall (fun p => hist_ok p = true) (sample_pumps now_ms).
Proof.
  assert (H : forallb hist_ok (sample_pumps now_ms) = true) by reflexivity.
  apply Forall_forall. intros p Hp. rewrite forallb_forall in H. apply H, Hp.
Qed.

Section WithDistance.

Variable calculateDistance : Q -> Q -> Q -> Q -> Q.

Lemma reachable_heap_ok (st : Storage) (s : App) : reachable calculateDistance st s -> heap_ok s.
Proof.
  apply (reachable_good status_consistent set_estimate_consistent set_distance_consistent
           (fun p q t d _ => set_reading_consistent p q t d) sample_pumps_consistent);
    [repeat constructor | reflexivity].
Qed.

(** Every pump of a reachable state has a consistent status. *)
Lemma reachable_pumps_consistent (st : Storage) (s : App) :
  reachable calculateDistance st s ->
  forall p, p ∈ pump_objects s -> status_consistent p = true.
Proof. intros Hr p. apply pump_objects_good, (reachable_heap_ok st s Hr). Qed.

Lemma reachable_hist_ok (st : Storage) (s : App) :
  reachable calculateDistance st s -> @heap_good hist_ok s.
Proof.
  apply (reachable_good hist_ok (fun _ _ _ _ => eq_refl) (fun _ _ => eq_refl)
           (fun p q t d H => H) sample_pumps_hist_ok); [repeat constructor | reflexivity].
Qed.

(** C26. In every reachable state every object of the heap has a
    consistent status ([heap_ok]), and so every pump of [this.pumps]
    shows the status of its queue length: the bucket ([<= 5] green,
    [<= 15] yellow, red) of its queue, or gray when it has none. *)
Theorem reachable_status_consistent (st : Storage) (s : App) :
  reachable calculateDistance st s ->
  heap_ok s /\
  forall p, p ∈ pump_objects s ->
  queueStatus p = match queueLength p with Some q => statusOfQueue q | None => Gray end.
Proof.
  intros Hr. split; [exact (reachable_heap_ok st s Hr)|].
  intros p Hp. apply status_consistent_spec, (reachable_pumps_consistent st s Hr p Hp).
Qed.

(** C16. In every reachable state every pump of [this.pumps] has either
    no [avgQueueByHour] or an array of 24 hourly averages (the samples
    have 24, the loaded stations none, and no handler writes the field),
    so [avgQueueByHour[currentHour]] is always defined and
    [calculateSmartQueueStatus] predicts a number for every pump at
    every instant: the markers and popups never show [~undefined] or
    [~NaN] vehicles. *)
Theorem reachable_predictions_numbers (st : Storage) (s : App) :
  reachable calculateDistance st s ->
  forall now p, p ∈ pump_objects s ->
  hist_ok p = true /\ exists x, sd_predictedQueue (estimate now p) = JNum x.
Proof.
  intros Hr now p Hp. pose proof (pump_objects_good s p (reachable_hist_ok st s Hr) Hp) as Hh.
  split; [exact Hh|]. rewrite estimate_fields. cbn [sd_predictedQueue]. unfold hist_ok in Hh.
  assert (Hb : exists x, fst (historical_blend (timeSinceUpdate now (lastUpdated p)) (getHours now)
                                (queueLength p) (avgQueueByHour p)) = JNum x).
  { destruct (avgQueueByHour p) as [avg|]; cbn [historical_blend fst]; [|eauto].
    apply Nat.eqb_eq in Hh. pose proof (getHours_range now) as Hr24.
    destruct (js_index_in_range avg (getHours now)) as [y Hy]; [lia | lia |]. rewrite Hy.
    destruct (Qltb 30 _); cbn; eauto. }
  destruct Hb as [x Hx]. rewrite Hx. unfold peak_adjust. destruct (_ && _); cbn; eauto.
Qed.

End WithDistance.

Lemma reachable_status_consistent_witness :
  reachable zero_distance empty_storage sample_demo /\ heap_ok sample_demo /\
  forall p, p ∈ pump_objects sample_demo ->
  queueStatus p = match queueLength p with Some q => statusOfQueue q | None => Gray end.
Proof.
  assert (Hr : reachable zero_distance empty_storage sample_demo)
    by (apply reach_step, reach_step, reach_init).
  split; [exact Hr|]. exact (reachable_status_consistent zero_distance empty_storage sample_demo Hr).
Defined.

(** The first sample pump of the page has a history; on Tuesday at
    9:00 its prediction is a number. *)
Lemma reachable_predictions_numbers_witness :
  reachable zero_distance empty_storage sample_demo /\
  exists p, hd_error (pump_objects sample_demo) = Some p /\ p ∈ pump_objects sample_demo /\
    is_Some (avgQueueByHour p) /\
    hist_ok p = true /\ exists x, sd_predictedQueue (estimate tuesday_9am p) = JNum x.
Proof.
  assert (Hr : reachable zero_distance empty_storage sample_demo)
    by (apply reach_step, reach_step, reach_init).
  split; [exact Hr|].
  destruct (hd_error (pump_objects sample_demo)) as [p|] eqn:Hh; [|vm_compute in Hh; discriminate].
  assert (Hp : p ∈ pump_objects sample_demo).
  { revert Hh. destruct (pump_objects sample_demo) as [|p' l]; [discriminate|].
    intros Hh. injection Hh as ->. left. }
  exists p. split; [reflexivity|]. split; [exact Hp|]. split.
  - vm_compute in Hh. injection Hh as <-. eexists. reflexivity.
  - exact (reachable_predictions_numbers zero_distance empty_storage sample_demo Hr tuesday_9am p Hp).
Defined.

End Status.
