(* ===== verification/ListView.v ===== *)
(** * ListView: the list of stations and its text ([src/public/app.js])

    - [getQueueText(queueLength)] (lines 589-595): the badge of a card,
      one of four templates ([QueueText]);
    - [getTimeAgo(date)] (lines 662-669): the age of the last reading,
      as the string the card shows;
    - [updatePumpsList()] (lines 807-843): a copy of [this.pumps],
      filtered by status unless the filter is ['all'], then sorted by the
      comparator the select [sort-by] chooses.  [Array.prototype.sort]
      is stable, and each comparator is [key(a) - key(b)] for a numeric
      key, so the result is the stable sort by that key ([sort_by]);
    - [handleSearch(query)] (lines 1158-1181): below two characters the
      whole list; otherwise the pumps whose name, address or brand
      contains the lower-cased query.
    The list is rendered, not stored: each function returns the pumps of
    the cards, in order.  The strings are ASCII, so [query.length] is
    the number of characters. *)

From stdpp Require Import base gmap strings list sorting.
From Stdlib Require Import String.
From S2P Require Import Prelude Clock JsString Station SmartQueue Store Loaders Handlers Status Invariants.

Local Open Scope string_scope.
Import SmartQueue Loaders Handlers Invariants Status.

Module ListView.

(** ** [getQueueText] *)

(** The four templates: ['No data'], ['Empty'], [`${q} in queue`] and
    [`${q}+ in queue`]. *)
Inductive QueueText : Type :=
| NoData
| EmptyQueue
| InQueue (q : Q)
| InQueuePlus (q : Q).

Definition getQueueText (queueLength : option Q) : QueueText :=
  match queueLength with
  | None => NoData
  | Some q =>
      if Qeq_bool q 0 then EmptyQueue
      else if Qle_bool q 5 then InQueue q
      else if Qle_bool q 15 then InQueue q
      else InQueuePlus q
  end.

(** ** [getTimeAgo] *)

(** [Math.floor((new Date() - date) / 60000)] and the strings built from
    it.  [date] is a [Date] or [null] ([null] counts as [0]). *)
Definition getTimeAgo (now : Instant) (date : option Z) : string :=
  let minutes := (ms_since now date / 60000)%Z in
  if (minutes <? 1)%Z then "just now"
  else if (minutes <? 60)%Z then string_of_Z minutes ++ " min ago"
  else
    let hours := (minutes / 60)%Z in
    if (hours <? 24)%Z then
      string_of_Z hours ++ " hour" ++ (if (1 <? hours)%Z then "s" else "") ++ " ago"
    else string_of_Z (hours / 24) ++ " day" ++ (if (24 <? hours)%Z then "s" else "") ++ " ago".

(** ** [updatePumpsList] *)

(** The value of a status in the [filter-status] select. *)
Definition status_name (s : QueueStatus) : string :=
  match s with Green => "green" | Yellow => "yellow" | Red => "red" | Gray => "gray" end.

(** [a.distance - b.distance]: [null] is [0]. *)
Definition distance_of (p : Pump) : Q := num_or_zero (distance p).

(** [(a.queueLength || 999) - (b.queueLength || 999)]: [0] is falsy. *)
Definition queue_key (p : Pump) : Q :=
  match queueLength p with
  | Some q => if Qeq_bool q 0 then 999 else q
  | None => 999
  end.

(** [b.lastUpdated - a.lastUpdated]: the newest first. *)
Definition updated_key (p : Pump) : Q := inject_Z (- default 0 (lastUpdated p))%Z.

(** The comparator of [filteredPumps.sort], as the key it subtracts;
    [default: return 0] is the constant key. *)
Definition sort_key (sortBy : string) : Pump -> Q :=
  if String.eqb sortBy "distance" then distance_of
  else if String.eqb sortBy "queue" then queue_key
  else if String.eqb sortBy "updated" then updated_key
  else fun _ => 0.

Definition status_filter (filterStatus : string) (l : list Pump) : list Pump :=
  if String.eqb filterStatus "all" then l
  else filter (fun p => String.eqb (status_name (queueStatus p)) filterStatus) l.

Definition updatePumpsList (sortBy filterStatus : string) (s : App) : list Pump :=
  sort_by (sort_key sortBy) (status_filter filterStatus (pump_objects s)).

(** ** [handleSearch] *)

Definition matches_query (q : string) (p : Pump) : bool :=
  includes (toLowerCase (name p)) q || includes (toLowerCase (address p)) q ||
  includes (toLowerCase (brand p)) q.

Definition handleSearch (query sortBy filterStatus : string) (s : App) : list Pump :=
  let q := toLowerCase query in
  if (String.length q <? 2)%nat then updatePumpsList sortBy filterStatus s
  else filter (matches_query q) (pump_objects s).

(** ** Lemmas *)

Section Sorting.

Context {A : Type} (key : A -> Q).

Let le_key (a b : A) : Prop := key a <= key b.

Lemma insert_by_elem (x y : A) (l : list A) : y ∈ insert_by key x l <-> y = x \/ y ∈ l.
Proof. rewrite (insert_by_perm key x l). set_solver. Qed.

Lemma insert_by_sorted (x : A) (l : list A) :
  StronglySorted le_key l -> StronglySorted le_key (insert_by key x l).
Proof.
  unfold le_key. induction l as [|y l IH]; intros Hs; simpl.
  - repeat constructor.
  - inversion Hs as [|? ? Hl Hy]; subst. rewrite Forall_forall in Hy.
    destruct (Qle_bool (key x) (key y)) eqn:E.
    + apply Qle_bool_iff in E. constructor; [exact Hs|].
      apply Forall_forall. intros z [<-|Hz]; [exact E|].
      apply (Qle_trans _ (key y)); [exact E | apply Hy, Hz].
    + apply Qle_bool_false in E. constructor; [apply IH, Hl|].
      apply Forall_forall. intros z Hz. apply list_elem_of_In, insert_by_elem in Hz.
      destruct Hz as [->|Hz]; [lra | apply Hy, list_elem_of_In, Hz].
Qed.

Lemma sort_by_sorted (l : list A) : StronglySorted le_key (sort_by key l).
Proof. induction l as [|x l IH]; simpl; [constructor | apply insert_by_sorted, IH]. Qed.

Lemma StronglySorted_lookup (R : A -> A -> Prop) (l : list A) (i j : nat) (x y : A) :
  StronglySorted R l -> (i < j)%nat -> l !! i = Some x -> l !! j = Some y -> R x y.
Proof.
  revert i j. induction l as [|z l IH]; intros i j Hs Hij Hi Hj; [discriminate|].
  inversion Hs as [|? ? Hl Hz]; subst.
  destruct i as [|i], j as [|j]; simpl in *; [lia | | lia |].
  - injection Hi as <-. rewrite Forall_forall in Hz. apply Hz, list_elem_of_In. eapply list_elem_of_lookup_2, Hj.
  - apply (IH i j); [exact Hl | lia | exact Hi | exact Hj].
Qed.

End Sorting.

Lemma status_filter_spec (f : string) (l : list Pump) (p : Pump) :
  p ∈ status_filter f l <-> p ∈ l /\ (f = "all" \/ status_name (queueStatus p) = f).
Proof.
  unfold status_filter. destruct (String.eqb_spec f "all") as [->|Hf].
  - tauto.
  - rewrite !list_elem_of_In, filter_In, String.eqb_eq. tauto.
Qed.

Lemma queue_key_bound (p : Pump) (q : Q) :
  queueLength p = Some q -> 0 < q < 999 -> queue_key p < 999.
Proof.
  intros Hq Hb. unfold queue_key. rewrite Hq.
  destruct (Qeq_bool q 0) eqn:E; [apply Qeq_bool_eq in E; lra | lra].
Qed.

Lemma queue_key_empty (p : Pump) : queueLength p = Some 0 -> queue_key p = 999.
Proof. intros Hq. unfold queue_key. rewrite Hq. reflexivity. Qed.

(** [Math.floor] three times is one floor by the product. *)
Lemma days_of_ms (ms : Z) : (0 <= ms)%Z -> (ms / 60000 / 60 / 24 = ms / 86400000)%Z.
Proof. intros H. rewrite !Z.div_div by lia. reflexivity. Qed.

(** Deciding the comparisons of integers the hypotheses bound. *)
Ltac zltb_cases :=
  repeat match goal with |- context [Z.ltb ?a ?b] => destruct (Z.ltb_spec a b); try lia end.

Lemma div_bounds (a b lo hi : Z) : (0 < b)%Z -> (lo * b <= a < hi * b)%Z -> (lo <= a / b < hi)%Z.
Proof.
  intros Hb Ha. split; [apply Z.div_le_lower_bound | apply Z.div_lt_upper_bound]; lia.
Qed.

(** The badge text of a pump whose status is consistent agrees with its
    status: no data exactly when gray, a [+] exactly when red. *)
Lemma queueText_of_consistent (p : Pump) :
  status_consistent p = true ->
  (getQueueText (queueLength p) = NoData <-> queueStatus p = Gray) /\
  ((exists q, getQueueText (queueLength p) = InQueuePlus q) <-> queueStatus p = Red).
Proof.
  intros Hc. rewrite (status_consistent_spec p Hc).
  destruct (queueLength p) as [q|]; simpl.
  - unfold statusOfQueue.
    destruct (Qeq_bool q 0) eqn:E0;
      [apply Qeq_bool_eq in E0; rewrite (proj2 (Qle_bool_iff q 5)) by lra|];
      repeat case_qbool; split; split; intros H; try discriminate; try (destruct H; discriminate);
      eauto; lra.
  - split; split; intros H; try reflexivity; try discriminate. destruct H; discriminate.
Qed.

(** ** The list view *)

(** A reading 25 to 47 hours old is shown as ["1 days ago"]. *)
Theorem getTimeAgo_one_days (now : Instant) (d : Z) :
  (25 * 3600000 <= ms_since now (Some d) < 48 * 3600000)%Z ->
  getTimeAgo now (Some d) = "1 days ago".
Proof.
  intros H. unfold getTimeAgo.
  set (m := ms_since now (Some d)) in *.
  pose proof (div_bounds m 60000 1500 2880 ltac:(lia) ltac:(lia)) as Hmin.
  pose proof (div_bounds (m / 60000) 60 25 48 ltac:(lia) ltac:(lia)) as Hh.
  replace (m / 60000 / 60 / 24)%Z with 1%Z
    by (apply Z.div_unique_pos with (m / 60000 / 60 - 24)%Z; lia).
  zltb_cases. reflexivity.
Qed.

(** A station never updated is shown as updated the days since 1970. *)
Theorem getTimeAgo_never_updated (now : Instant) :
  (2 * 86400000 <= epoch_ms now)%Z ->
  getTimeAgo now None = string_of_Z (epoch_ms now / 86400000) ++ " days ago".
Proof.
  intros H. unfold getTimeAgo, ms_since. rewrite Z.sub_0_r.
  pose proof (div_bounds (epoch_ms now) 60000 2880 (epoch_ms now / 60000 + 1) ltac:(lia)
                ltac:(split; [lia | pose proof (Z.mod_pos_bound (epoch_ms now) 60000); 
                                    rewrite (Z.div_mod (epoch_ms now) 60000) at 1 by lia; lia]))
    as Hmin.
  assert (Hh : (48 <= epoch_ms now / 60000 / 60)%Z) by (apply Z.div_le_lower_bound; lia).
  rewrite days_of_ms by lia. zltb_cases. reflexivity.
Qed.

(** C27. The day labels of [getTimeAgo] are wrong in two ways: a reading
    25 to 47 hours old is shown as ["1 days ago"], because the plural is
    chosen by [hours > 24] instead of by the number of days; and a
    station that was never updated ([lastUpdated: null], so
    [new Date() - null] is the epoch time) is shown as updated the
    number of days since 1970 ago. *)
Theorem getTimeAgo_day_labels (now : Instant) (d : Z) :
  (25 * 3600000 <= ms_since now (Some d) < 48 * 3600000)%Z ->
  (2 * 86400000 <= epoch_ms now)%Z ->
  getTimeAgo now (Some d) = "1 days ago" /\
  getTimeAgo now None = string_of_Z (epoch_ms now / 86400000) ++ " days ago".
Proof.
  intros Hd Hn. split; [apply getTimeAgo_one_days, Hd | apply getTimeAgo_never_updated, Hn].
Qed.

Lemma getTimeAgo_day_labels_witness :
  getTimeAgo tuesday_9am (Some (epoch_ms tuesday_9am - 30 * 3600000))%Z = "1 days ago" /\
  getTimeAgo tuesday_9am None = "5 days ago".
Proof.
  apply (getTimeAgo_day_labels tuesday_9am (epoch_ms tuesday_9am - 30 * 3600000)%Z);
    [split | ]; vm_compute; congruence.
Defined.

Section Reach.

Variable calculateDistance : Q -> Q -> Q -> Q -> Q.

(** In every reachable state, the badge of a card agrees with its
    colour: ['No data'] exactly on the gray pumps, and a [+] exactly on
    the red ones. *)
Theorem reachable_queueText_status (st : Storage) (s : App) :
  reachable calculateDistance st s ->
  forall p, p ∈ pump_objects s ->
  (getQueueText (queueLength p) = NoData <-> queueStatus p = Gray) /\
  ((exists q, getQueueText (queueLength p) = InQueuePlus q) <-> queueStatus p = Red).
Proof.
  intros Hr p Hp. apply queueText_of_consistent, (reachable_pumps_consistent calculateDistance st s Hr p Hp).
Qed.

End Reach.

(** C30. [updatePumpsList] shows exactly the pumps that pass the status
    filter, each once, ordered by the key of the chosen comparator. *)
Theorem updatePumpsList_spec (sortBy f : string) (s : App) :
  updatePumpsList sortBy f s ≡ₚ status_filter f (pump_objects s) /\
  (forall p, p ∈ updatePumpsList sortBy f s <->
             p ∈ pump_objects s /\ (f = "all" \/ status_name (queueStatus p) = f)) /\
  StronglySorted (fun a b => sort_key sortBy a <= sort_key sortBy b) (updatePumpsList sortBy f s).
Proof.
  unfold updatePumpsList. split; [apply sort_by_perm|]. split; [|apply sort_by_sorted].
  intros p. rewrite (sort_by_perm (sort_key sortBy)). apply status_filter_spec.
Qed.

(** C31. Sorted by queue, a station with an empty queue ([0], falsy in
    [a.queueLength || 999]) is listed after every station with a queue
    between 1 and 998, instead of first. *)
Theorem queue_sort_empty_last (f : string) (s : App) (i j : nat) (p p' : Pump) (q' : Q) :
  updatePumpsList "queue" f s !! i = Some p -> updatePumpsList "queue" f s !! j = Some p' ->
  queueLength p = Some 0 -> queueLength p' = Some q' -> 0 < q' < 999 -> (j < i)%nat.
Proof.
  intros Hi Hj Hp Hp' Hq.
  pose proof (queue_key_empty p Hp) as Hk. pose proof (queue_key_bound p' q' Hp' Hq) as Hk'.
  destruct (Nat.lt_trichotomy i j) as [Hlt|[->|Hgt]]; [| |exact Hgt].
  2: { rewrite Hi in Hj. injection Hj as <-. rewrite Hp in Hp'. injection Hp' as <-. lra. }
  pose proof (StronglySorted_lookup _ _ _ _ _ _ (sort_by_sorted queue_key _) Hlt Hi Hj) as Hle.
  cbv beta zeta in Hle. rewrite Hk in Hle. lra.
Qed.

Lemma queue_sort_empty_last_witness :
  exists p p', updatePumpsList "queue" "all" sample_demo !! 10%nat = Some p /\
    updatePumpsList "queue" "all" sample_demo !! 0%nat = Some p' /\
    queueLength p = Some 0 /\ queueLength p' = Some 2 /\ (0 < 2 < 999)%Q /\ (0 < 10)%nat.
Proof.
  destruct (updatePumpsList "queue" "all" sample_demo !! 10%nat) as [p|] eqn:Hi;
    [|vm_compute in Hi; discriminate].
  destruct (updatePumpsList "queue" "all" sample_demo !! 0%nat) as [p'|] eqn:Hj;
    [|vm_compute in Hj; discriminate].
  assert (Hp : queueLength p = Some 0) by (vm_compute in Hi; injection Hi as <-; reflexivity).
  assert (Hp' : queueLength p' = Some 2) by (vm_compute in Hj; injection Hj as <-; reflexivity).
  assert (Hq : (0 < 2 < 999)%Q) by (split; reflexivity).
  exists p, p'. split; [reflexivity|]. split; [reflexivity|]. do 3 (split; [assumption|]).
  exact (queue_sort_empty_last "all" sample_demo 10 0 p p' 2 Hi Hj Hp Hp' Hq).
Defined.

(** C32. A search of two characters or more lists exactly the pumps
    whose name, address or brand contains the query, ignoring case; the
    status filter and the sort order are not applied. *)
Theorem handleSearch_spec (query sortBy f : string) (s : App) (p : Pump) :
  (2 <= String.length (toLowerCase query))%nat ->
  p ∈ handleSearch query sortBy f s <->
  p ∈ pump_objects s /\
  (includes (toLowerCase (name p)) (toLowerCase query) = true \/
   includes (toLowerCase (address p)) (toLowerCase query) = true \/
   includes (toLowerCase (brand p)) (toLowerCase query) = true).
Proof.
  intros Hl. unfold handleSearch.
  replace (String.length (toLowerCase query) <? 2)%nat with false by (symmetry; apply Nat.ltb_ge, Hl).
  rewrite !list_elem_of_In, filter_In. unfold matches_query. rewrite !orb_true_iff. tauto.
Qed.

Lemma handleSearch_spec_witness :
  (2 <= String.length (toLowerCase "IGL"))%nat /\
  (forall p, p ∈ handleSearch "IGL" "distance" "red" sample_demo <->
             p ∈ pump_objects sample_demo /\
             (includes (toLowerCase (name p)) (toLowerCase "IGL") = true \/
              includes (toLowerCase (address p)) (toLowerCase "IGL") = true \/
              includes (toLowerCase (brand p)) (toLowerCase "IGL") = true)).
Proof.
  assert (H : (2 <= String.length (toLowerCase "IGL"))%nat) by (vm_compute; lia).
  split; [exact H|]. intros p. exact (handleSearch_spec "IGL" "distance" "red" sample_demo p H).
Defined.

End ListView.
