(* ===== verification/Api.v ===== *)
(** * Api: the [ApiService] of [src/src/services/api.js]

    A REST client with an authentication token and a Socket.IO
    connection.  The singleton is built when the script loads (line
    211); neither [app.js] calls it.
    - The JSON the server sends is [Json]; a property read [v.k] gives
      [undefined] ([Undef]), a value, or a [TypeError] when [v] is
      [null] or [undefined] ([member]).  Numbers are integers.
    - [request(endpoint, options)] (lines 12-41) builds the request
      ([build_request]: the headers are a JavaScript object, an ordered
      list of keys with [obj_set] and object spread), passes it to the
      server (a function from the request to the response, standing for
      [fetch]) and returns the data or throws ([request_result]).
    - [setAuthToken], [clearAuthToken] (44-53) and the [authToken] key
      of [localStorage]; [register], [login] (56-80) and [logout]
      (82-85) as [Outcome]s; the page reload as [reload] (the
      constructor, lines 6-9, reading the stored token back).
    - [connectWebSocket] (158-186): the Socket.IO script is appended and
      [this.socket] is only set by its [onload]; the load is a separate
      event [ScriptLoad].  [disconnectWebSocket] (188-193).
    - [getPumps] (88-97): its query parameters.  The other endpoints
      only call [request] and change nothing ([Call]).
    Claims C12, C33-C37 and C39: [Bearer null] after [setAuthToken(null)]
    and a reload, the headers of a request, login on success and on
    rejection, logout when the request fails, the storage following the
    token, and the sockets of [connectWebSocket]; the
    lemma [reload_keeps_request] carries requests across a reload and
    [websocket_double_connect_leak] is the trace that leaks a socket.
    [API_BASE_URL] (line 3) is a section variable: [process.env] is
    provided by a bundler, not by the browser. *)

From Stdlib Require Import String.
From S2P Require Import Prelude JsString.

Local Open Scope string_scope.
Local Set Warnings "-register-all".

Module Api.

(** ** JSON values *)

Inductive Json : Type :=
| JNull
| JBool (b : bool)
| JNumber (z : Z)
| JString (s : string)
| JArray (items : list Json)
| JObject (fields : list (string * Json)).

(** The result of a property read: [undefined] or a value. *)
Inductive JsVal : Type := Undef | Val (v : Json).

Definition truthy_json (v : Json) : bool :=
  match v with
  | JNull => false
  | JBool b => b
  | JNumber z => negb (Z.eqb z 0)
  | JString s => truthy s
  | JArray _ | JObject _ => true
  end.

Definition truthy_val (v : JsVal) : bool :=
  match v with Undef => false | Val j => truthy_json j end.

(** [String(v)]; an array joins its items with commas, [null] items
    as the empty string. *)
Fixpoint js_to_string (v : Json) : string :=
  match v with
  | JNull => "null"
  | JBool b => if b then "true" else "false"
  | JNumber z => string_of_Z z
  | JString s => s
  | JArray items =>
      join "," (map (fun x => match x with JNull => EmptyString | _ => js_to_string x end) items)
  | JObject _ => "[object Object]"
  end.

(** The value of key [k] of an object: [JSON.parse] keeps the last of
    duplicate keys. *)
Fixpoint assoc_last {A} (k : string) (l : list (string * A)) : option A :=
  match l with
  | [] => None
  | (k', v) :: rest =>
      match assoc_last k rest with
      | Some w => Some w
      | None => if String.eqb k' k then Some v else None
      end
  end.

(** [o.k]: [None] is the [TypeError] of a read on [null] or
    [undefined]. *)
Definition member (o : JsVal) (k : string) : option JsVal :=
  match o with
  | Undef | Val JNull => None
  | Val (JObject fs) => Some (match assoc_last k fs with Some v => Val v | None => Undef end)
  | Val _ => Some Undef
  end.

(** ** Objects of strings (the headers) *)

Definition Obj : Type := list (string * string).

(** [o[k] = v]: an existing key keeps its place. *)
Definition obj_set (o : Obj) (k v : string) : Obj :=
  if existsb (fun kv => String.eqb (fst kv) k) o
  then map (fun kv => if String.eqb (fst kv) k then (k, v) else kv) o
  else app o [(k, v)].

(** [{...dst, ...src}]. *)
Definition spread (dst src : Obj) : Obj :=
  fold_left (fun o kv => obj_set o (fst kv) (snd kv)) src dst.

Fixpoint obj_get (o : Obj) (k : string) : option string :=
  match o with
  | [] => None
  | (k', v) :: rest => if String.eqb k' k then Some v else obj_get rest k
  end.

(** ** Requests *)

Record Options : Type := mkOptions {
  o_method : option string;
  o_body : option string;
  o_headers : option Obj
}.

Record Request : Type := mkRequest {
  r_url : string;
  r_method : option string;
  r_body : option string;
  r_headers : Obj
}.

(** What [fetch] and [response.json()] give: a rejection, or a response
    with its [ok] flag and its body ([None] when it is not JSON). *)
Inductive Response : Type :=
| FetchRejected (message : string)
| Reply (ok : bool) (body : option Json).

Inductive Result : Type :=
| ROk (data : Json)
| RThrow (message : string).

(** The request [request(endpoint, options)] sends with the token
    [tok]. *)
Definition build_request (base : string) (tok : Json) (endpoint : string) (o : Options) : Request :=
  let h0 := spread [("Content-Type", "application/json")] (match o_headers o with Some h => h | None => [] end) in
  let h := if truthy_json tok then obj_set h0 "Authorization" ("Bearer " ++ js_to_string tok) else h0 in
  mkRequest (base ++ endpoint) (o_method o) (o_body o) h.

(** The [try] block after [fetch]: the data, or what is thrown. *)
Definition request_result (resp : Response) : Result :=
  match resp with
  | FetchRejected e => RThrow e
  | Reply _ None => RThrow "SyntaxError: Unexpected token in JSON"
  | Reply true (Some data) => ROk data
  | Reply false (Some data) =>
      match member (Val data) "error" with
      | None => RThrow "TypeError: Cannot read properties of null (reading 'error')"
      | Some e => RThrow (match e with Val v => if truthy_json v then js_to_string v
                                               else "API request failed"
                                     | Undef => "API request failed" end)
      end
  end.

(** ** The service *)

Record ApiState : Type := mkApi {
  token : Json;                       (* this.token *)
  stored : option string;             (* localStorage 'authToken' *)
  socket : option nat;                (* this.socket *)
  pending : nat;                      (* socket.io scripts appended, not loaded *)
  open_sockets : list (nat * Json);   (* connected sockets, with their auth token *)
  next_socket : nat
}.

(** [new ApiService()]: [localStorage.getItem('authToken')]. *)
Definition constructor (st : option string) : ApiState :=
  mkApi (match st with Some s => JString s | None => JNull end) st None 0 [] 0.

(** A reload of the page: the sockets close, the service is rebuilt
    from the storage. *)
Definition reload (a : ApiState) : ApiState := constructor (stored a).

Definition setAuthToken (v : Json) (a : ApiState) : ApiState :=
  mkApi v (Some (js_to_string v)) (socket a) (pending a) (open_sockets a) (next_socket a).

Definition clearAuthToken (a : ApiState) : ApiState :=
  mkApi JNull None (socket a) (pending a) (open_sockets a) (next_socket a).

(** [process.env.API_URL || 'http://localhost:3001/api'] (line 3), with
    the bundler's value of [API_URL] ([undefined] is [None]): the base
    the section variable [API_BASE_URL] stands for. *)
Definition API_BASE_URL_of (api_url : option string) : string :=
  str_or api_url "http://localhost:3001/api".

Section WithBase.

Variable API_BASE_URL : string.

(** [await this.request(endpoint, options)], with the server's answer
    to the request it sends. *)
Definition request (a : ApiState) (endpoint : string) (o : Options)
    (server : Request -> Response) : Result :=
  request_result (server (build_request API_BASE_URL (token a) endpoint o)).

(** A method's completion: its value ([undefined] is [None]) or what
    it throws, with the state either way. *)
Inductive Outcome : Type :=
| Done (value : option Json) (a : ApiState)
| Threw (message : string) (a : ApiState).

Definition outcome_state (o : Outcome) : ApiState :=
  match o with Done _ a => a | Threw _ a => a end.

Definition auth_options (body : string) : Options := mkOptions (Some "POST") (Some body) None.

(** [register] and [login]: post, then keep [response.data.token] when
    it is truthy. *)
Definition auth_call (endpoint body : string) (server : Request -> Response) (a : ApiState) : Outcome :=
  match request a endpoint (auth_options body) server with
  | RThrow e => Threw e a
  | ROk data =>
      match member (Val data) "data" with
      | None => Threw "TypeError: Cannot read properties of null (reading 'data')" a
      | Some d =>
          match member d "token" with
          | None =>
              Threw (match d with
                     | Undef => "TypeError: Cannot read properties of undefined (reading 'token')"
                     | Val _ => "TypeError: Cannot read properties of null (reading 'token')"
                     end) a
          | Some (Val t) => if truthy_json t then Done (Some data) (setAuthToken t a) else Done (Some data) a
          | Some Undef => Done (Some data) a
          end
      end
  end.

Definition register (body : string) := auth_call "/auth/register" body.
Definition login (body : string) := auth_call "/auth/login" body.

(** [logout()]: the token is cleared only after the request returned. *)
Definition logout (server : Request -> Response) (a : ApiState) : Outcome :=
  match request a "/auth/logout" (mkOptions (Some "POST") None None) server with
  | RThrow e => Threw e a
  | ROk _ => Done None (clearAuthToken a)
  end.

End WithBase.

(** [getPumps(lat, lng, radius)]: the query parameters, appended only
    when [lat && lng]. *)
Definition getPumps_params (lat lng : option Q) (radius : Q) : list (string * Q) :=
  match lat, lng with
  | Some x, Some y => if num_truthy lat && num_truthy lng then [("lat", x); ("lng", y); ("radius", radius)] else []
  | _, _ => []
  end.

(** ** The WebSocket *)

(** [connectWebSocket()]: nothing when [this.socket] is set; otherwise
    one more script element. *)
Definition connectWebSocket (a : ApiState) : ApiState :=
  match socket a with
  | Some _ => a
  | None => mkApi (token a) (stored a) None (S (pending a)) (open_sockets a) (next_socket a)
  end.

(** The [onload] of one appended script: [this.socket = io(...)] with
    the token of that moment. *)
Definition script_onload (a : ApiState) : ApiState :=
  match pending a with
  | O => a
  | S k =>
      let n := next_socket a in
      mkApi (token a) (stored a) (Some n) k ((n, token a) :: open_sockets a) (S n)
  end.

(** [disconnectWebSocket()]. *)
Definition disconnectWebSocket (a : ApiState) : ApiState :=
  match socket a with
  | Some n =>
      mkApi (token a) (stored a) None (pending a)
        (filter (fun s => negb (Nat.eqb (fst s) n)) (open_sockets a)) (next_socket a)
  | None => a
  end.

(** The messages the service emits on its socket. *)
Inductive SocketMessage : Type :=
| JoinLocation (lat lng : Q)
| QueueUpdate (data : Json).

(** [this.socket.emit(...)] when [this.socket] is set: the message and
    the connection it goes to; without a socket nothing is sent and
    nothing reports it. *)
Definition emit (a : ApiState) (m : SocketMessage) : option (nat * SocketMessage) :=
  match socket a with Some n => Some (n, m) | None => None end.

(** [joinLocationRoom(lat, lng)]. *)
Definition joinLocationRoom (lat lng : Q) (a : ApiState) : option (nat * SocketMessage) :=
  emit a (JoinLocation lat lng).

(** [emitQueueUpdate(data)]. *)
Definition emitQueueUpdate (data : Json) (a : ApiState) : option (nat * SocketMessage) :=
  emit a (QueueUpdate data).

(** ** Events *)

(** The other endpoints ([getPumps], [updateQueue], [getCurrentUser],
    ...) only [return await this.request(...)]: whether they return or
    throw, the state is unchanged ([Call]).  [joinLocationRoom] and
    [emitQueueUpdate] only send on the socket. *)

Inductive ApiEvent : Type :=
| SetToken (v : Json)
| ClearToken
| Register (body : string) (server : Request -> Response)
| Login (body : string) (server : Request -> Response)
| Logout (server : Request -> Response)
| Call (endpoint : string) (o : Options) (server : Request -> Response)
| Connect
| ScriptLoad
| Disconnect
| Reload.

Definition api_step (base : string) (e : ApiEvent) (a : ApiState) : ApiState :=
  match e with
  | SetToken v => setAuthToken v a
  | ClearToken => clearAuthToken a
  | Register body server => outcome_state (register base body server a)
  | Login body server => outcome_state (login base body server a)
  | Logout server => outcome_state (logout base server a)
  | Call _ _ _ => a
  | Connect => connectWebSocket a
  | ScriptLoad => script_onload a
  | Disconnect => disconnectWebSocket a
  | Reload => reload a
  end.

(** The states of the service reachable from any stored token. *)
Inductive api_reachable (base : string) : ApiState -> Prop :=
| ar_init (st : option string) : api_reachable base (constructor st)
| ar_step (a : ApiState) (e : ApiEvent) : api_reachable base a -> api_reachable base (api_step base e a).

Definition api_run (base : string) (a : ApiState) (evs : list ApiEvent) : ApiState :=
  fold_left (fun a e => api_step base e a) evs a.

(** ** Lemmas on objects *)

Lemma obj_set_cons_eq (k v1 v : string) (o : Obj) :
  obj_set ((k, v1) :: o) k v = (k, v) :: map (fun kv => if String.eqb (fst kv) k then (k, v) else kv) o.
Proof. unfold obj_set. simpl. rewrite String.eqb_refl. reflexivity. Qed.

Lemma obj_set_cons_ne (k1 v1 k v : string) (o : Obj) :
  k1 <> k -> obj_set ((k1, v1) :: o) k v = (k1, v1) :: obj_set o k v.
Proof.
  intros Hne. unfold obj_set. simpl.
  destruct (String.eqb_spec k1 k); [contradiction|]. simpl. destruct (existsb _ o); reflexivity.
Qed.

Lemma obj_get_map_other (k k' v : string) (o : Obj) :
  k <> k' -> obj_get (map (fun kv => if String.eqb (fst kv) k then (k, v) else kv) o) k' = obj_get o k'.
Proof.
  intros Hne. induction o as [|[k1 v1] o IH]; [reflexivity|]. simpl.
  destruct (String.eqb_spec k1 k) as [->|_]; simpl.
  - destruct (String.eqb_spec k k'); [contradiction | exact IH].
  - rewrite IH. reflexivity.
Qed.

Lemma obj_get_set (o : Obj) (k k' v : string) :
  obj_get (obj_set o k v) k' = if String.eqb k k' then Some v else obj_get o k'.
Proof.
  induction o as [|[k1 v1] o IH].
  - simpl. destruct (String.eqb k k'); reflexivity.
  - destruct (String.eqb_spec k1 k) as [->|Hne].
    + rewrite obj_set_cons_eq. simpl. destruct (String.eqb_spec k k'); [reflexivity|].
      apply obj_get_map_other. exact n.
    + rewrite obj_set_cons_ne by exact Hne. simpl. rewrite IH.
      destruct (String.eqb_spec k1 k'), (String.eqb_spec k k'); congruence.
Qed.

Lemma obj_get_spread (dst src : Obj) (k : string) :
  obj_get (spread dst src) k = match assoc_last k src with Some v => Some v | None => obj_get dst k end.
Proof.
  revert dst. induction src as [|[k0 v0] src IH]; intros dst; [reflexivity|].
  unfold spread in *. simpl. rewrite IH. destruct (assoc_last k src); [reflexivity|].
  rewrite obj_get_set. destruct (String.eqb k0 k); reflexivity.
Qed.

(** ** A null token *)

(** C12. [setAuthToken(null)] (for instance with the [data.token] of a
    reply that has none) sets [this.token] to [null] but stores
    [String(null)], the string ['null'], under [authToken]: after a
    reload of the page, whatever the service's state was, the token is
    that truthy string, and every request, to any endpoint and with any
    options, carries the header [Authorization: Bearer null]. *)
Theorem null_token_bearer_null (base endpoint : string) (o : Options) (a : ApiState) :
  let a' := api_run base a [SetToken JNull; Reload] in
  token a' = JString "null" /\
  obj_get (r_headers (build_request base (token a') endpoint o)) "Authorization" = Some "Bearer null".
Proof.
  split; [reflexivity|]. unfold build_request. cbn -[obj_set spread].
  rewrite obj_get_set. reflexivity.
Qed.

(** ** Lemmas on the service *)

Lemma auth_call_state (base endpoint body : string) (server : Request -> Response) (a : ApiState) :
  outcome_state (auth_call base endpoint body server a) = a \/
  exists t, truthy_json t = true /\ outcome_state (auth_call base endpoint body server a) = setAuthToken t a.
Proof.
  unfold auth_call. destruct_matches; auto. right. eauto.
Qed.

Lemma logout_state (base : string) (server : Request -> Response) (a : ApiState) :
  outcome_state (logout base server a) = a \/ outcome_state (logout base server a) = clearAuthToken a.
Proof. unfold logout. destruct (request _ _ _ _ _); auto. Qed.

Lemma api_run_reachable (base : string) (a : ApiState) (evs : list ApiEvent) :
  api_reachable base a -> api_reachable base (api_run base a evs).
Proof.
  revert a. induction evs as [|e evs IH]; intros a Ha; [exact Ha|]. apply IH, ar_step, Ha.
Qed.

(** The token of the storage agrees with [this.token]: no token exactly
    when [null], otherwise [String(this.token)]. *)
Definition mirrored (a : ApiState) : Prop :=
  match stored a with None => token a = JNull | Some s => js_to_string (token a) = s end.

Lemma mirrored_set (v : Json) (a : ApiState) : mirrored (setAuthToken v a).
Proof. reflexivity. Qed.

Lemma mirrored_clear (a : ApiState) : mirrored (clearAuthToken a).
Proof. reflexivity. Qed.

Lemma mirrored_constructor (st : option string) : mirrored (constructor st).
Proof. destruct st; reflexivity. Qed.

(** [connectWebSocket] is never called while a script is loading. *)
Inductive seq_reachable (base : string) : ApiState -> Prop :=
| sr_init (st : option string) : seq_reachable base (constructor st)
| sr_step (a : ApiState) (e : ApiEvent) :
    seq_reachable base a -> (e = Connect -> pending a = 0%nat) -> seq_reachable base (api_step base e a).

Definition one_socket (a : ApiState) : Prop :=
  map fst (open_sockets a) = match socket a with Some n => [n] | None => [] end /\
  (pending a = 0%nat \/ (pending a = 1%nat /\ socket a = None)).

Lemma filter_single_socket (l : list (nat * Json)) (n : nat) :
  map fst l = [n] -> map fst (filter (fun s => negb (Nat.eqb (fst s) n)) l) = [].
Proof.
  destruct l as [|[m t] [|x l]]; try discriminate. intros H. injection H as ->.
  simpl. rewrite Nat.eqb_refl. reflexivity.
Qed.

(** ** Requests and authentication *)

(** C33. The headers [request] sends: [Authorization] is [Bearer] and
    the token when the token is truthy, and otherwise whatever the
    caller's headers say; [Content-Type] is the caller's, or JSON. *)
Theorem build_request_headers (base : string) (tok : Json) (endpoint : string) (o : Options) :
  let h := r_headers (build_request base tok endpoint o) in
  let given := match o_headers o with Some g => g | None => [] end in
  obj_get h "Authorization" =
    (if truthy_json tok then Some ("Bearer " ++ js_to_string tok) else assoc_last "Authorization" given) /\
  obj_get h "Content-Type" =
    match assoc_last "Content-Type" given with Some v => Some v | None => Some "application/json" end.
Proof.
  intros h given. subst h given. unfold build_request. cbn [r_headers].
  split; destruct (truthy_json tok); rewrite ?obj_get_set; cbn [String.eqb Ascii.eqb Bool.eqb];
    rewrite ?obj_get_spread; try destruct (assoc_last _ _); reflexivity.
Qed.

Lemma build_request_headers_witness :
  let h := r_headers (build_request "/api" (JString "t0k") "/users/me"
                        (mkOptions None None (Some [("Authorization", "Basic x")]))) in
  obj_get h "Authorization" = Some "Bearer t0k" /\ obj_get h "Content-Type" = Some "application/json".
Proof.
  pose proof (build_request_headers "/api" (JString "t0k") "/users/me"
                (mkOptions None None (Some [("Authorization", "Basic x")]))) as H.
  exact H.
Defined.

(** C34. A login the server accepts with a truthy [data.token] returns
    the data and sets [this.token] to the token, and the storage to its
    string. *)
Theorem login_stores_token (base body : string) (server : Request -> Response) (a : ApiState)
    (data : Json) (d : JsVal) (t : Json) :
  server (build_request base (token a) "/auth/login" (auth_options body)) = Reply true (Some data) ->
  member (Val data) "data" = Some d -> member d "token" = Some (Val t) -> truthy_json t = true ->
  login base body server a = Done (Some data) (setAuthToken t a) /\
  token (outcome_state (login base body server a)) = t /\
  stored (outcome_state (login base body server a)) = Some (js_to_string t).
Proof.
  intros Hs Hd Ht Htr.
  assert (E : login base body server a = Done (Some data) (setAuthToken t a)).
  { unfold login, auth_call, request. rewrite Hs. cbn [request_result]. rewrite Hd, Ht, Htr. reflexivity. }
  rewrite E. auto.
Qed.

Definition login_reply : Json := JObject [("data", JObject [("token", JString "abc")])].

Lemma login_stores_token_witness :
  login "/api" "{}" (fun _ => Reply true (Some login_reply)) (constructor None) =
    Done (Some login_reply) (setAuthToken (JString "abc") (constructor None)) /\
  token (outcome_state (login "/api" "{}" (fun _ => Reply true (Some login_reply)) (constructor None))) =
    JString "abc" /\
  stored (outcome_state (login "/api" "{}" (fun _ => Reply true (Some login_reply)) (constructor None))) =
    Some (js_to_string (JString "abc")).
Proof.
  apply (login_stores_token "/api" "{}" (fun _ => Reply true (Some login_reply)) (constructor None)
           login_reply (Val (JObject [("token", JString "abc")])) (JString "abc"));
    reflexivity.
Defined.

(** C35. A login the server rejects with a JSON object throws the
    object's [error] (as a string) or ['API request failed'], and leaves
    the token and the storage as they were. *)
Theorem login_rejected (base body : string) (server : Request -> Response) (a : ApiState)
    (fields : list (string * Json)) :
  server (build_request base (token a) "/auth/login" (auth_options body)) = Reply false (Some (JObject fields)) ->
  login base body server a =
    Threw (match assoc_last "error" fields with
           | Some v => if truthy_json v then js_to_string v else "API request failed"
           | None => "API request failed"
           end) a.
Proof.
  intros Hs. unfold login, auth_call, request. rewrite Hs. cbn [request_result member].
  destruct (assoc_last "error" fields); reflexivity.
Qed.

Lemma login_rejected_witness :
  login "/api" "{}" (fun _ => Reply false (Some (JObject [("error", JString "Invalid credentials")])))
    (constructor (Some "old")) = Threw "Invalid credentials" (constructor (Some "old")).
Proof. apply (login_rejected "/api" "{}" _ _ [("error", JString "Invalid credentials")]). reflexivity. Defined.

(** C36. A logout whose request fails (the server is unreachable)
    throws before [clearAuthToken]: the user stays logged in, with the
    token in memory and in storage. *)
Theorem logout_failure_keeps_token (base : string) (server : Request -> Response) (a : ApiState) (e : string) :
  server (build_request base (token a) "/auth/logout" (mkOptions (Some "POST") None None)) = FetchRejected e ->
  logout base server a = Threw e a.
Proof. intros Hs. unfold logout, request. rewrite Hs. reflexivity. Qed.

Lemma logout_failure_keeps_token_witness :
  logout "/api" (fun _ => FetchRejected "TypeError: Failed to fetch") (constructor (Some "abc")) =
  Threw "TypeError: Failed to fetch" (constructor (Some "abc")).
Proof. apply logout_failure_keeps_token. reflexivity. Defined.

Lemma reachable_mirrored (base : string) (a : ApiState) :
  api_reachable base a -> mirrored a.
Proof.
  induction 1 as [st|a e _ IH]; [apply mirrored_constructor|].
  destruct e; cbn [api_step]; unfold register, login; try apply mirrored_set; try apply mirrored_clear; try apply mirrored_constructor.
  - destruct (auth_call_state base "/auth/register" body server a) as [->|(t & _ & ->)]; [exact IH | apply mirrored_set].
  - destruct (auth_call_state base "/auth/login" body server a) as [->|(t & _ & ->)]; [exact IH | apply mirrored_set].
  - destruct (logout_state base server a) as [->| ->]; [exact IH | apply mirrored_clear].
  - exact IH.
  - unfold connectWebSocket. destruct (socket a); exact IH.
  - unfold script_onload. destruct (pending a); exact IH.
  - unfold disconnectWebSocket. destruct (socket a); exact IH.
Qed.

(** C37. In every reachable state of the service the storage follows
    [this.token]: when nothing is stored under [authToken] the token is
    [null], and when a string is stored it is [String(this.token)].
    The converse of the first half fails: [setAuthToken(null)] stores
    the string ['null'] while the token is [null] (C12). *)
Theorem api_reachable_mirrored (base : string) (a : ApiState) :
  api_reachable base a ->
  (stored a = None -> token a = JNull) /\ (forall s, stored a = Some s -> s = js_to_string (token a)).
Proof.
  intros Hr. pose proof (reachable_mirrored base a Hr) as Hm. unfold mirrored in Hm.
  split; [intros Hs | intros s Hs]; rewrite Hs in Hm; congruence.
Qed.

Lemma api_reachable_mirrored_witness :
  let a := api_run "/api" (constructor None) [Login "{}" (fun _ => Reply true (Some login_reply)); SetToken JNull] in
  api_reachable "/api" a /\
  ((stored a = None -> token a = JNull) /\ (forall s, stored a = Some s -> s = js_to_string (token a))) /\
  stored a = Some "null" /\ token a = JNull.
Proof.
  intros a. assert (H : api_reachable "/api" a) by (apply api_run_reachable, ar_init).
  split; [exact H|]. split; [exact (api_reachable_mirrored _ _ H)|]. split; reflexivity.
Defined.

(** A reload keeps every request the same when the token is a
    string, as the server's tokens are: the token read back from the
    storage is the token that was set. *)
Theorem reload_keeps_request (base endpoint : string) (o : Options) (a : ApiState) (s : string) :
  api_reachable base a -> token a = JString s ->
  build_request base (token (reload a)) endpoint o = build_request base (token a) endpoint o.
Proof.
  intros Hr Ht. pose proof (reachable_mirrored base a Hr) as Hm. unfold mirrored in Hm.
  unfold reload, constructor. cbn [token]. rewrite Ht in *.
  destruct (stored a) as [s'|]; [|discriminate]. cbn in Hm. subst s'. reflexivity.
Qed.

(** [setAuthToken(null)] stores the string ['null']: after a reload the
    token is that string, and the requests carry [Bearer null]. *)
Lemma set_null_token_reload (base : string) (st : option string) :
  let a := api_run base (constructor st) [SetToken JNull; Reload] in
  obj_get (r_headers (build_request base (token a) "/users/me" (mkOptions None None None))) "Authorization" =
  Some "Bearer null".
Proof. reflexivity. Qed.

(** ** The WebSocket *)

(** The socket invariant of the states where [connectWebSocket] is not
    called twice while loading. *)
Lemma seq_reachable_socket_ok (base : string) (a : ApiState) : seq_reachable base a -> one_socket a.
Proof.
  intros Hr.
  induction Hr as [st|a e _ [Ho Hp] Hc]; [split; [reflexivity | left; reflexivity]|].
  destruct e; cbn [api_step]; unfold register, login, one_socket.
  - split; assumption.
  - split; assumption.
  - destruct (auth_call_state base "/auth/register" body server a) as [->|(t & _ & ->)]; split; assumption.
  - destruct (auth_call_state base "/auth/login" body server a) as [->|(t & _ & ->)]; split; assumption.
  - destruct (logout_state base server a) as [->| ->]; split; assumption.
  - split; assumption.
  - specialize (Hc eq_refl). unfold connectWebSocket.
    destruct (socket a) as [n|] eqn:Es; cbn; rewrite ?Es in *; [split; assumption|].
    split; [exact Ho | right; split; [lia | reflexivity]].
  - unfold script_onload. destruct (pending a) as [|k] eqn:E; [split; [exact Ho | left; exact E]|].
    destruct Hp as [?|[Hk Hs]]; [lia|]. rewrite Hs in Ho. cbn. rewrite Ho. split; [reflexivity | left; lia].
  - unfold disconnectWebSocket. destruct (socket a) as [n|] eqn:Es; [|rewrite Es; split; [exact Ho | exact Hp]].
    cbn. split; [apply filter_single_socket, Ho|].
    destruct Hp as [H|[H _]]; [left | right]; auto.
  - split; [reflexivity | left; reflexivity].
Qed.

(** C39. As long as [connectWebSocket] is not called again while the
    Socket.IO script is loading, at most one socket is open, and it is
    [this.socket]: [disconnectWebSocket] closes every connection. *)
Theorem seq_reachable_one_socket (base : string) (a : ApiState) :
  seq_reachable base a -> map fst (open_sockets a) = match socket a with Some n => [n] | None => [] end.
Proof. intros Hr. apply (seq_reachable_socket_ok base a Hr). Qed.

Lemma seq_reachable_one_socket_witness :
  let a := api_step "/api" ScriptLoad (api_step "/api" Connect (constructor None)) in
  seq_reachable "/api" a /\ map fst (open_sockets a) = match socket a with Some n => [n] | None => [] end.
Proof.
  intros a. assert (H : seq_reachable "/api" a).
  { apply sr_step; [apply sr_step; [apply sr_init | intros _; reflexivity] | discriminate]. }
  split; [exact H | exact (seq_reachable_one_socket _ _ H)].
Defined.

(** Two calls of [connectWebSocket] before the script has loaded
    append two scripts.  Each [onload] opens a socket, and the first is
    no longer referenced by [this.socket], so after
    [disconnectWebSocket] one connection is still open. *)
Theorem websocket_double_connect_leak (base : string) (st : option string) :
  let a := api_run base (constructor st) [Connect; Connect; ScriptLoad; ScriptLoad; Disconnect] in
  api_reachable base a /\ socket a = None /\ length (open_sockets a) = 1%nat.
Proof. intros a. split; [apply api_run_reachable, ar_init | split; reflexivity]. Qed.

(** Every message the service emits goes to a connection that is open,
    in the states of [seq_reachable]. *)
Lemma emit_open (base : string) (a : ApiState) (m : SocketMessage) (n : nat) (m' : SocketMessage) :
  seq_reachable base a -> emit a m = Some (n, m') -> In n (map fst (open_sockets a)).
Proof.
  intros Hr. unfold emit. destruct (seq_reachable_socket_ok base a Hr) as [Ho _].
  destruct (socket a) as [k|]; [|discriminate]. intros [= <- _]. rewrite Ho. left. reflexivity.
Qed.

(** Between [connectWebSocket] and the script's [onload], a queue update
    is dropped without a trace; after the load it goes on the new
    socket. *)
Lemma emit_before_load (data : Json) (st : option string) :
  let a := api_step "/api" Connect (constructor st) in
  emitQueueUpdate data a = None /\
  emitQueueUpdate data (api_step "/api" ScriptLoad a) = Some (0%nat, QueueUpdate data).
Proof. split; reflexivity. Qed.

(** Without [API_URL], or with it empty, every request goes to the
    local server: its URL is [http://localhost:3001/api] followed by the
    endpoint; a non-empty [API_URL] replaces that base. *)
Lemma request_url_base (api_url : option string) (tok : Json) (endpoint : string) (o : Options) :
  r_url (build_request (API_BASE_URL_of api_url) tok endpoint o) =
  match api_url with
  | Some u => if String.eqb u "" then "http://localhost:3001/api" else u
  | None => "http://localhost:3001/api"
  end ++ endpoint.
Proof. destruct api_url as [[|c u]|]; reflexivity. Qed.

End Api.
