(* ===== verification/Theme.v ===== *)
(** * Theme: the light and dark themes of [CNGFlowApp]

    [initTheme] ([src/public/app.js], lines 52-74) sets the [data-theme]
    attribute of the document from [localStorage.theme], or from the
    system preference when no theme is stored, and registers a listener
    for changes of that preference.  [updateThemeIcon] (76-81) writes a
    sun or a moon into [.theme-icon] when that element exists.  The
    [#theme-toggle] listener of [bindEvents] (685-692) flips the
    attribute and stores the new theme.  The model:
    - [ThemeDom]: the attribute ([None] before it is set) and the icon
      ([None] when the markup has no [.theme-icon]);
    - the key [theme] of the [Storage] record of [Store];
    - [TEvent]: a reload (the page's markup again, then [initTheme]), a
      click on the toggle, a change of the system preference;
      [theme_reach] is the closure from the first load.
    The markup is not in the repository: it is an argument.  The last
    section relates the theme to the page's handlers: both write the same
    [localStorage], on disjoint keys. *)

From stdpp Require Import base strings.
From Stdlib Require Import String.
From S2P Require Import Prelude Clock JsString Station SmartQueue Store Loaders Handlers Invariants.
Import Loaders Handlers.

Local Open Scope string_scope.

Module Theme.

(** The text of [.theme-icon]: ['☀️'], ['🌙'], or what the markup had. *)
Inductive ThemeIcon : Type := Sun | Moon | MarkupIcon.

Record ThemeDom : Type := mkThemeDom {
  data_theme : option string;
  theme_icon : option ThemeIcon
}.

(** [updateThemeIcon(theme)]. *)
Definition updateThemeIcon (theme : string) (d : ThemeDom) : ThemeDom :=
  match theme_icon d with
  | None => d
  | Some _ => mkThemeDom (data_theme d) (Some (if String.eqb theme "dark" then Sun else Moon))
  end.

(** [document.documentElement.setAttribute('data-theme', t)]. *)
Definition set_data_theme (t : string) (d : ThemeDom) : ThemeDom := mkThemeDom (Some t) (theme_icon d).

(** [localStorage.getItem('theme')] is truthy. *)
Definition theme_set (st : Storage) : bool :=
  match st_theme st with Some t => truthy t | None => false end.

(** Setting a theme: the attribute, then the icon. *)
Definition apply_theme (t : string) (d : ThemeDom) : ThemeDom := updateThemeIcon t (set_data_theme t d).

(** [initTheme()], with [prefersDark] the value of
    [matchMedia('(prefers-color-scheme: dark)').matches]. *)
Definition initTheme (prefersDark : bool) (st : Storage) (d : ThemeDom) : ThemeDom :=
  let savedTheme := str_or (st_theme st) "light" in
  if negb (theme_set st) then apply_theme (if prefersDark then "dark" else "light") d
  else apply_theme savedTheme d.

(** The [change] listener registered by [initTheme]. *)
Definition systemChange (matches : bool) (st : Storage) (d : ThemeDom) : ThemeDom :=
  if negb (theme_set st) then apply_theme (if matches then "dark" else "light") d else d.

(** The [#theme-toggle] click listener. *)
Definition themeToggle (st : Storage) (d : ThemeDom) : Storage * ThemeDom :=
  let newTheme := if decide (data_theme d = Some "dark") then "light" else "dark" in
  (store_theme st newTheme, apply_theme newTheme d).

(** ** Events *)

Record ThemeState : Type := mkThemeState {
  t_storage : Storage;
  t_dom : ThemeDom
}.

Inductive TEvent : Type :=
| TReload (prefersDark : bool)
| TToggle
| TSystemChange (matches : bool).

(** One event; [markup] is the page's initial DOM, which a reload
    brings back before [initTheme] runs. *)
Definition theme_step (markup : ThemeDom) (e : TEvent) (s : ThemeState) : ThemeState :=
  match e with
  | TReload pd => mkThemeState (t_storage s) (initTheme pd (t_storage s) markup)
  | TToggle => let '(st', d') := themeToggle (t_storage s) (t_dom s) in mkThemeState st' d'
  | TSystemChange m => mkThemeState (t_storage s) (systemChange m (t_storage s) (t_dom s))
  end.

Inductive theme_reach (markup : ThemeDom) (st0 : Storage) : ThemeState -> Prop :=
| th_init (pd : bool) : theme_reach markup st0 (mkThemeState st0 (initTheme pd st0 markup))
| th_step (s : ThemeState) (e : TEvent) :
    theme_reach markup st0 s -> theme_reach markup st0 (theme_step markup e s).

(** The icon [updateThemeIcon(t)] writes. *)
Definition icon_of (t : string) : ThemeIcon := if String.eqb t "dark" then Sun else Moon.

(** The invariant: a theme [t] is shown, the icon (when the markup has
    one) is the icon of [t], and a stored theme is [t]. *)
Definition theme_ok (markup : ThemeDom) (s : ThemeState) : Prop :=
  exists t, data_theme (t_dom s) = Some t /\
            theme_icon (t_dom s) = option_map (fun _ => icon_of t) (theme_icon markup) /\
            (theme_set (t_storage s) = true -> st_theme (t_storage s) = Some t).

(** ** Lemmas *)

Lemma apply_theme_eq (t : string) (d : ThemeDom) :
  apply_theme t d = mkThemeDom (Some t) (option_map (fun _ => icon_of t) (theme_icon d)).
Proof. unfold apply_theme, updateThemeIcon, set_data_theme, icon_of. simpl. destruct (theme_icon d); reflexivity. Qed.

Lemma str_or_set (st : Storage) (d : string) :
  theme_set st = true -> Some (str_or (st_theme st) d) = st_theme st.
Proof. unfold theme_set, str_or. destruct (st_theme st) as [t|]; [|discriminate]. intros ->. reflexivity. Qed.

Lemma store_theme_set (st : Storage) (t : string) : truthy t = true -> theme_set (store_theme st t) = true.
Proof. intros H. exact H. Qed.

(** What [initTheme] shows: the stored theme, or the system's. *)
Lemma initTheme_eq (pd : bool) (st : Storage) (d : ThemeDom) :
  initTheme pd st d =
    apply_theme (if theme_set st then str_or (st_theme st) "light" else if pd then "dark" else "light") d.
Proof. unfold initTheme. destruct (theme_set st); reflexivity. Qed.

Lemma initTheme_ok (markup : ThemeDom) (pd : bool) (st : Storage) :
  theme_ok markup (mkThemeState st (initTheme pd st markup)).
Proof.
  rewrite initTheme_eq, apply_theme_eq. eexists. split; [reflexivity|]. split; [reflexivity|].
  cbn [t_storage]. intros H. rewrite H. symmetry. apply str_or_set, H.
Qed.

Lemma theme_step_ok (markup : ThemeDom) (e : TEvent) (s : ThemeState) :
  theme_ok markup s -> theme_ok markup (theme_step markup e s).
Proof.
  destruct s as [st d]. intros (t & Hd & Hi & Hm). destruct e as [pd| |m]; cbn [theme_step t_storage t_dom].
  - apply initTheme_ok.
  - unfold themeToggle. rewrite apply_theme_eq. cbn [t_dom] in Hd, Hi.
    eexists. split; [reflexivity|]. split; [rewrite Hi; destruct (theme_icon markup); reflexivity|].
    intros _. reflexivity.
  - unfold systemChange. destruct (theme_set st) eqn:Hs; cbn [negb].
    + exists t. auto.
    + rewrite apply_theme_eq. cbn [t_dom] in Hi. eexists. split; [reflexivity|].
      split; [rewrite Hi; destruct (theme_icon markup); reflexivity | intros H; cbn in H; congruence].
Qed.

Lemma theme_reach_ok (markup : ThemeDom) (st0 : Storage) (s : ThemeState) :
  theme_reach markup st0 s -> theme_ok markup s.
Proof. induction 1; [apply initTheme_ok | apply theme_step_ok; assumption]. Qed.

(** The comment of [initTheme] says the default is the light mode; with
    no stored theme, the system's preference decides. *)
Lemma initTheme_unset (pd : bool) (st : Storage) (d : ThemeDom) :
  theme_set st = false -> data_theme (initTheme pd st d) = Some (if pd then "dark" else "light").
Proof. intros H. rewrite initTheme_eq, H, apply_theme_eq. reflexivity. Qed.

(** A click on the toggle always stores a theme. *)
Lemma themeToggle_set (st : Storage) (d : ThemeDom) : theme_set (fst (themeToggle st d)) = true.
Proof. unfold themeToggle. cbn [fst]. apply store_theme_set. case_decide; reflexivity. Qed.

(** C40. Once a theme is stored (after any click on the toggle), a
    reload shows the same theme with the same icon, whatever the system
    preference is then: the attribute and the icon round-trip through
    [localStorage]. *)
Theorem theme_reload_roundtrip (markup : ThemeDom) (st0 : Storage) (s : ThemeState) (pd : bool) :
  theme_reach markup st0 s -> theme_set (t_storage s) = true ->
  t_dom (theme_step markup (TReload pd) s) = t_dom s.
Proof.
  intros Hr Hs. destruct (theme_reach_ok markup st0 s Hr) as (t & Hd & Hi & Hm).
  cbn [theme_step t_dom]. rewrite initTheme_eq, Hs, apply_theme_eq.
  assert (Ht : str_or (st_theme (t_storage s)) "light" = t).
  { pose proof (str_or_set (t_storage s) "light" Hs) as Ho. rewrite (Hm Hs) in Ho |- *. congruence. }
  rewrite Ht.
  destruct (t_dom s) as [dt ic]. cbn in Hd, Hi |- *. rewrite Hd, Hi. reflexivity.
Qed.

(** A page whose markup has an icon, no stored theme, a light system
    theme, then one click on the toggle. *)
Definition markup_demo : ThemeDom := mkThemeDom None (Some MarkupIcon).
Definition fresh_storage : Storage := mkStorage None None None None.
Definition toggled_demo : ThemeState :=
  theme_step markup_demo TToggle (mkThemeState fresh_storage (initTheme false fresh_storage markup_demo)).

Lemma theme_reload_roundtrip_witness :
  theme_reach markup_demo fresh_storage toggled_demo /\ theme_set (t_storage toggled_demo) = true /\
  t_dom (theme_step markup_demo (TReload false) toggled_demo) = t_dom toggled_demo /\
  t_dom toggled_demo = mkThemeDom (Some "dark") (Some Sun).
Proof.
  assert (Hr : theme_reach markup_demo fresh_storage toggled_demo) by (apply th_step, th_init).
  split; [exact Hr|]. split; [reflexivity|]. split; [|reflexivity].
  apply (theme_reload_roundtrip markup_demo fresh_storage toggled_demo false Hr). reflexivity.
Defined.

(** ** Sharing [localStorage] with the page *)

(** The keys of [localStorage] the page's handlers do not own. *)
Definition page_keys (st : Storage) : option string * option string := (st_theme st, st_isPremium st).

(** The keys the theme toggle does not own. *)
Definition theme_keys (st : Storage) : option (list string) * option Z * option string :=
  (st_favorites st, st_userPoints st, st_isPremium st).

Lemma submitQueueUpdate_page_keys (now : Instant) (b : option Z) (pop : bool) (s : App) :
  page_keys (storage (outcome_state (Handlers.submitQueueUpdate now b pop s))) = page_keys (storage s).
Proof. unfold Handlers.submitQueueUpdate. repeat case_match; reflexivity. Qed.

Lemma showPumpDetails_storage (now : Instant) (arg : Handlers.PumpArg) (s : App) :
  storage (Handlers.showPumpDetails now arg s) = storage s.
Proof. pose proof (Invariants.showPumpDetails_prefs now arg s) as E. unfold Invariants.prefs in E. congruence. Qed.

Lemma toggleFavorite_page_keys (now : Instant) (t : option positive) (s : App) :
  page_keys (storage (outcome_state (Handlers.toggleFavorite now t s))) = page_keys (storage s).
Proof.
  unfold Handlers.toggleFavorite. repeat case_match; simplify_eq; try reflexivity.
  all: cbn [outcome_state]; rewrite showPumpDetails_storage; reflexivity.
Qed.

(** The page and the theme share [localStorage] without
    interfering: no sequence of the page's events changes the [theme]
    or [isPremium] keys, and a click on the theme toggle changes neither
    the favourites, nor the points, nor [isPremium].  So the mirroring
    of the favourites and points (C18) and the theme round trip (C40)
    hold together on the same storage. *)
Theorem storage_keys_disjoint :
  (forall (cd : Q -> Q -> Q -> Q -> Q) (st : Storage) (s : App),
     Invariants.reachable cd st s -> page_keys (storage s) = page_keys st) /\
  (forall (st : Storage) (d : ThemeDom), theme_keys (fst (themeToggle st d)) = theme_keys st).
Proof.
  split; [|reflexivity].
  intros cd st s Hr. apply (Invariants.reachable_ind_frame cd (fun s => page_keys (storage s) = page_keys st) st);
    [reflexivity | | | | exact Hr].
  - intros s1 s2 Hp H. unfold Invariants.prefs in Hp. injection Hp as _ _ E. rewrite E. exact H.
  - intros now b pop s1 H. rewrite submitQueueUpdate_page_keys. exact H.
  - intros now t s1 H. rewrite toggleFavorite_page_keys. exact H.
Qed.

Lemma storage_keys_disjoint_witness :
  Invariants.reachable zero_distance empty_storage sample_demo /\
  page_keys (storage sample_demo) = page_keys empty_storage /\
  theme_keys (fst (themeToggle (storage sample_demo) markup_demo)) = theme_keys (storage sample_demo).
Proof.
  assert (Hr : Invariants.reachable zero_distance empty_storage sample_demo) by exact Invariants.sample_demo_reachable.
  split; [exact Hr|]. split.
  - exact (proj1 storage_keys_disjoint zero_distance empty_storage sample_demo Hr).
  - exact (proj2 storage_keys_disjoint (storage sample_demo) markup_demo).
Defined.

End Theme.
