(* ===== verification/Tracker.v ===== *)
(** * Tracker: the [CNGTrackerApp] variant ([src/src/app.js])

    The simpler variant of the page.  It keeps the same fields as
    [CNGFlowApp] (the state [App] of [Store], built by the same
    constructor, lines 3-13), but has no prediction:
    - [init] (lines 15-21) runs to completion in the constructor: five
      sample pumps ([loadSampleData], 23-97), then [initMap] draws a
      marker for each ([addPumpMarkers], 112-124);
    - [showPumpDetails] (328-361) and [showUpdateModal] (385-395) set
      [this.selectedPump] and then read [pump.name], so an unknown id
      leaves [undefined] selected and throws;
    - [submitQueueUpdate] (397-431) writes the reading, sets the marker's
      icon and awards ten points; [toggleFavorite] (438-454) is the same
      code as in [CNGFlowApp], with [isPremium] and the removal of
      [Handlers];
    - the geolocation callback of [requestUserLocation] (460-476) with
      [updateDistances] (500-515); [centerOnUserLocation] (491-498);
      [handleNavigation] (555-578) with [showFavorites],
      [showNearestPumpForUpdate], [showHistory], [showProfile].
    The markers' icons and popups are kept in the layer of [Store];
    [TrackerView] renders them and the list.
    The events of [bindEvents] (173-246) and of the markers and popups
    are [TEvent]; a marker click passes the pump object the marker was
    made for, an element of [this.pumps].  Theorems: every pump keeps
    its marker, so an update never throws (C15); [Variants] relates
    these handlers to those of [CNGFlowApp] (C13, C20). *)

From stdpp Require Import base gmap strings list.
From Stdlib Require Import String.
From S2P Require Import Prelude Clock JsString Station SmartQueue Store Loaders Handlers.

Local Open Scope string_scope.
Import SmartQueue Loaders Handlers.

Module Tracker.

(** ** The sample data of [loadSampleData] *)

(** [pump_001]: [Indian Oil - Sector 18]. *)
Definition tracker_pump_001 (now_ms : Z) : Pump :=
  {| pid := "pump_001"; name := "Indian Oil - Sector 18";
     location := (28.5672, 77.3256); address := "Sector 18, Noida, UP";
     brand := "Indian Oil"; queueStatus := Green; queueLength := Some 3;
     lastUpdated := Some (now_ms - 15 * 60000)%Z; distance := Some 2.5;
     avgQueueByHour := None;
     trafficDensity := None; predictedQueue := None; predictionConfidence := None |}.

(** [pump_002]: [Bharat Petroleum - DLF Phase 2]. *)
Definition tracker_pump_002 (now_ms : Z) : Pump :=
  {| pid := "pump_002"; name := "Bharat Petroleum - DLF Phase 2";
     location := (28.4912, 77.0895); address := "DLF Phase 2, Gurgaon, Haryana";
     brand := "Bharat Petroleum"; queueStatus := Yellow; queueLength := Some 12;
     lastUpdated := Some (now_ms - 30 * 60000)%Z; distance := Some 5.1;
     avgQueueByHour := None;
     trafficDensity := None; predictedQueue := None; predictionConfidence := None |}.

(** [pump_003]: [IGL Station - Connaught Place]. *)
Definition tracker_pump_003 (now_ms : Z) : Pump :=
  {| pid := "pump_003"; name := "IGL Station - Connaught Place";
     location := (28.6315, 77.2167); address := "Connaught Place, New Delhi";
     brand := "IGL"; queueStatus := Red; queueLength := Some 25;
     lastUpdated := Some (now_ms - 5 * 60000)%Z; distance := Some 8.3;
     avgQueueByHour := None;
     trafficDensity := None; predictedQueue := None; predictionConfidence := None |}.

(** [pump_004]: [Indian Oil - Dwarka]. *)
Definition tracker_pump_004 (now_ms : Z) : Pump :=
  {| pid := "pump_004"; name := "Indian Oil - Dwarka";
     location := (28.5921, 77.0460); address := "Sector 6, Dwarka, New Delhi";
     brand := "Indian Oil"; queueStatus := Green; queueLength := Some 0;
     lastUpdated := Some (now_ms - 45 * 60000)%Z; distance := Some 12.7;
     avgQueueByHour := None;
     trafficDensity := None; predictedQueue := None; predictionConfidence := None |}.

(** [pump_005]: [Shell - Greater Noida]. *)
Definition tracker_pump_005 (now_ms : Z) : Pump :=
  {| pid := "pump_005"; name := "Shell - Greater Noida";
     location := (28.4744, 77.5040); address := "Knowledge Park, Greater Noida";
     brand := "Shell"; queueStatus := Gray; queueLength := None;
     lastUpdated := Some (now_ms - 120 * 60000)%Z; distance := Some 15.2;
     avgQueueByHour := None;
     trafficDensity := None; predictedQueue := None; predictionConfidence := None |}.

Definition sample_pumps (now_ms : Z) : list Pump :=
  [tracker_pump_001 now_ms; tracker_pump_002 now_ms; tracker_pump_003 now_ms;
   tracker_pump_004 now_ms; tracker_pump_005 now_ms].

(** [loadSampleData()]: [this.pumps = [ ... ]]. *)
Definition loadSampleData (now_ms : Z) (s : App) : App :=
  let '(rs, s1) := alloc_all s (sample_pumps now_ms) in set_pumps s1 rs.

(** One pump of [addPumpMarkers]: the icon of its status, the popup
    rendered from it at [now], and [this.markers[pump.id] = marker]. *)
Definition add_marker (now : Instant) (s : App) (r : positive) : App :=
  match heap s !! r with
  | Some p => set_markers (set_popup (set_icon s (pid p) now p) (pid p) now p) ({[pid p]} ∪ markers s)
  | None => s
  end.

Definition addPumpMarkers (now : Instant) (s : App) : App := fold_left (add_marker now) (pumps s) s.

(** [init()]: [requestUserLocation] only registers callbacks (the event
    [TLocationFound]) and [updateUI] only renders. *)
Definition init (now : Instant) (s : App) : App := addPumpMarkers now (loadSampleData (epoch_ms now) s).

(** ** Handlers *)

(** [showPumpDetails(pump)]: [this.selectedPump = pump], then
    [pump.name] throws on [undefined]. *)
Definition showPumpDetails (arg : PumpArg) (s : App) : Outcome :=
  let target :=
    match arg with
    | ById id => find_ref (heap s) (pumps s) id
    | ByRef r => if bool_decide (is_Some (heap s !! r)) then Some r else None
    | NoPump => None
    end in
  let s1 := set_selected s target in
  match target with
  | None => Threw "TypeError: Cannot read properties of undefined (reading 'name')" s1
  | Some _ => Done s1
  end.

(** [showUpdateModal(pump)]. *)
Definition showUpdateModal (target : option positive) (s : App) : Outcome :=
  let s1 := set_selected s target in
  match target with
  | None => Threw "TypeError: Cannot read properties of undefined (reading 'name')" s1
  | Some _ => Done s1
  end.

(** The three writes of [submitQueueUpdate]: no traffic density here. *)
Definition set_report (p : Pump) (q : Q) (t : Z) : Pump :=
  {| pid := pid p; name := name p; location := location p; address := address p;
     brand := brand p; queueStatus := statusOfQueue q; queueLength := Some q;
     lastUpdated := Some t; distance := distance p; avgQueueByHour := avgQueueByHour p;
     trafficDensity := trafficDensity p; predictedQueue := predictedQueue p;
     predictionConfidence := predictionConfidence p |}.

(** [submitQueueUpdate()] with the chosen button's [data-queue]. *)
Definition submitQueueUpdate (now : Instant) (selectedBtn : option Z) (s : App) : Outcome :=
  match selectedBtn with
  | None => Done (showNotification s "Please select queue length" NWarning)
  | Some n =>
      let queueLength := inject_Z n in
      match selectedPump s with
      | None => Threw "TypeError: Cannot read properties of null (reading 'id')" s
      | Some sel =>
          match heap s !! sel with
          | None => Threw "TypeError: Cannot read properties of undefined (reading 'id')" s
          | Some selp =>
              match find_ref (heap s) (pumps s) (pid selp) with
              | None => Threw "TypeError: Cannot set properties of undefined (setting 'queueLength')" s
              | Some r =>
                  match heap s !! r with
                  | None => Threw "TypeError: Cannot set properties of undefined (setting 'queueLength')" s
                  | Some p =>
                      let s1 := write s r (set_report p queueLength (epoch_ms now)) in
                      if bool_decide (pid p ∈ markers s1) then
                        let s2 := set_icon s1 (pid p) now (set_report p queueLength (epoch_ms now)) in
                        let s3 := set_points s2 (userPoints s2 + 10) in
                        let s4 := set_storage s3 (store_points (storage s3) (userPoints s3)) in
                        Done (showNotification s4 "Queue updated successfully! +10 points" NSuccess)
                      else Threw "TypeError: Cannot read properties of undefined (reading 'setIcon')" s1
                  end
              end
          end
      end
  end.

(** [toggleFavorite(pump)]. *)
Definition toggleFavorite (target : option positive) (s : App) : Outcome :=
  match target with
  | None => Threw "TypeError: Cannot read properties of null (reading 'id')" s
  | Some r =>
      match heap s !! r with
      | None => Threw "TypeError: Cannot read properties of undefined (reading 'id')" s
      | Some p =>
          let id := pid p in
          let s1 :=
            if bool_decide (id ∈ favorites s) then
              Some (showNotification (set_favorites s (remove_first id (favorites s)))
                      "Removed from favorites" NSuccess)
            else if (3 <=? length (favorites s))%nat && negb (isPremium s) then None
            else Some (showNotification (set_favorites s (app (favorites s) [id]))
                         "Added to favorites" NSuccess) in
          match s1 with
          | None => Done (showNotification s "Upgrade to Premium for unlimited favorites" NWarning)
          | Some s1 =>
              let s2 := set_storage s1 (store_favorites (storage s1) (favorites s1)) in
              showPumpDetails (ByRef r) s2
          end
      end
  end.

Section WithDistance.

(** [calculateDistance] (lines 517-526): the haversine formula. *)
Variable calculateDistance : Q -> Q -> Q -> Q -> Q.

Definition update_distance (loc : Q * Q) (s : App) (r : positive) : App :=
  match heap s !! r with
  | Some p => write s r (set_distance p (calculateDistance loc.1 loc.2 (location p).1 (location p).2))
  | None => s
  end.

(** [updateDistances()]: new distances, no sort, no new icon. *)
Definition updateDistances (s : App) : App :=
  match userLocation s with
  | None => s
  | Some loc => fold_left (update_distance loc) (pumps s) s
  end.

(** The success callback of [requestUserLocation]. *)
Definition locationFound (loc : Q * Q) (s : App) : App :=
  updateDistances (set_location s (Some loc)).

End WithDistance.

(** [centerOnUserLocation()]: without a location it warns and asks
    again (the callbacks are the event [TLocationFound]). *)
Definition centerOnUserLocation (s : App) : App :=
  match userLocation s with
  | Some _ => s
  | None => showNotification s "Location access required" NWarning
  end.

(** [showNearestPumpForUpdate()]: sorts [this.pumps] in place. *)
Definition showNearestPumpForUpdate (s : App) : Outcome :=
  let s1 := set_pumps s (sort_by (distance_key s) (pumps s)) in
  showUpdateModal (head (pumps s1)) s1.

(** [showFavorites()]: a notification when no pump is a favourite;
    otherwise the list is rendered. *)
Definition showFavorites (s : App) : App :=
  if existsb (fun p => bool_decide (pid p ∈ favorites s)) (pump_objects s) then s
  else showNotification s "No favorites yet. Add some pumps!" NInfo.

(** [showHistory()]. *)
Definition showHistory (s : App) : App := showNotification s "History feature coming soon!" NInfo.

(** [showProfile()]. *)
Definition showProfile (s : App) : App :=
  showNotification s ("You have " ++ string_of_Z (userPoints s) ++ " points!") NSuccess.

(** [handleNavigation(page)]. *)
Definition handleNavigation (page : string) (s : App) : Outcome :=
  if String.eqb page "favorites" then Done (showFavorites s)
  else if String.eqb page "update" then showNearestPumpForUpdate s
  else if String.eqb page "history" then Done (showHistory s)
  else if String.eqb page "profile" then Done (showProfile s)
  else Done s.

(** ** Events *)

Inductive TEvent : Type :=
| TLocationFound (loc : Q * Q)
| TLocateMe
| TMarkerClick (r : positive)
| TShowById (id : string)
| TOpenUpdateModal
| TSubmitUpdate (selectedBtn : option Z)
| TFavoriteButton
| TNavigate (page : string).

(** One event run to completion.  A marker exists only for an object of
    [this.pumps]; a click on anything else does not happen. *)
Definition tstep (calculateDistance : Q -> Q -> Q -> Q -> Q) (now : Instant) (e : TEvent) (s : App) : Outcome :=
  match e with
  | TLocationFound loc => Done (locationFound calculateDistance loc s)
  | TLocateMe => Done (centerOnUserLocation s)
  | TMarkerClick r => if bool_decide (r ∈ pumps s) then showPumpDetails (ByRef r) s else Done s
  | TShowById id => showPumpDetails (ById id) s
  | TOpenUpdateModal => showUpdateModal (selectedPump s) s
  | TSubmitUpdate b => submitQueueUpdate now b s
  | TFavoriteButton => toggleFavorite (selectedPump s) s
  | TNavigate page => handleNavigation page s
  end.

Inductive treachable (calculateDistance : Q -> Q -> Q -> Q -> Q) (st : Storage) : App -> Prop :=
| tr_init (now : Instant) : treachable calculateDistance st (init now (constructor st))
| tr_step (s : App) (now : Instant) (e : TEvent) :
    treachable calculateDistance st s ->
    treachable calculateDistance st (outcome_state (tstep calculateDistance now e s)).

(** ** The invariant: every pump has its marker *)

Definition markers_ok (s : App) : Prop :=
  forall r p, r ∈ pumps s -> heap s !! r = Some p -> pid p ∈ markers s.

Definition sel_ok (s : App) : Prop := forall r, selectedPump s = Some r -> r ∈ pumps s.

Definition tinv (s : App) : Prop := wf s /\ markers_ok s /\ sel_ok s.

(** The handlers that do not touch the objects, the array or the
    selection keep the invariant. *)
Lemma tinv_frame (s s' : App) :
  heap s' = heap s -> pumps s' = pumps s -> selectedPump s' = selectedPump s ->
  next_ref s' = next_ref s -> markers s ⊆ markers s' -> tinv s -> tinv s'.
Proof.
  intros Hh Hp Hs Hn Hm (Hw & Hk & Hsel). unfold tinv, markers_ok, sel_ok, wf in *.
  rewrite Hh, Hp, Hs, Hn. split; [exact Hw|]. split; [|exact Hsel].
  intros r p Hr Hl. apply Hm, (Hk r p Hr Hl).
Qed.

Lemma tinv_notify (s : App) (m : string) (t : NoticeType) : tinv s -> tinv (showNotification s m t).
Proof. apply tinv_frame; reflexivity. Qed.

(** Writing an object with the same id back keeps the invariant. *)
Lemma tinv_write (s : App) (r : positive) (p p' : Pump) :
  heap s !! r = Some p -> pid p' = pid p -> tinv s -> tinv (write s r p').
Proof.
  intros Hr Hid (Hw & Hk & Hsel). split; [apply write_wf; [exact Hw | rewrite Hr; eauto]|].
  split; [|exact Hsel].
  intros r1 p1 Hr1 Hl. change (heap (write s r p')) with (<[r := p']> (heap s)) in Hl.
  destruct (decide (r1 = r)) as [->|Hne].
  - rewrite lookup_insert_eq in Hl. injection Hl as <-. rewrite Hid. exact (Hk r p Hr1 Hr).
  - rewrite lookup_insert_ne in Hl by congruence. exact (Hk r1 p1 Hr1 Hl).
Qed.

Lemma tinv_select (s : App) (t : option positive) :
  (forall r, t = Some r -> r ∈ pumps s) -> tinv s -> tinv (set_selected s t).
Proof.
  intros Ht (Hw & Hk & Hsel). destruct Hw as (Hp & Hs & Hf).
  split; [split; [exact Hp | split; [|exact Hf]]|split; [exact Hk|]].
  - intros r Hr. apply Hp, Ht, Hr.
  - exact Ht.
Qed.

Lemma addPumpMarkers_fold (now : Instant) (l : list positive) (s : App) :
  let s' := fold_left (add_marker now) l s in
  heap s' = heap s /\ pumps s' = pumps s /\ selectedPump s' = selectedPump s /\
  next_ref s' = next_ref s /\ markers s ⊆ markers s' /\
  (forall r p, r ∈ l -> heap s !! r = Some p -> pid p ∈ markers s').
Proof.
  revert s. induction l as [|r l IH]; intros s; simpl.
  - do 4 (split; [reflexivity|]). split; [set_solver|]. intros r p Hr. inversion Hr.
  - destruct (heap s !! r) as [p0|] eqn:E.
    + set (s1 := set_markers (set_popup (set_icon s (pid p0) now p0) (pid p0) now p0) ({[pid p0]} ∪ markers s)).
      assert (Ea : add_marker now s r = s1) by (unfold add_marker; rewrite E; reflexivity).
      rewrite Ea. destruct (IH s1) as (Hh & Hp & Hs & Hn & Hm & Hl).
      split; [exact Hh|]. split; [exact Hp|]. split; [exact Hs|]. split; [exact Hn|]. split.
      { intros x Hx. apply Hm. cbn. set_solver. }
      intros r' p Hr' Hp'. apply elem_of_cons in Hr' as [->|Hr'].
      * rewrite E in Hp'. injection Hp' as <-. apply Hm. cbn. set_solver.
      * apply (Hl r' p Hr' Hp').
    + assert (Ea : add_marker now s r = s) by (unfold add_marker; rewrite E; reflexivity).
      rewrite Ea. destruct (IH s) as (Hh & Hp & Hs & Hn & Hm & Hl).
      do 5 (split; [assumption|]).
      intros r' p Hr' Hp'. apply elem_of_cons in Hr' as [->|Hr']; [congruence|]. apply (Hl r' p Hr' Hp').
Qed.

Lemma tinv_init (now : Instant) (st : Storage) : tinv (init now (constructor st)).
Proof.
  unfold init, addPumpMarkers, loadSampleData.
  pose proof (pump_objects_set_pumps_alloc (constructor st) (sample_pumps (epoch_ms now)) (constructor_wf st)) as H.
  pose proof (alloc_all_spec (constructor st) (sample_pumps (epoch_ms now)) (constructor_wf st)) as H'.
  destruct (alloc_all (constructor st) (sample_pumps (epoch_ms now))) as [rs s1].
  destruct H as (_ & Hw & _). destruct H' as (_ & _ & _ & _ & _ & Hsel & _).
  destruct (addPumpMarkers_fold now (pumps (set_pumps s1 rs)) (set_pumps s1 rs)) as (Hh & Hp & Hs & Hn & _ & Hl).
  split; [|split].
  - destruct Hw as (W1 & W2 & W3). split; [|split]; rewrite ?Hh, ?Hp, ?Hs, ?Hn; assumption.
  - intros r p. rewrite Hh, Hp. apply Hl.
  - intros r. rewrite Hs. cbn. rewrite Hsel. discriminate.
Qed.

Lemma showPumpDetails_tinv (arg : PumpArg) (s : App) :
  (forall r, arg = ByRef r -> r ∈ pumps s) -> tinv s -> tinv (outcome_state (showPumpDetails arg s)).
Proof.
  intros Harg Hi. unfold showPumpDetails.
  assert (Ht : forall r, match arg with
                         | ById id => find_ref (heap s) (pumps s) id
                         | ByRef r => if bool_decide (is_Some (heap s !! r)) then Some r else None
                         | NoPump => None end = Some r -> r ∈ pumps s).
  { intros r. destruct arg as [id|r0|]; [intros H; apply (find_ref_in _ _ _ _ H) | | discriminate].
    case_bool_decide; [intros [= <-]; apply Harg; reflexivity | discriminate]. }
  destruct (match arg with ById _ => _ | ByRef _ => _ | NoPump => _ end); apply tinv_select; assumption.
Qed.

Lemma showUpdateModal_tinv (t : option positive) (s : App) :
  (forall r, t = Some r -> r ∈ pumps s) -> tinv s -> tinv (outcome_state (showUpdateModal t s)).
Proof. intros Ht Hi. unfold showUpdateModal. destruct t; apply tinv_select; assumption. Qed.

Lemma submitQueueUpdate_tinv (now : Instant) (b : option Z) (s : App) :
  tinv s -> tinv (outcome_state (submitQueueUpdate now b s)).
Proof.
  intros Hi. unfold submitQueueUpdate.
  destruct b as [n|]; [|apply tinv_notify, Hi].
  destruct (selectedPump s) as [sel|]; [|exact Hi].
  destruct (heap s !! sel) as [selp|]; [|exact Hi].
  destruct (find_ref _ _ _) as [r|]; [|exact Hi].
  destruct (heap s !! r) as [p|] eqn:E; [|exact Hi].
  assert (H1 : tinv (write s r (set_report p (inject_Z n) (epoch_ms now)))) by (apply (tinv_write s r p); auto).
  case_bool_decide; [|exact H1].
  apply tinv_notify. apply (tinv_frame (write s r (set_report p (inject_Z n) (epoch_ms now)))); auto.
Qed.

Lemma toggleFavorite_tinv (t : option positive) (s : App) :
  (forall r, t = Some r -> r ∈ pumps s) -> tinv s -> tinv (outcome_state (toggleFavorite t s)).
Proof.
  intros Ht Hi. unfold toggleFavorite. destruct t as [r|]; [|exact Hi].
  destruct (heap s !! r); [|exact Hi].
  repeat case_match; simplify_eq; try apply tinv_notify, Hi;
    (apply showPumpDetails_tinv; [intros r' [= <-]; apply Ht; reflexivity|];
     apply (tinv_frame s); auto).
Qed.

Lemma updateDistances_tinv (cd : Q -> Q -> Q -> Q -> Q) (s : App) :
  tinv s -> tinv (updateDistances cd s).
Proof.
  intros Hi. unfold updateDistances. destruct (userLocation s) as [loc|]; [|exact Hi].
  apply fold_left_preserve; [|exact Hi].
  intros s' r H. unfold update_distance. destruct (heap s' !! r) as [p|] eqn:E; [|exact H].
  apply (tinv_write s' r p); auto.
Qed.

Lemma showNearestPumpForUpdate_tinv (s : App) : tinv s -> tinv (outcome_state (showNearestPumpForUpdate s)).
Proof.
  intros Hi. unfold showNearestPumpForUpdate.
  set (l := sort_by (distance_key s) (pumps s)).
  assert (Hl : forall r, r ∈ l <-> r ∈ pumps s) by (intros r; unfold l; rewrite sort_by_perm; reflexivity).
  assert (H1 : tinv (set_pumps s l)).
  { destruct Hi as ((Hp & Hs & Hf) & Hk & Hsel). split; [split; [|split]|split].
    - intros r Hr. apply Hp, Hl, Hr.
    - exact Hs.
    - exact Hf.
    - intros r p Hr. apply Hk, Hl, Hr.
    - intros r Hr. apply Hl, Hsel, Hr. }
  apply showUpdateModal_tinv; [|exact H1].
  intros r. cbn [pumps set_pumps]. destruct l as [|x l']; [discriminate|]. intros [= ->]. left.
Qed.

Lemma handleNavigation_tinv (page : string) (s : App) :
  tinv s -> tinv (outcome_state (handleNavigation page s)).
Proof.
  intros Hi. unfold handleNavigation, showFavorites.
  destruct (String.eqb page "favorites"); [destruct (existsb _ _); [exact Hi | apply tinv_notify, Hi]|].
  destruct (String.eqb page "update"); [apply showNearestPumpForUpdate_tinv, Hi|].
  repeat case_match; try apply tinv_notify; exact Hi.
Qed.

Lemma tstep_tinv (cd : Q -> Q -> Q -> Q -> Q) (now : Instant) (e : TEvent) (s : App) :
  tinv s -> tinv (outcome_state (tstep cd now e s)).
Proof.
  intros Hi. pose proof Hi as (_ & _ & Hsel). destruct e; cbn [tstep].
  - apply updateDistances_tinv, (tinv_frame s); auto.
  - unfold centerOnUserLocation. destruct (userLocation s); [exact Hi | apply tinv_notify, Hi].
  - case_bool_decide; [apply showPumpDetails_tinv; [intros r' [= <-]; assumption | exact Hi] | exact Hi].
  - apply showPumpDetails_tinv; [discriminate | exact Hi].
  - apply showUpdateModal_tinv; [exact Hsel | exact Hi].
  - apply submitQueueUpdate_tinv, Hi.
  - apply toggleFavorite_tinv; [exact Hsel | exact Hi].
  - apply handleNavigation_tinv, Hi.
Qed.

Lemma treachable_tinv (cd : Q -> Q -> Q -> Q -> Q) (st : Storage) (s : App) :
  treachable cd st s -> tinv s.
Proof. induction 1; [apply tinv_init | apply tstep_tinv; assumption]. Qed.

(** The state a successful update leaves: the pump found by id holds
    the reading, the marker layer is redrawn, the points are ten more
    and stored. *)
Lemma tracker_submit_eq (now : Instant) (n : Z) (s : App) (r r' : positive) (p p' : Pump) :
  selectedPump s = Some r -> heap s !! r = Some p ->
  find_ref (heap s) (pumps s) (pid p) = Some r' -> heap s !! r' = Some p' ->
  pid p' ∈ markers s ->
  exists ic pp, submitQueueUpdate now (Some n) s =
    Done (showNotification
            (set_storage (set_points (set_layer (write s r' (set_report p' (inject_Z n) (epoch_ms now))) ic pp)
                            (userPoints s + 10)%Z)
               (store_points (storage s) (userPoints s + 10)%Z))
            "Queue updated successfully! +10 points" NSuccess).
Proof.
  intros Hs Hp Hf Hp' Hm. unfold submitQueueUpdate. rewrite Hs, Hp, Hf, Hp'.
  rewrite bool_decide_true by exact Hm. cbv zeta. autorewrite with layer. do 2 eexists. reflexivity.
Qed.

(** ** Updates never throw *)

(** C15. In the [CNGTrackerApp] every pump has its marker from [init]
    on, so in every reachable state where a pump is selected,
    [submitQueueUpdate] returns without throwing, whichever button is
    chosen. *)
Theorem tracker_submit_never_throws (cd : Q -> Q -> Q -> Q -> Q) (st : Storage) (s : App)
    (now : Instant) (b : option Z) :
  treachable cd st s -> selectedPump s <> None -> exists s', submitQueueUpdate now b s = Done s'.
Proof.
  intros Hr Hsel. destruct (treachable_tinv _ _ _ Hr) as (Hw & Hk & Hs).
  destruct b as [n|]; [|eexists; reflexivity].
  destruct (selectedPump s) as [r|] eqn:E; [|congruence].
  pose proof (Hs r E) as Hin. destruct (proj1 Hw r Hin) as [selp Hselp].
  destruct (find_ref_complete _ _ _ _ Hin Hselp) as [r' Hf].
  destruct (find_ref_in _ _ _ _ Hf) as (Hin' & p & Hp & _).
  unfold submitQueueUpdate. rewrite E, Hselp, Hf, Hp.
  rewrite bool_decide_true by exact (Hk r' p Hin' Hp). eexists; reflexivity.
Qed.

(** The page after [init] on which the user opened pump_001. *)
Definition tracker_demo : App :=
  outcome_state (tstep zero_distance tuesday_9am (TShowById "pump_001")
                   (init tuesday_9am (constructor empty_storage))).

Lemma tracker_submit_never_throws_witness :
  treachable zero_distance empty_storage tracker_demo /\ selectedPump tracker_demo <> None /\
  exists s', submitQueueUpdate thursday_2pm (Some 5%Z) tracker_demo = Done s'.
Proof.
  assert (Hr : treachable zero_distance empty_storage tracker_demo) by (apply tr_step, tr_init).
  assert (Hs : selectedPump tracker_demo <> None) by (vm_compute; discriminate).
  split; [exact Hr|]. split; [exact Hs|].
  exact (tracker_submit_never_throws _ _ _ thursday_2pm (Some 5%Z) Hr Hs).
Defined.

End Tracker.
