(* ===== verification/Variants.v ===== *)
(** * Variants: the two apps against one specification

    [src/public/app.js] ([CNGFlowApp], modelled by [Handlers]) and
    [src/src/app.js] ([CNGTrackerApp], modelled by [Tracker]) implement
    the same queue report and the same favourites with different code.
    This file states what a queue report promises, as an abstract
    machine over what the user sees, and proves that both handlers
    refine it:
    - [abs] maps a page to its abstract state: for each id, the reading
      (queue, date, status) of the pump [this.pumps.find] gives, the
      ids of the list, the points and the stored points;
    - [abs_update] is the specification of an accepted report;
    - [UpdateHandler] is the interface of a report handler and
      [refines_update] its contract; [cngflow_update] and
      [tracker_update] are the two implementations (C20);
    - [toggleFavorite] of both variants agree on all the user sees of
      it (C13). *)

From stdpp Require Import base gmap strings list.
From Stdlib Require Import String.
From S2P Require Import Prelude Clock JsString Station SmartQueue Store Loaders Handlers Invariants Tracker.

Local Open Scope string_scope.

Module Variants.

(** ** The abstract state *)

Record Reading : Type := mkReading {
  rd_queue : option Q;
  rd_updated : option Z;
  rd_status : QueueStatus
}.

Definition reading (p : Pump) : Reading := mkReading (queueLength p) (lastUpdated p) (queueStatus p).

Record AbsApp : Type := mkAbs {
  a_reading : string -> option Reading;
  a_ids : list string;
  a_points : Z;
  a_stored_points : option Z
}.

Definition abs (s : App) : AbsApp :=
  mkAbs (fun id => match find_ref (heap s) (pumps s) id with
                   | Some r => option_map reading (heap s !! r)
                   | None => None
                   end)
        (pids s) (userPoints s) (st_userPoints (storage s)).

(** Two abstract states are equivalent when they agree on every id. *)
Definition abs_equiv (a b : AbsApp) : Prop :=
  (forall id, a_reading a id = a_reading b id) /\ a_ids a = a_ids b /\
  a_points a = a_points b /\ a_stored_points a = a_stored_points b.

#[export] Instance abs_equiv_equivalence : Equivalence abs_equiv.
Proof.
  split.
  - intros a. unfold abs_equiv. auto.
  - intros a b (H1 & H2 & H3 & H4). split; [intros id; rewrite H1|]; auto.
  - intros a b c (H1 & H2 & H3 & H4) (G1 & G2 & G3 & G4).
    split; [intros id; rewrite H1, G1; reflexivity|]. split; [congruence|]. split; congruence.
Qed.

(** ** The specification of an accepted report *)

(** The report of [q] for [id] at [t]: the reading of [id] is [q], [t]
    and the bucket of [q]; the points grow by ten and are stored. *)
Definition abs_update (id : string) (q : Q) (t : Z) (a : AbsApp) : AbsApp :=
  mkAbs (fun id' => if String.eqb id' id then Some (mkReading (Some q) (Some t) (statusOfQueue q))
                    else a_reading a id')
        (a_ids a) (a_points a + 10)%Z (Some (a_points a + 10)%Z).

(** ** The interface of a report handler *)

Record UpdateHandler : Type := {
  uh_submit : Instant -> Z -> App -> Outcome
}.

(** The contract: when the selected pump's marker exists, the handler
    returns, and its state is the specified one. *)
Definition refines_update (h : UpdateHandler) : Prop :=
  forall (now : Instant) (n : Z) (s : App) (r r' : positive) (p p' : Pump),
    selectedPump s = Some r -> heap s !! r = Some p ->
    find_ref (heap s) (pumps s) (pid p) = Some r' -> heap s !! r' = Some p' ->
    pid p' ∈ markers s ->
    exists s', uh_submit h now n s = Done s' /\
               abs_equiv (abs s') (abs_update (pid p') (inject_Z n) (epoch_ms now) (abs s)).

(** [CNGFlowApp.submitQueueUpdate], with the marker's popup open or
    not. *)
Definition cngflow_update (popupOpen : bool) : UpdateHandler :=
  {| uh_submit := fun now n s => Handlers.submitQueueUpdate now (Some n) popupOpen s |}.

(** [CNGTrackerApp.submitQueueUpdate]. *)
Definition tracker_update : UpdateHandler :=
  {| uh_submit := fun now n s => Tracker.submitQueueUpdate now (Some n) s |}.

(** ** The shape both handlers return *)

(** Writing the reported object over the found one, redrawing the
    marker layer in any way, adding the points and storing them, then
    notifying, is the specified report: the abstraction does not see the
    map. *)
Lemma abs_report (s : App) (r' : positive) (p' p'' : Pump) (q : Q) (t : Z) (msg : string) (ty : NoticeType)
    (ic pp : gmap string (Instant * Pump)) :
  heap s !! r' = Some p' -> find_ref (heap s) (pumps s) (pid p') = Some r' ->
  pid p'' = pid p' -> reading p'' = mkReading (Some q) (Some t) (statusOfQueue q) ->
  abs_equiv
    (abs (showNotification (set_storage (set_points (set_layer (write s r' p'') ic pp) (userPoints s + 10)%Z)
                              (store_points (storage s) (userPoints s + 10)%Z)) msg ty))
    (abs_update (pid p') q t (abs s)).
Proof.
  intros Hp' Hf Hpid Hrd. split; [|split; [|split]]; try reflexivity.
  - intros id. cbn [abs a_reading abs_update heap pumps showNotification set_storage set_points set_layer write set_heap].
    rewrite (find_ref_write _ _ _ p' p'' id Hp' Hpid).
    destruct (String.eqb_spec id (pid p')) as [->|Hne].
    + rewrite Hf, lookup_insert_eq. simpl. rewrite Hrd. reflexivity.
    + destruct (find_ref (heap s) (pumps s) id) as [r0|] eqn:E; [|reflexivity].
      destruct (find_ref_in _ _ _ _ E) as (_ & p0 & Hp0 & Hid).
      rewrite lookup_insert_ne; [reflexivity|]. intros ->. congruence.
  - exact (write_pids s r' p' p'' Hp' Hpid).
Qed.

(** The id the handlers look up is the id of the object they find. *)
Lemma find_ref_pid (s : App) (p : Pump) (r' : positive) (p' : Pump) :
  find_ref (heap s) (pumps s) (pid p) = Some r' -> heap s !! r' = Some p' ->
  find_ref (heap s) (pumps s) (pid p') = Some r'.
Proof.
  intros Hf Hp'. destruct (find_ref_in _ _ _ _ Hf) as (_ & p0 & Hp0 & Hid).
  rewrite Hp' in Hp0. injection Hp0 as <-. rewrite Hid. exact Hf.
Qed.

(** ** The two implementations *)

Lemma tracker_update_refines : refines_update tracker_update.
Proof.
  intros now n s r r' p p' Hs Hp Hf Hp' Hm. cbn [uh_submit tracker_update].
  destruct (Tracker.tracker_submit_eq now n s r r' p p' Hs Hp Hf Hp' Hm) as (ic & pp & ->). eexists; split; [reflexivity|].
  apply abs_report; [exact Hp' | exact (find_ref_pid s p r' p' Hf Hp') | reflexivity | reflexivity].
Qed.

Lemma cngflow_update_refines (pop : bool) : refines_update (cngflow_update pop).
Proof.
  intros now n s r r' p p' Hs Hp Hf Hp' Hm. cbn [uh_submit cngflow_update].
  destruct (Handlers.submitQueueUpdate_marker_eq now n pop s r r' p p' Hs Hp Hf Hp' Hm)
    as (p'' & ic & pp & -> & Hq & Ht & Hst & Hpid).
  eexists; split; [reflexivity|].
  apply abs_report; [exact Hp' | exact (find_ref_pid s p r' p' Hf Hp') | exact Hpid |].
  unfold reading. rewrite Hq, Ht, Hst. reflexivity.
Qed.

(** ** Clients of the interface *)

Section Client.
Context (h1 h2 : UpdateHandler).
Hypothesis (H1 : refines_update h1) (H2 : refines_update h2).

(** Two handlers that keep the contract give the user the same page:
    a client of the report cannot tell them apart. *)
Lemma refines_update_agree (now : Instant) (n : Z) (s : App) (r r' : positive) (p p' : Pump) :
  selectedPump s = Some r -> heap s !! r = Some p ->
  find_ref (heap s) (pumps s) (pid p) = Some r' -> heap s !! r' = Some p' ->
  pid p' ∈ markers s ->
  exists s1 s2, uh_submit h1 now n s = Done s1 /\ uh_submit h2 now n s = Done s2 /\
                abs_equiv (abs s1) (abs s2).
Proof.
  intros Hs Hp Hf Hp' Hm.
  destruct (H1 now n s r r' p p' Hs Hp Hf Hp' Hm) as (s1 & E1 & A1).
  destruct (H2 now n s r r' p p' Hs Hp Hf Hp' Hm) as (s2 & E2 & A2).
  exists s1, s2. split; [exact E1|]. split; [exact E2|]. rewrite A1, A2. reflexivity.
Qed.
End Client.

(** C20. Both apps implement the queue report's specification: when the
    selected pump has its marker, [CNGTrackerApp.submitQueueUpdate] and
    [CNGFlowApp.submitQueueUpdate] (popup open or not) return, set the
    reading of that pump's id to the reported queue, the current time
    and the queue's status, leave every other id's reading and the list
    of ids unchanged, add ten points and store them. *)
Theorem submit_refines :
  refines_update tracker_update /\ forall pop, refines_update (cngflow_update pop).
Proof. split; [exact tracker_update_refines | exact cngflow_update_refines]. Qed.

(** ** The favourite button in both apps *)

(** The error an outcome carries, if it threw. *)
Definition outcome_error (o : Outcome) : option string :=
  match o with Done _ => None | Threw e _ => Some e end.

(** What the user sees of a page after the favourite button: the
    preferences (favourites, points, storage), the last notification,
    the selected pump and the ids of the list. *)
Definition view (s : App) : (list string * Z * Storage) * option Notice * option positive * list string :=
  (Invariants.prefs s, notification s, selectedPump s, pids s).

(** Opening the details of an object: [CNGFlowApp] also writes the smart
    status into it, which the view does not show. *)
Lemma showPumpDetails_view (now : Instant) (r : positive) (p : Pump) (s : App) :
  heap s !! r = Some p ->
  view (Handlers.showPumpDetails now (Handlers.ByRef r) s) = view (set_selected s (Some r)) /\
  Tracker.showPumpDetails (Handlers.ByRef r) s = Done (set_selected s (Some r)).
Proof.
  intros Hp. unfold Handlers.showPumpDetails, Tracker.showPumpDetails.
  rewrite bool_decide_true by (rewrite Hp; eauto). split; [|reflexivity].
  change (heap (set_selected s (Some r))) with (heap s). rewrite Hp.
  unfold view. f_equal. apply (write_pids (set_selected s (Some r)) r p); [exact Hp|].
  apply SmartQueue.calculateSmartQueueStatus_pid.
Qed.

(** C13. [CNGFlowApp.toggleFavorite] and [CNGTrackerApp.toggleFavorite]
    are equivalent on every page and every argument: they throw the same
    error or none, and leave the same favourites, points, storage,
    notification, selected pump and list of ids. *)
Theorem toggle_variants_agree (now : Instant) (t : option positive) (s : App) :
  outcome_error (Handlers.toggleFavorite now t s) = outcome_error (Tracker.toggleFavorite t s) /\
  view (outcome_state (Handlers.toggleFavorite now t s)) = view (outcome_state (Tracker.toggleFavorite t s)).
Proof.
  unfold Handlers.toggleFavorite, Tracker.toggleFavorite.
  destruct t as [r|]; [|split; reflexivity].
  destruct (heap s !! r) as [p|] eqn:Hp; [|split; reflexivity].
  destruct (bool_decide (pid p ∈ favorites s)); [|destruct (_ && _); [split; reflexivity|]];
    match goal with
    | |- context [Handlers.showPumpDetails now (Handlers.ByRef r) ?s2] =>
        destruct (showPumpDetails_view now r p s2 Hp) as [V ->]; split; [reflexivity | exact V]
    end.
Qed.

End Variants.
