(* ===== verification/PullRefresh.v ===== *)
(** * PullRefresh: the pull-to-refresh gesture of [CNGFlowApp]

    [initPullToRefresh] ([src/public/app.js], lines 1264-1331) keeps
    three closure variables ([startY], [currentY], [pulling]) and drives
    the [#pull-to-refresh] element from three touch listeners.  A pull
    released beyond the threshold schedules [this.refreshData()] with
    [setTimeout(..., 1500)].  The model:
    - [Pull]: the closure variables, the classes [visible], [ready] and
      [refreshing] of the element, the text of [.pull-text], the
      [translateY] of its transform ([None] for [''], the value of
      [Math.min(diff - 80, 20)] otherwise), and the number of pending
      timer callbacks;
    - [touchStart], [touchMove], [touchEnd], and [timer_reset] for the
      writes of the timer callback, which first runs [refreshData] of
      [Handlers] on the page;
    - [World] pairs the gesture with the page [App]; [pstep] runs one
      listener or one timer callback; [preach] is the closure from a
      page with a fresh gesture; [callback_step] is one timer callback,
      and it is well founded.
    The element's markup is not in the repository: the initial text is
    an argument, and its classes and transform are taken to be absent.
    [init] never calls [initPullToRefresh], so in the shipped page the
    listeners are never installed and [refreshData] never runs; the
    theorems describe the gesture once it is installed. *)

From stdpp Require Import base gmap strings list.
From Stdlib Require Import String Wellfounded Wf_nat.
From S2P Require Import Prelude Clock JsString Station SmartQueue Store Loaders Handlers Invariants.
Import SmartQueue Handlers Invariants.

Local Open Scope string_scope.

Module PullRefresh.

(** ** The gesture state *)

Record Pull : Type := mkPull {
  startY : Q;
  currentY : Q;
  pulling : bool;
  visible : bool;
  ready : bool;
  refreshing : bool;
  pull_text : string;
  transform : option Q;
  timers : nat
}.

(** [const threshold = 80]. *)
Definition threshold : Q := 80.

(** [let startY = 0; let currentY = 0; let pulling = false;]. *)
Definition pull_init (text : string) : Pull := mkPull 0 0 false false false false text None 0.

(** [touchStart]: only at the top of the page. *)
Definition touchStart (scrollY clientY : Q) (g : Pull) : Pull :=
  if Qeq_bool scrollY 0 then
    mkPull clientY (currentY g) true (visible g) (ready g) (refreshing g) (pull_text g) (transform g) (timers g)
  else g.

(** [touchMove]: [currentY] follows the finger on every move; the
    element is updated only while [0 < diff < 150]. *)
Definition touchMove (clientY : Q) (g : Pull) : Pull :=
  if negb (pulling g) then g
  else
    let diff := clientY - startY g in
    if Qltb 0 diff && Qltb diff 150 then
      let rdy := Qltb threshold diff in
      mkPull (startY g) clientY true true rdy (refreshing g)
        (if rdy then "Release to refresh" else "Pull to refresh")
        (Some (Qmin (diff - 80) 20)) (timers g)
    else
      mkPull (startY g) clientY true (visible g) (ready g) (refreshing g) (pull_text g) (transform g) (timers g).

(** [touchEnd]: beyond the threshold it shows [Refreshing...] and
    schedules the callback; otherwise it hides the element.  Both reset
    the closure variables. *)
Definition touchEnd (g : Pull) : Pull :=
  if negb (pulling g) then g
  else if Qltb threshold (currentY g - startY g) then
    mkPull 0 0 false (visible g) (ready g) true "Refreshing..." (transform g) (S (timers g))
  else
    mkPull 0 0 false false false (refreshing g) (pull_text g) None (timers g).

(** The element after the callback: [classList.remove('visible',
    'ready', 'refreshing')], [transform = ''], [Pull to refresh]. *)
Definition timer_reset (g : Pull) (k : nat) : Pull :=
  mkPull (startY g) (currentY g) (pulling g) false false false "Pull to refresh" None k.

(** ** The page with its gesture *)

Record World : Type := mkWorld {
  gesture : Pull;
  page : App
}.

Inductive PEvent : Type :=
| PTouchStart (scrollY clientY : Q)
| PTouchMove (clientY : Q)
| PTouchEnd
| PTimer (rand : nat -> Q * Q).

(** One listener, or one pending callback, run to completion.  A timer
    event with no pending callback does not happen. *)
Definition pstep (now : Instant) (e : PEvent) (w : World) : World :=
  match e with
  | PTouchStart sy y => mkWorld (touchStart sy y (gesture w)) (page w)
  | PTouchMove y => mkWorld (touchMove y (gesture w)) (page w)
  | PTouchEnd => mkWorld (touchEnd (gesture w)) (page w)
  | PTimer rand =>
      match timers (gesture w) with
      | O => w
      | S k => mkWorld (timer_reset (gesture w) k) (refreshData now rand (page w))
      end
  end.

Fixpoint prun (now : Instant) (evs : list PEvent) (w : World) : World :=
  match evs with
  | [] => w
  | e :: rest => prun now rest (pstep now e w)
  end.

(** The worlds reachable from the page [a0] with a fresh gesture. *)
Inductive preach (text : string) (a0 : App) : World -> Prop :=
| preach_init : preach text a0 (mkWorld (pull_init text) a0)
| preach_step (w : World) (now : Instant) (e : PEvent) :
    preach text a0 w -> preach text a0 (pstep now e w).

(** The element at rest: hidden, not ready, not refreshing, no offset. *)
Definition idle (g : Pull) : Prop :=
  visible g = false /\ ready g = false /\ refreshing g = false /\ transform g = None.

(** The invariant of the gesture. *)
Definition pull_ok (g : Pull) : Prop :=
  (refreshing g = true -> timers g <> 0%nat) /\
  (pulling g = false -> timers g = 0%nat -> visible g = false /\ ready g = false /\ transform g = None).

(** ** The invariant *)

Lemma pull_ok_init (text : string) : pull_ok (pull_init text).
Proof. split; simpl; [discriminate | auto]. Qed.

Lemma pstep_ok (now : Instant) (e : PEvent) (w : World) :
  pull_ok (gesture w) -> pull_ok (gesture (pstep now e w)).
Proof.
  destruct w as [g a]. intros [Hr Hi].
  destruct e as [sy y|y| |rand]; cbn [pstep gesture].
  - unfold touchStart. destruct (Qeq_bool sy 0); [split; simpl; [exact Hr | discriminate] | split; assumption].
  - unfold touchMove. destruct (pulling g); [|split; assumption]. simpl.
    destruct (_ && _); (split; simpl; [exact Hr | discriminate]).
  - unfold touchEnd. destruct (pulling g); [|split; assumption]. simpl.
    destruct (Qltb threshold _); (split; simpl; [intros ?; try discriminate; exact (Hr ltac:(assumption)) |]).
    + intros _ H. discriminate H.
    + auto.
  - destruct (timers g) as [|k]; [split; assumption|]. split; simpl; [discriminate | auto].
Qed.

Lemma preach_ok (text : string) (a0 : App) (w : World) :
  preach text a0 w -> pull_ok (gesture w).
Proof. induction 1; [apply pull_ok_init | apply pstep_ok; assumption]. Qed.

Lemma preach_prun (text : string) (a0 : App) (now : Instant) (evs : list PEvent) (w : World) :
  preach text a0 w -> preach text a0 (prun now evs w).
Proof. revert w. induction evs as [|e evs IH]; intros w Hw; [exact Hw | apply IH; constructor; exact Hw]. Qed.

(** The timer callback is the [Refresh] event of [Handlers]: the page of
    a world stays a reachable page. *)
Lemma preach_page (cd : Q -> Q -> Q -> Q -> Q) (st : Storage) (text : string) (a0 : App) (w : World) :
  reachable cd st a0 -> preach text a0 w -> reachable cd st (page w).
Proof.
  intros H0. induction 1 as [|w now e _ IH]; [exact H0|].
  destruct e as [sy y|y| |rand]; try exact IH. cbn [pstep].
  destruct (timers (gesture w)); [exact IH|].
  exact (reach_step cd st (page w) now (Refresh rand) IH).
Qed.

(** Draining [n] pending callbacks: each runs [refreshData]. *)
Lemma fire_all (now : Instant) (rand : nat -> Q * Q) (n : nat) (w : World) :
  timers (gesture w) = n ->
  let w' := prun now (repeat (PTimer rand) n) w in
  timers (gesture w') = 0%nat /\ pulling (gesture w') = pulling (gesture w) /\
  page w' = Nat.iter n (refreshData now rand) (page w).
Proof.
  revert w. induction n as [|n IH]; intros [g a] Ht; simpl in Ht; [subst; auto|].
  cbn [repeat prun pstep gesture page]. rewrite Ht.
  destruct (IH (mkWorld (timer_reset g n) (refreshData now rand a)) eq_refl) as (H1 & H2 & H3).
  split; [exact H1|]. split; [exact H2|]. rewrite H3. cbn [page]. apply Nat.iter_swap.
Qed.

(** ** Termination of the timer queue *)

(** One callback that the browser runs: [w'] follows [w] when a
    callback was pending in [w] and ran. *)
Definition callback_step (w' w : World) : Prop :=
  exists now rand, timers (gesture w) <> 0%nat /\ w' = pstep now (PTimer rand) w.

(** A callback consumes itself: [setTimeout], not [setInterval]. *)
Lemma callback_step_decreases (w' w : World) :
  callback_step w' w -> (timers (gesture w') < timers (gesture w))%nat.
Proof.
  intros (now & rand & Hn & ->). cbn [pstep].
  destruct (timers (gesture w)) as [|k] eqn:E; [contradiction|]. cbn. lia.
Qed.

(** Termination of the pending refreshes: there is no infinite
    sequence of timer callbacks.  Without new touches the browser runs
    at most as many callbacks as are pending, then none is left. *)
Lemma callbacks_terminate : well_founded callback_step.
Proof.
  apply (wf_incl _ _ (ltof World (fun w => timers (gesture w)))); [|apply well_founded_ltof].
  intros w' w H. apply callback_step_decreases, H.
Qed.

(** How many callbacks are pending once the finger is lifted. *)
Definition pending_after_release (g : Pull) : nat :=
  timers g + (if pulling g && Qltb threshold (currentY g - startY g) then 1 else 0).

Lemma touchEnd_fields (g : Pull) :
  timers (touchEnd g) = pending_after_release g /\ pulling (touchEnd g) = false.
Proof.
  unfold touchEnd, pending_after_release. destruct (pulling g) eqn:Hp; simpl; [|rewrite Hp; auto with arith].
  destruct (Qltb threshold _); simpl; split; lia.
Qed.

(** The invariant gives rest when nothing is going on. *)
Lemma pull_ok_idle (g : Pull) :
  pull_ok g -> pulling g = false -> timers g = 0%nat -> idle g.
Proof.
  intros [Hr Hi] Hp Ht. destruct (Hi Hp Ht) as (H1 & H2 & H3).
  split; [exact H1|]. split; [exact H2|]. split; [|exact H3].
  destruct (refreshing g); [exfalso; apply (Hr eq_refl), Ht | reflexivity].
Qed.

(** C11. In every world the gesture can reach, when no finger is down
    and no refresh is pending, the indicator is at rest: hidden, not
    ready, not refreshing, with no offset. *)
Theorem preach_idle (text : string) (a0 : App) (w : World) :
  preach text a0 w -> pulling (gesture w) = false -> timers (gesture w) = 0%nat -> idle (gesture w).
Proof. intros Hw. apply pull_ok_idle, (preach_ok text a0 w Hw). Qed.

(** C28. Liveness of the refresh: from every reachable world, lifting
    the finger and letting the browser run the pending timer callbacks
    (one more when the finger is lifted beyond the threshold) runs
    [refreshData] once per callback and brings the indicator back to
    rest with nothing pending. *)
Theorem pull_refresh_liveness (text : string) (a0 : App) (w : World) (now : Instant) (rand : nat -> Q * Q) :
  preach text a0 w ->
  let n := pending_after_release (gesture w) in
  let w' := prun now (PTouchEnd :: repeat (PTimer rand) n) w in
  idle (gesture w') /\ pulling (gesture w') = false /\ timers (gesture w') = 0%nat /\
  page w' = Nat.iter n (refreshData now rand) (page w).
Proof.
  intros Hw n w'. destruct (touchEnd_fields (gesture w)) as [Ht Hp].
  destruct (fire_all now rand n (pstep now PTouchEnd w) Ht) as (H1 & H2 & H3).
  assert (Hw' : preach text a0 w') by (apply preach_prun, Hw).
  cbn [pstep gesture] in H2. rewrite Hp in H2.
  split; [apply (pull_ok_idle _ (preach_ok text a0 w' Hw')); assumption|]. auto.
Qed.

(** ** Two traces of the indicator *)

(** A second pull during [Refreshing...] schedules a second refresh; the
    first callback then puts the indicator at rest while the second
    refresh is still pending, so it runs with no indicator. *)
Lemma indicator_rests_while_pending (now : Instant) (rand : nat -> Q * Q) (text : string) (a : App) :
  let w := prun now [PTouchStart 0 100; PTouchMove 200; PTouchEnd;
                     PTouchStart 0 100; PTouchMove 200; PTouchEnd; PTimer rand]
                (mkWorld (pull_init text) a) in
  timers (gesture w) = 1%nat /\ idle (gesture w).
Proof. split; [reflexivity|]. repeat split. Qed.

(** [currentY] follows the finger outside [0 < diff < 150] but the
    element does not: pulled to [100] and back above the start, the
    indicator still says [Release to refresh], and lifting the finger
    schedules nothing. *)
Lemma release_prompt_without_refresh (text : string) :
  let g := touchMove 90 (touchMove 200 (touchStart 0 100 (pull_init text))) in
  visible g = true /\ ready g = true /\ pull_text g = "Release to refresh" /\
  pending_after_release g = 0%nat.
Proof. repeat split. Qed.

(** ** Concrete runs *)

Definition no_random : nat -> Q * Q := fun _ => (0, 0).

(** A completed pull on the page of the sample run. *)
Definition pulled_world : World :=
  prun tuesday_9am [PTouchStart 0 100; PTouchMove 200; PTouchEnd; PTimer no_random]
    (mkWorld (pull_init "Pull to refresh") sample_demo).

(** A finger down, beyond the threshold. *)
Definition pulling_world : World :=
  prun tuesday_9am [PTouchStart 0 100; PTouchMove 200] (mkWorld (pull_init "Pull to refresh") sample_demo).

Lemma preach_idle_witness :
  preach "Pull to refresh" sample_demo pulled_world /\ idle (gesture pulled_world).
Proof.
  assert (H : preach "Pull to refresh" sample_demo pulled_world) by (apply preach_prun, preach_init).
  split; [exact H|]. apply (preach_idle "Pull to refresh" sample_demo pulled_world H); reflexivity.
Defined.

Lemma pull_refresh_liveness_witness :
  preach "Pull to refresh" sample_demo pulling_world /\
  pending_after_release (gesture pulling_world) = 1%nat /\
  let w' := prun tuesday_9am (PTouchEnd :: repeat (PTimer no_random) 1) pulling_world in
  idle (gesture w') /\ pulling (gesture w') = false /\ timers (gesture w') = 0%nat /\
  page w' = Nat.iter 1 (refreshData tuesday_9am no_random) (page pulling_world).
Proof.
  assert (H : preach "Pull to refresh" sample_demo pulling_world) by (apply preach_prun, preach_init).
  split; [exact H|]. split; [reflexivity|].
  exact (pull_refresh_liveness "Pull to refresh" sample_demo pulling_world tuesday_9am no_random H).
Defined.

End PullRefresh.
