(* ===== verification/Distance.v ===== *)
(** * Distance: [calculateDistance], the haversine formula

    [CNGFlowApp.calculateDistance] ([src/public/app.js], lines 1147-1156)
    computes the great-circle distance on a sphere of radius 6371 km
    with [Math.sin], [Math.cos], [Math.sqrt] and [Math.atan2], and
    rounds it to a tenth of a kilometre: [Math.round(R * c * 10) / 10].
    The rounding makes the result a rational number, so the model
    computes the formula over the reals of the Standard Library and
    returns a [Q], the type of the distances of the rest of the
    development.  [Loaders], [Handlers] and [Invariants] take the
    distance function as an argument; this file supplies the real one
    and proves what [updateDistances] does with it.  The trigonometry is
    not executable: the theorems of this file are proved, not computed. *)

From stdpp Require Import base gmap list sorting.
From S2P Require Import Prelude Clock JsString Station SmartQueue Store Loaders Handlers ListView.
From Stdlib Require Import Reals Qreals Zfloor Lra.
Import SmartQueue Loaders ListView.

Module Distance.

Section Real.

Local Open Scope R_scope.

(** [const R = 6371]. *)
Definition R_earth : R := 6371.

(** [x * Math.PI / 180]. *)
Definition deg (x : R) : R := x * PI / 180.

(** [Math.atan2(y, x)], without the signed zeros. *)
Definition atan2 (y x : R) : R :=
  if Rlt_dec 0 x then atan (y / x)
  else if Rlt_dec x 0 then
    (if Rle_dec 0 y then atan (y / x) + PI else atan (y / x) - PI)
  else if Rlt_dec 0 y then PI / 2
  else if Rlt_dec y 0 then - (PI / 2)
  else 0.

(** [const a = ...]: the haversine of the central angle. *)
Definition haversine (lat1 lon1 lat2 lon2 : R) : R :=
  let dLat := deg (lat2 - lat1) in
  let dLon := deg (lon2 - lon1) in
  sin (dLat / 2) * sin (dLat / 2) +
  cos (deg lat1) * cos (deg lat2) * sin (dLon / 2) * sin (dLon / 2).

(** [Math.round(x)] on a real: [floor(x + 1/2)]. *)
Definition Math_round_R (x : R) : Z := Zfloor (x + / 2).

(** [calculateDistance(lat1, lon1, lat2, lon2)]: [Math.round(R * c *
    10) / 10] is the rational [n / 10]. *)
Definition calculateDistance (lat1 lon1 lat2 lon2 : Q) : Q :=
  let a := haversine (Q2R lat1) (Q2R lon1) (Q2R lat2) (Q2R lon2) in
  let c := 2 * atan2 (sqrt a) (sqrt (1 - a)) in
  Qmake (Math_round_R (R_earth * c * 10)) 10.

(** ** Lemmas on the formula *)

Lemma haversine_self (lat lon : R) : haversine lat lon lat lon = 0.
Proof.
  unfold haversine, deg. rewrite !Rminus_diag.
  replace (0 * PI / 180 / 2) with 0 by field. rewrite sin_0. ring.
Qed.

Lemma deg_opp (x y : R) : deg (x - y) / 2 = - (deg (y - x) / 2).
Proof. unfold deg. field. Qed.

Lemma haversine_sym (lat1 lon1 lat2 lon2 : R) :
  haversine lat1 lon1 lat2 lon2 = haversine lat2 lon2 lat1 lon1.
Proof.
  unfold haversine. rewrite (deg_opp lat2 lat1), (deg_opp lon2 lon1), !sin_neg. ring.
Qed.

Lemma atan_nonneg (x : R) : 0 <= x -> 0 <= atan x.
Proof.
  intros H. destruct (Req_dec x 0) as [->|E]; [rewrite atan_0; lra|].
  left. rewrite <- atan_0. apply atan_increasing. lra.
Qed.

(** [Math.atan2] of two square roots lies in [[0, PI/2]]. *)
Lemma atan2_sqrt_bounds (a b : R) : 0 <= atan2 (sqrt a) (sqrt b) <= PI / 2.
Proof.
  pose proof (sqrt_pos a) as Ha. pose proof (sqrt_pos b) as Hb. pose proof PI_RGT_0 as Hpi.
  unfold atan2. destruct (Rlt_dec 0 (sqrt b)) as [Hp|Hp].
  - pose proof (atan_bound (sqrt a / sqrt b)) as [_ Hu]. split; [|lra].
    apply atan_nonneg. unfold Rdiv. apply Rmult_le_pos; [lra | left; apply Rinv_0_lt_compat; lra].
  - destruct (Rlt_dec (sqrt b) 0); [lra|].
    destruct (Rlt_dec 0 (sqrt a)); [lra|]. destruct (Rlt_dec (sqrt a) 0); lra.
Qed.

(** [Math.round] of a non-negative real is non-negative. *)
Lemma Math_round_R_nonneg (x : R) : 0 <= x -> (0 <= Math_round_R x)%Z.
Proof. intros H. apply Zfloor_lub. simpl. lra. Qed.

Lemma Math_round_R_0 : Math_round_R 0 = 0%Z.
Proof. apply Zfloor_eq. simpl. lra. Qed.

(** ** The distance *)

(** A point is at distance [0] from itself. *)
Lemma calculateDistance_self (lat lon : Q) : calculateDistance lat lon lat lon = Qmake 0 10.
Proof.
  unfold calculateDistance. rewrite haversine_self, Rminus_0_r, sqrt_0, sqrt_1.
  unfold atan2. destruct (Rlt_dec 0 1) as [_|H]; [|lra].
  replace (0 / 1) with 0 by field. rewrite atan_0.
  replace (R_earth * (2 * 0) * 10) with 0 by ring. rewrite Math_round_R_0. reflexivity.
Qed.

Lemma calculateDistance_sym (lat1 lon1 lat2 lon2 : Q) :
  calculateDistance lat1 lon1 lat2 lon2 = calculateDistance lat2 lon2 lat1 lon1.
Proof. unfold calculateDistance. rewrite haversine_sym. reflexivity. Qed.

Lemma calculateDistance_nonneg (lat1 lon1 lat2 lon2 : Q) :
  (0 <= calculateDistance lat1 lon1 lat2 lon2)%Q.
Proof.
  unfold calculateDistance. set (a := haversine _ _ _ _).
  pose proof (atan2_sqrt_bounds a (1 - a)) as [H _].
  pose proof (Math_round_R_nonneg (R_earth * (2 * atan2 (sqrt a) (sqrt (1 - a))) * 10)) as Hz.
  unfold Qle. simpl. rewrite Z.mul_1_r. apply Hz. unfold R_earth. lra.
Qed.

End Real.

(** ** Loops that give every listed pump a distance *)

Section FoldDistance.

(** One step of such a loop: it changes only the object of its
    reference, keeps its location and sets its distance to [g] of it. *)
Variable upd : App -> positive -> App.
Variable g : Q * Q -> Q.
Hypothesis upd_lookup : forall s r r0,
  (r0 <> r -> heap (upd s r) !! r0 = heap s !! r0) /\
  (forall p, heap s !! r = Some p -> exists p', heap (upd s r) !! r = Some p' /\
      location p' = location p /\ distance p' = Some (g (location p))) /\
  (heap s !! r = None -> heap (upd s r) !! r = None).

Lemma fold_distance (l : list positive) (s : App) (r : positive) :
  let s1 := fold_left upd l s in
  (r ∉ l -> heap s1 !! r = heap s !! r) /\
  (r ∈ l -> forall p, heap s !! r = Some p -> exists p', heap s1 !! r = Some p' /\
      location p' = location p /\ distance p' = Some (g (location p))).
Proof.
  revert s. induction l as [|r1 l IH]; intros s; simpl.
  - split; [reflexivity | intros Hr; inversion Hr].
  - destruct (upd_lookup s r1 r) as (Hne & Heq & _).
    destruct (IH (upd s r1)) as [H1 H2]. split.
    + intros Hr. rewrite H1 by set_solver. apply Hne. set_solver.
    + intros Hr p Hp. destruct (decide (r = r1)) as [->|Hr1].
      * destruct (Heq p Hp) as (p' & Hp' & Hl & Hd).
        destruct (decide (r1 ∈ l)) as [Hin|Hout].
        -- destruct (H2 Hin p' Hp') as (p'' & Hp'' & Hl' & Hd'). exists p''.
           split; [exact Hp''|]. split; [congruence|]. rewrite Hd', Hl. reflexivity.
        -- exists p'. rewrite H1 by exact Hout. auto.
      * apply elem_of_cons in Hr as [->|Hr]; [contradiction|].
        apply (H2 Hr p). rewrite Hne by exact Hr1. exact Hp.
Qed.

End FoldDistance.

(** ** [updateDistances] with the haversine distance *)

Section Update.

Variable cd : Q -> Q -> Q -> Q -> Q.

(** The distance [updateDistances] writes for the user at [loc]. *)
Definition distance_from (loc : Q * Q) (p : Pump) : Q := cd loc.1 loc.2 (location p).1 (location p).2.

Lemma getMarkerIcon_location_distance (now : Instant) (p : Pump) :
  location (snd (getMarkerIcon now p)) = location p /\ distance (snd (getMarkerIcon now p)) = distance p.
Proof.
  rewrite getMarkerIcon_pump. destruct (calculateSmartQueueStatus_pump now p) as (d & v & c & ->).
  split; reflexivity.
Qed.

(** One pump of [updateDistances]: only its object changes, and it gets
    the distance of its location. *)
Lemma update_distance_lookup (now : Instant) (loc : Q * Q) (s : App) (r r0 : positive) :
  (r0 <> r -> heap (update_distance cd now loc s r) !! r0 = heap s !! r0) /\
  (forall p, heap s !! r = Some p -> exists p', heap (update_distance cd now loc s r) !! r = Some p' /\
      location p' = location p /\ distance p' = Some (distance_from loc p)) /\
  (heap s !! r = None -> heap (update_distance cd now loc s r) !! r = None).
Proof.
  rewrite !update_distance_heap. destruct (heap s !! r) as [p|] eqn:E; [|split; [|split]; auto; discriminate].
  split; [intros Hne; apply lookup_insert_ne; congruence|]. split; [|discriminate].
  intros p0 [= <-]. eexists. split; [apply lookup_insert_eq|].
  case_bool_decide; [|split; reflexivity].
  destruct (getMarkerIcon_location_distance now (set_distance p (cd loc.1 loc.2 (location p).1 (location p).2))) as [A B].
  rewrite A, B. split; reflexivity.
Qed.

(** The loop of [updateDistances] over a list of references. *)
Lemma fold_update_distance (now : Instant) (loc : Q * Q) (l : list positive) (s : App) (r : positive) :
  let s1 := fold_left (update_distance cd now loc) l s in
  (r ∉ l -> heap s1 !! r = heap s !! r) /\
  (r ∈ l -> forall p, heap s !! r = Some p -> exists p', heap s1 !! r = Some p' /\
      location p' = location p /\ distance p' = Some (distance_from loc p)).
Proof.
  exact (fold_distance (update_distance cd now loc) (fun xy => cd loc.1 loc.2 xy.1 xy.2)
           (fun s' r1 r0 => update_distance_lookup now loc s' r1 r0) l s r).
Qed.

End Update.

(** C29. With the haversine distance, [updateDistances] leaves
    [this.pumps] sorted by distance, from the nearest, and gives every
    listed pump a non-negative distance, [0] for a pump at the user's
    own location, computed from the pump's unchanged location. *)
Theorem updateDistances_haversine (now : Instant) (s : App) (loc : Q * Q) :
  userLocation s = Some loc ->
  let s' := updateDistances calculateDistance now s in
  StronglySorted (fun r1 r2 => (distance_key s' r1 <= distance_key s' r2)%Q) (pumps s') /\
  forall r p, r ∈ pumps s -> heap s !! r = Some p ->
    exists p' d, heap s' !! r = Some p' /\ location p' = location p /\ distance p' = Some d /\
      (0 <= d)%Q /\ (location p = loc -> d = Qmake 0 10).
Proof.
  intros Hloc s'. unfold s', updateDistances. rewrite Hloc.
  set (s1 := fold_left (update_distance calculateDistance now loc) (pumps s) s).
  split; [exact (sort_by_sorted (distance_key s1) (pumps s1))|].
  intros r p Hr Hp. destruct (fold_update_distance calculateDistance now loc (pumps s) s r) as [_ H2].
  destruct (H2 Hr p Hp) as (p' & Hp' & Hl & Hd).
  exists p', (distance_from calculateDistance loc p). split; [exact Hp'|]. split; [exact Hl|].
  split; [exact Hd|]. split; [apply calculateDistance_nonneg|].
  intros <-. apply calculateDistance_self.
Qed.

(** The sample page of [Handlers] with the user at the centre of Delhi. *)
Definition delhi : Q * Q := (28.6139, 77.2090).
Definition located_demo : App := set_location Handlers.sample_demo (Some delhi).

Lemma updateDistances_haversine_witness :
  userLocation located_demo = Some delhi /\
  let s' := updateDistances calculateDistance tuesday_9am located_demo in
  StronglySorted (fun r1 r2 => (distance_key s' r1 <= distance_key s' r2)%Q) (pumps s') /\
  forall r p, r ∈ pumps located_demo -> heap located_demo !! r = Some p ->
    exists p' d, heap s' !! r = Some p' /\ location p' = location p /\ distance p' = Some d /\
      (0 <= d)%Q /\ (location p = delhi -> d = Qmake 0 10).
Proof. split; [reflexivity | apply (updateDistances_haversine tuesday_9am located_demo delhi); reflexivity]. Defined.

End Distance.
