(* ===== verification/Views.v ===== *)
(** * Views: what the map and the list of [CNGFlowApp] show ([src/public/app.js])

    Leaflet keeps, for each marker, the HTML of its icon and of its
    popup as strings: they are rendered once, when [setIcon],
    [bindPopup] or [setPopupContent] is called, from the pump object and
    the clock of that moment.  The state keeps that moment and a copy of
    that object ([icons], [popups] of [Store]); this file renders them:
    - [markerPin]: the HTML of [getMarkerIcon] (lines 527-558): the
      pin's status class and colour, the prediction robot, the label,
      the distance label and the traffic dot;
    - [createPopupContent] (560-587): name, the AI prediction or the
      queue text, the age of the reading, traffic and confidence, and
      the two buttons; it runs [calculateSmartQueueStatus], which writes
      the pump;
    - [createPumpCard] (845-879) and [renderList], the cards of
      [updatePumpsList] (833-834).  The [operatingHours] a card shows
      are not a field of [Pump]: no handler reads or writes them.
    Theorems: an accepted report redraws the icon from the new reading
    but the popup only when it is open (C23), and [refreshData] never
    redraws a popup. *)

From stdpp Require Import base gmap strings list.
From Stdlib Require Import String.
From S2P Require Import Prelude Clock JsString Station SmartQueue Store Loaders Handlers ListView.

Local Open Scope string_scope.
Import SmartQueue Loaders Handlers ListView.

Module Views.

(** ** The pin of [getMarkerIcon] *)

(** [colors[finalStatus]]. *)
Definition status_color (st : QueueStatus) : string :=
  match st with Green => "#10B981" | Yellow => "#F59E0B" | Red => "#EF4444" | Gray => "#9CA3AF" end.

(** [trafficColors[smartData.trafficDensity]]. *)
Definition traffic_color (d : Density) : string :=
  match d with Low => "#4CAF50" | Medium => "#FFC107" | High => "#F44336" end.

(** [pump.distance ? `${pump.distance}km` : '']: [null] and [0] show
    no distance label. *)
Definition distanceText (d : option Q) : option Q :=
  match d with Some q => if Qeq_bool q 0 then None else Some q | None => None end.

Record MarkerPin : Type := mkPin {
  pin_status : QueueStatus;      (* class map-pin-marker ${finalStatus} *)
  pin_color : string;            (* background of .pin-body and .pin-tip *)
  pin_robot : bool;              (* the .prediction-indicator *)
  pin_label : MarkerLabel;       (* .queue-number *)
  pin_distance : option Q;       (* .distance-label *)
  pin_traffic : Density;         (* title of .traffic-indicator *)
  pin_traffic_color : string     (* its background *)
}.

Definition markerPin (now : Instant) (pump : Pump) : MarkerPin :=
  let sd := estimate now pump in
  let '(finalStatus, label, _) := getMarkerIcon now pump in
  mkPin finalStatus (status_color finalStatus) (sd_isPrediction sd) label
    (distanceText (distance pump)) (sd_trafficDensity sd) (traffic_color (sd_trafficDensity sd)).

(** ** The popup of [createPopupContent] *)

(** The line under the name: [AI Prediction: ~${predictedQueue}
    vehicles] or [${queueText}]. *)
Inductive Headline : Type :=
| AiPrediction (v : jsval)
| QueueLine (t : QueueText).

Record Popup : Type := mkPopup {
  pop_name : string;
  pop_headline : Headline;
  pop_timeAgo : string;          (* Updated ${timeAgo} *)
  pop_traffic : Density;         (* Traffic: ${smartData.trafficDensity}, and its colours *)
  pop_confidence : Q;            (* ${smartData.confidence}% confidence *)
  pop_details : string;          (* data-pump-details *)
  pop_navigate : string          (* data-pump-navigate *)
}.

(** The popup, and the pump as [calculateSmartQueueStatus] leaves it;
    the fields read after the call are those of the written pump. *)
Definition createPopupContent (now : Instant) (pump : Pump) : Popup * Pump :=
  let '(sd, pump') := calculateSmartQueueStatus now pump in
  (mkPopup (name pump')
     (if sd_isPrediction sd then AiPrediction (sd_predictedQueue sd)
      else QueueLine (getQueueText (queueLength pump')))
     (getTimeAgo now (lastUpdated pump')) (sd_trafficDensity sd) (sd_confidence sd)
     (pid pump') (pid pump'), pump').

(** ** What the map shows *)

(** The icon and the popup of the marker of [id], as Leaflet holds them. *)
Definition icon_of (s : App) (id : string) : option MarkerPin :=
  (fun '(t, p) => markerPin t p) <$> icons s !! id.

Definition popup_of (s : App) (id : string) : option Popup :=
  (fun '(t, p) => fst (createPopupContent t p)) <$> popups s !! id.

(** ** The list *)

Record Card : Type := mkCard {
  card_id : string;              (* data-pump-id *)
  card_name : string;
  card_distance : option Q;      (* ${pump.distance} km away: null shows null *)
  card_status : QueueStatus;     (* class status-badge ${statusClass} *)
  card_queue : QueueText;
  card_timeAgo : string
}.

Definition createPumpCard (now : Instant) (pump : Pump) : Card :=
  mkCard (pid pump) (name pump) (distance pump) (queueStatus pump)
    (getQueueText (queueLength pump)) (getTimeAgo now (lastUpdated pump)).

(** [container.innerHTML = filteredPumps.map(pump => this.createPumpCard(pump)).join('')]. *)
Definition renderList (now : Instant) (sortBy filterStatus : string) (s : App) : list Card :=
  map (createPumpCard now) (updatePumpsList sortBy filterStatus s).

(** ** Lemmas *)

(** The estimate reads the reading, its date and the history, which its
    own writes leave alone: rendering again from the written pump shows
    the same. *)
Lemma estimate_written (now now' : Instant) (p : Pump) :
  estimate now' (snd (calculateSmartQueueStatus now p)) = estimate now' p.
Proof. destruct (calculateSmartQueueStatus_pump now p) as (d & v & c & ->). reflexivity. Qed.

Lemma markerPin_written (now now' : Instant) (p : Pump) :
  markerPin now' (snd (calculateSmartQueueStatus now p)) = markerPin now' p.
Proof.
  unfold markerPin. rewrite estimate_written.
  unfold getMarkerIcon. destruct (calculateSmartQueueStatus_pump now p) as (d & v & c & E).
  rewrite E. reflexivity.
Qed.

(** [refresh_pump] redraws at most the icon. *)
Lemma refresh_pump_popups (now : Instant) (u1 u2 : Q) (s : App) (r : positive) :
  popups (refresh_pump now u1 u2 s r) = popups s.
Proof. unfold refresh_pump. destruct (heap s !! r); [destruct (Qltb _ _); [case_bool_decide|]|]; reflexivity. Qed.

(** [refreshData] gives some pumps a new reading and redraws their
    icons, but no popup: a popup shows the reading of when it was
    bound. *)
Lemma refreshData_popups (now : Instant) (rand : nat -> Q * Q) (s : App) :
  popups (refreshData now rand s) = popups s.
Proof.
  unfold refreshData.
  assert (H : popups (fold_left (fun '(i, s') r => (S i, refresh_pump now (rand i).1 (rand i).2 s' r))
                        (pumps s) (0%nat, s)).2 = popups s).
  { apply (fold_left_preserve (fun x => popups x.2 = popups s)); [|reflexivity].
    intros [i s'] r H. simpl in H |- *. rewrite refresh_pump_popups. exact H. }
  destruct (fold_left _ _ _). exact H.
Qed.

(** C23. An accepted queue report redraws the marker's icon from the
    pump with the new reading, but the popup only when it is open
    ([marker.isPopupOpen()]): with the popup closed the popup shows
    what it showed before, so opening it later shows the old reading;
    with the popup open it is rendered from the new one. *)
Theorem submitQueueUpdate_layer (now : Instant) (q : Z) (pop : bool) (s : App)
    (r r' : positive) (p p' : Pump) :
  selectedPump s = Some r -> heap s !! r = Some p ->
  find_ref (heap s) (pumps s) (pid p) = Some r' -> heap s !! r' = Some p' ->
  pid p' ∈ markers s ->
  exists s' p1 p2, submitQueueUpdate now (Some q) pop s = Done s' /\
    queueLength p1 = Some (inject_Z q) /\ queueLength p2 = Some (inject_Z q) /\
    icon_of s' (pid p') = Some (markerPin now p1) /\
    popup_of s' (pid p') = (if pop then Some (fst (createPopupContent now p2)) else popup_of s (pid p')).
Proof.
  intros Hs Hp Hf Hp' Hm. unfold submitQueueUpdate. rewrite Hs, Hp, Hf, Hp'.
  rewrite bool_decide_true by exact Hm. cbv zeta.
  set (p1 := set_reading p' (inject_Z q) (epoch_ms now) (calculateTrafficDensity (JNum (inject_Z q)))).
  eexists; exists p1, (snd (getMarkerIcon now p1)). split; [reflexivity|].
  rewrite getMarkerIcon_pump. destruct (calculateSmartQueueStatus_pump now p1) as (d & v & c & ->).
  split; [reflexivity|]. split; [reflexivity|]. unfold icon_of, popup_of.
  destruct pop; cbn [icons popups set_icon set_popup write set_heap set_points set_storage showNotification];
    rewrite ?lookup_insert_eq; split; reflexivity.
Qed.

(** The sample page with pump_001 (3 in queue) selected, reported at 20
    with its popup closed: the pin says 20, the popup still 3. *)
Lemma submitQueueUpdate_layer_witness :
  (exists (r : positive) (p : Pump), selectedPump sample_demo = Some r /\ heap sample_demo !! r = Some p /\
    find_ref (heap sample_demo) (pumps sample_demo) (pid p) = Some r /\ (pid p ∈ markers sample_demo) /\
    exists s' p1 p2, submitQueueUpdate tuesday_9am (Some 20%Z) false sample_demo = Done s' /\
      queueLength p1 = Some (inject_Z 20) /\ queueLength p2 = Some (inject_Z 20) /\
      icon_of s' (pid p) = Some (markerPin tuesday_9am p1) /\
      popup_of s' (pid p) = (if false then Some (fst (createPopupContent tuesday_9am p2)) else popup_of sample_demo (pid p))) /\
  option_map pin_label (icon_of (outcome_state (submitQueueUpdate tuesday_9am (Some 20%Z) false sample_demo)) "pump_001")
    = Some (Exact 20) /\
  option_map pop_headline (popup_of (outcome_state (submitQueueUpdate tuesday_9am (Some 20%Z) false sample_demo)) "pump_001")
    = Some (QueueLine (InQueue 3)).
Proof.
  split; [|split; vm_compute; reflexivity].
  assert (Hsel : selectedPump sample_demo = Some 1%positive) by (vm_compute; reflexivity).
  destruct (heap sample_demo !! 1%positive) as [p|] eqn:Hp; [|vm_compute in Hp; discriminate].
  assert (Hf : find_ref (heap sample_demo) (pumps sample_demo) (pid p) = Some 1%positive)
    by (vm_compute in Hp; injection Hp as <-; vm_compute; reflexivity).
  assert (Hm : pid p ∈ markers sample_demo)
    by (vm_compute in Hp; injection Hp as <-; apply (bool_decide_unpack (_ ∈ markers sample_demo)); vm_compute; reflexivity).
  exists 1%positive, p. split; [exact Hsel|]. split; [exact Hp|]. split; [exact Hf|]. split; [exact Hm|].
  exact (submitQueueUpdate_layer _ _ _ _ _ _ _ _ Hsel Hp Hf Hp Hm).
Defined.

End Views.
