(* ===== verification/TrackerView.v ===== *)
(** * TrackerView: what the map and the list of [CNGTrackerApp] show ([src/src/app.js])

    The rendering of the simpler variant, over the same state as
    [Tracker]:
    - [getMarkerIcon(status)] (lines 126-140): a dot of the colour of
      the status ([marker_color]);
    - [createPopupContent] (142-154): name, queue text, age, details
      button; bound once by [addPumpMarkers] and never redrawn;
    - [getQueueText] (156-162): five templates with an emoji
      ([TQueueText]); [getTimeAgo] (164-171);
    - [updatePumpsList] (266-302), [createPumpCard] (304-327) and
      [handleSearch] (528-553): the same filter, comparators and search
      as [CNGFlowApp], so they are built from the helpers of [ListView];
    - [calculateDistance] (517-526): the haversine formula of [Distance].
    The [operatingHours] a card shows are not a field of [Pump].
    Theorems: the popups of every reachable state are those of [init]
    (C38), and every card's emoji agrees with its badge colour (C17). *)

From stdpp Require Import base gmap strings list sorting.
From Stdlib Require Import String.
From S2P Require Import Prelude Clock JsString Station SmartQueue Store Loaders Handlers Status ListView Tracker Distance.
From Stdlib Require Import Reals Qreals.

Local Open Scope string_scope.
Import SmartQueue Loaders Handlers Status ListView Tracker Distance.

Module TrackerView.

(** ** Texts *)

(** ['No recent update'], ['✅ No queue!'], [`🟢 ${q} vehicles`],
    [`🟡 ${q} vehicles`] and [`🔴 ${q}+ vehicles`]. *)
Inductive TQueueText : Type :=
| NoRecentUpdate
| NoQueue
| GreenVehicles (q : Q)
| YellowVehicles (q : Q)
| RedVehiclesPlus (q : Q).

Definition getQueueText (queueLength : option Q) : TQueueText :=
  match queueLength with
  | None => NoRecentUpdate
  | Some q =>
      if Qeq_bool q 0 then NoQueue
      else if Qle_bool q 5 then GreenVehicles q
      else if Qle_bool q 15 then YellowVehicles q
      else RedVehiclesPlus q
  end.

Definition getTimeAgo (now : Instant) (date : option Z) : string :=
  let minutes := (ms_since now date / 60000)%Z in
  if (minutes <? 1)%Z then "just now"
  else if (minutes <? 60)%Z then string_of_Z minutes ++ " min ago"
  else
    let hours := (minutes / 60)%Z in
    if (hours <? 24)%Z then
      string_of_Z hours ++ " hour" ++ (if (1 <? hours)%Z then "s" else "") ++ " ago"
    else string_of_Z (hours / 24) ++ " day" ++ (if (24 <? hours)%Z then "s" else "") ++ " ago".

(** The emoji of a text agrees with a badge colour: none without data
    (gray), a check or a green dot on green, yellow on yellow, red on
    red. *)
Definition emoji_agrees (st : QueueStatus) (t : TQueueText) : bool :=
  match st, t with
  | Gray, NoRecentUpdate => true
  | Green, (NoQueue | GreenVehicles _) => true
  | Yellow, YellowVehicles _ => true
  | Red, RedVehiclesPlus _ => true
  | _, _ => false
  end.

(** ** The map *)

(** [colors[status]]. *)
Definition marker_color (st : QueueStatus) : string :=
  match st with Green => "#00C853" | Yellow => "#FFC107" | Red => "#F44336" | Gray => "#9E9E9E" end.

Record TPopup : Type := mkTPopup {
  tp_name : string;
  tp_queue : TQueueText;
  tp_timeAgo : string;           (* Updated ${timeAgo} *)
  tp_details : string            (* app.showPumpDetails('${pump.id}') *)
}.

Definition createPopupContent (now : Instant) (pump : Pump) : TPopup :=
  mkTPopup (name pump) (getQueueText (queueLength pump)) (getTimeAgo now (lastUpdated pump)) (pid pump).

(** The colour of the marker of [id] and its popup, as Leaflet holds
    them. *)
Definition icon_color_of (s : App) (id : string) : option string :=
  (fun '(_, p) => marker_color (queueStatus p)) <$> icons s !! id.

Definition popup_of (s : App) (id : string) : option TPopup :=
  (fun '(t, p) => createPopupContent t p) <$> popups s !! id.

(** ** The list *)

Record TCard : Type := mkTCard {
  tc_id : string;
  tc_name : string;
  tc_distance : option Q;        (* 📍 ${pump.distance} km away *)
  tc_status : QueueStatus;       (* status-badge ${statusClass} *)
  tc_queue : TQueueText;
  tc_timeAgo : string
}.

Definition createPumpCard (now : Instant) (pump : Pump) : TCard :=
  mkTCard (pid pump) (name pump) (distance pump) (queueStatus pump)
    (getQueueText (queueLength pump)) (getTimeAgo now (lastUpdated pump)).

Definition updatePumpsList (sortBy filterStatus : string) (s : App) : list Pump :=
  sort_by (sort_key sortBy) (status_filter filterStatus (pump_objects s)).

Definition renderList (now : Instant) (sortBy filterStatus : string) (s : App) : list TCard :=
  map (createPumpCard now) (updatePumpsList sortBy filterStatus s).

Definition handleSearch (query sortBy filterStatus : string) (s : App) : list Pump :=
  let q := toLowerCase query in
  if (String.length q <? 2)%nat then updatePumpsList sortBy filterStatus s
  else filter (matches_query q) (pump_objects s).

(** [calculateDistance(lat1, lon1, lat2, lon2)]. *)
Definition calculateDistance (lat1 lon1 lat2 lon2 : Q) : Q :=
  let a := haversine (Q2R lat1) (Q2R lon1) (Q2R lat2) (Q2R lon2) in
  let c := (2 * atan2 (sqrt a) (sqrt (1 - a)))%R in
  Qmake (Math_round_R (R_earth * c * 10)%R) 10.

(** ** Distances *)

(** One pump of the tracker's [updateDistances]. *)
Lemma tracker_update_distance_lookup (loc : Q * Q) (s : App) (r r0 : positive) :
  (r0 <> r -> heap (Tracker.update_distance calculateDistance loc s r) !! r0 = heap s !! r0) /\
  (forall p, heap s !! r = Some p -> exists p', heap (Tracker.update_distance calculateDistance loc s r) !! r = Some p' /\
      location p' = location p /\ distance p' = Some (calculateDistance loc.1 loc.2 (location p).1 (location p).2)) /\
  (heap s !! r = None -> heap (Tracker.update_distance calculateDistance loc s r) !! r = None).
Proof.
  unfold Tracker.update_distance. destruct (heap s !! r) as [p|] eqn:E; [|split; [|split]; auto; discriminate].
  split; [intros Hne; apply lookup_insert_ne; congruence|]. split; [|discriminate].
  intros p0 [= <-]. eexists. split; [apply lookup_insert_eq | split; reflexivity].
Qed.

(** When the browser gives the position [loc], every pump of
    [this.pumps] gets its haversine distance from [loc]: a non-negative
    number, [0] for a pump at [loc] itself, from its unchanged
    location. *)
Lemma tracker_locationFound_distances (loc : Q * Q) (s : App) (r : positive) (p : Pump) :
  r ∈ pumps s -> heap s !! r = Some p ->
  exists p' d, heap (Tracker.locationFound calculateDistance loc s) !! r = Some p' /\
    location p' = location p /\ distance p' = Some d /\ (0 <= d)%Q /\ (location p = loc -> d = Qmake 0 10).
Proof.
  intros Hr Hp. unfold Tracker.locationFound, Tracker.updateDistances. cbn [userLocation set_location].
  destruct (fold_distance (Tracker.update_distance calculateDistance loc) (fun xy => calculateDistance loc.1 loc.2 xy.1 xy.2)
              (tracker_update_distance_lookup loc) (pumps s) (set_location s (Some loc)) r) as [_ H].
  destruct (H Hr p Hp) as (p' & Hp' & Hl & Hd).
  eexists p', _. split; [exact Hp'|]. split; [exact Hl|]. split; [exact Hd|].
  split; [exact (calculateDistance_nonneg _ _ _ _)|]. intros <-. exact (calculateDistance_self _ _).
Qed.

(** ** The popups are never redrawn *)

Lemma updateDistances_popups (cd : Q -> Q -> Q -> Q -> Q) (s : App) :
  popups (Tracker.updateDistances cd s) = popups s.
Proof.
  unfold Tracker.updateDistances. destruct (userLocation s) as [loc|]; [|reflexivity].
  apply (fold_left_preserve (fun s' => popups s' = popups s)); [|reflexivity].
  intros s' r H. unfold Tracker.update_distance. destruct (heap s' !! r); exact H.
Qed.

Lemma showPumpDetails_popups (arg : PumpArg) (s : App) :
  popups (outcome_state (Tracker.showPumpDetails arg s)) = popups s.
Proof. unfold Tracker.showPumpDetails. repeat case_match; reflexivity. Qed.

(** ** The badges agree with their colour *)

Lemma set_report_consistent (p : Pump) (q : Q) (t : Z) : status_consistent (set_report p q t) = true.
Proof. unfold status_consistent; simpl. destruct (QueueStatus_eq_dec _ _); [reflexivity | contradiction]. Qed.

Lemma tracker_sample_consistent (now_ms : Z) :
  Forall (fun p => status_consistent p = true) (Tracker.sample_pumps now_ms).
Proof.
  assert (H : forallb status_consistent (Tracker.sample_pumps now_ms) = true) by reflexivity.
  apply Forall_forall. intros p Hp. rewrite forallb_forall in H. apply H, Hp.
Qed.

Lemma tracker_init_ok (now : Instant) (st : Storage) : heap_ok (Tracker.init now (constructor st)).
Proof.
  unfold Tracker.init, Tracker.addPumpMarkers, Tracker.loadSampleData.
  pose proof (heap_good_alloc_all (constructor st) _ (map_Forall_empty _) (tracker_sample_consistent (epoch_ms now))) as H.
  destruct (alloc_all (constructor st) (Tracker.sample_pumps (epoch_ms now))) as [rs s1].
  destruct (addPumpMarkers_fold now (pumps (set_pumps s1 rs)) (set_pumps s1 rs)) as (Hh & _).
  unfold heap_ok. rewrite Hh. exact H.
Qed.

Lemma tracker_showPumpDetails_ok (arg : PumpArg) (s : App) :
  heap_ok s -> heap_ok (outcome_state (Tracker.showPumpDetails arg s)).
Proof. intros Hs. unfold Tracker.showPumpDetails. repeat case_match; exact Hs. Qed.

Lemma tstep_heap_ok (cd : Q -> Q -> Q -> Q -> Q) (now : Instant) (e : TEvent) (s : App) :
  heap_ok s -> heap_ok (outcome_state (tstep cd now e s)).
Proof.
  intros Hs. destruct e; cbn [tstep].
  - unfold Tracker.locationFound, Tracker.updateDistances. cbn [userLocation set_location].
    apply fold_left_preserve; [|exact Hs].
    intros s' r H. unfold Tracker.update_distance. destruct (heap s' !! r) as [p|] eqn:E; [|exact H].
    apply (heap_good_update s' r p (fun x => set_distance x _)); [exact H | exact E | intros x; reflexivity].
  - unfold Tracker.centerOnUserLocation. destruct (userLocation s); exact Hs.
  - case_bool_decide; [apply tracker_showPumpDetails_ok, Hs | exact Hs].
  - apply tracker_showPumpDetails_ok, Hs.
  - unfold Tracker.showUpdateModal. destruct (selectedPump s); exact Hs.
  - unfold Tracker.submitQueueUpdate.
    repeat case_match; try exact Hs; apply heap_good_write; auto using set_report_consistent.
  - unfold Tracker.toggleFavorite. repeat case_match; simplify_eq; try exact Hs;
      apply tracker_showPumpDetails_ok, Hs.
  - unfold Tracker.handleNavigation, showNearestPumpForUpdate, Tracker.showUpdateModal, showFavorites.
    repeat case_match; exact Hs.
Qed.

Lemma treachable_heap_ok (cd : Q -> Q -> Q -> Q -> Q) (st : Storage) (s : App) :
  treachable cd st s -> heap_ok s.
Proof. induction 1; [apply tracker_init_ok | apply tstep_heap_ok; assumption]. Qed.

(** C17. In every reachable state of [CNGTrackerApp] each card of the
    list, whatever the sort and the filter, shows a queue text whose
    emoji agrees with the colour class of its badge: no data is gray,
    no queue or a green dot is green, a yellow dot yellow and a red dot
    red.  The badge is [pump.queueStatus] and the text is computed from
    [pump.queueLength] by [getQueueText]; they agree because every
    write of a reading sets both together. *)
Theorem treachable_cards_agree (cd : Q -> Q -> Q -> Q -> Q) (st : Storage) (s : App)
    (now : Instant) (sortBy f : string) (c : TCard) :
  treachable cd st s -> c ∈ renderList now sortBy f s -> emoji_agrees (tc_status c) (tc_queue c) = true.
Proof.
  intros Hr Hc. unfold renderList in Hc. apply list_elem_of_fmap in Hc as (p & -> & Hp).
  unfold updatePumpsList in Hp. rewrite (sort_by_perm (sort_key sortBy)) in Hp.
  apply status_filter_spec in Hp as [Hp _]. unfold pump_objects in Hp.
  apply list_elem_of_omap in Hp as (r & _ & Hr').
  pose proof (heap_good_lookup s r p (treachable_heap_ok cd st s Hr) Hr') as Hcons. cbn [createPumpCard tc_status tc_queue].
  rewrite (status_consistent_spec p Hcons). destruct (queueLength p) as [q|]; [|reflexivity].
  unfold getQueueText, statusOfQueue.
  destruct (Qeq_bool q 0) eqn:E0;
    [apply Qeq_bool_eq in E0; rewrite (proj2 (Qle_bool_iff q 5)) by lra; reflexivity|].
  repeat case_qbool; reflexivity.
Qed.

(** C38. [CNGTrackerApp] binds each marker's popup once, in [init], and
    never redraws it (no handler calls [bindPopup] or
    [setPopupContent]): in every reachable state the popups are those
    [init] rendered, so after any queue report the popup still shows the
    sample reading while the marker's colour shows the new one. *)
Theorem tracker_popups_frozen (cd : Q -> Q -> Q -> Q -> Q) (st : Storage) (s : App) :
  treachable cd st s -> exists t, forall id, popup_of s id = popup_of (Tracker.init t (constructor st)) id.
Proof.
  induction 1 as [t|s now e _ [t IH]]; exists t; [reflexivity|]. intros id. rewrite <- IH. unfold popup_of.
  f_equal. f_equal. clear IH.
  destruct e; cbn [tstep].
  - exact (updateDistances_popups cd (set_location s (Some loc))).
  - unfold Tracker.centerOnUserLocation. destruct (userLocation s); reflexivity.
  - case_bool_decide; [apply showPumpDetails_popups | reflexivity].
  - apply showPumpDetails_popups.
  - unfold Tracker.showUpdateModal. destruct (selectedPump s); reflexivity.
  - unfold Tracker.submitQueueUpdate. repeat case_match; reflexivity.
  - unfold Tracker.toggleFavorite. repeat case_match; simplify_eq; try reflexivity;
      rewrite showPumpDetails_popups; reflexivity.
  - unfold Tracker.handleNavigation, showNearestPumpForUpdate, Tracker.showUpdateModal, showFavorites.
    repeat case_match; reflexivity.
Qed.

(** The page after [init] on which pump_001 (3 vehicles) was reported
    at 20. *)
Definition reported_demo : App :=
  outcome_state (tstep zero_distance thursday_2pm (TSubmitUpdate (Some 20%Z)) Tracker.tracker_demo).

Lemma tracker_popups_frozen_witness :
  treachable zero_distance empty_storage reported_demo /\
  (exists t, forall id, popup_of reported_demo id = popup_of (Tracker.init t (constructor empty_storage)) id) /\
  option_map tp_queue (popup_of reported_demo "pump_001") = Some (GreenVehicles 3) /\
  icon_color_of reported_demo "pump_001" = Some "#F44336".
Proof.
  assert (Hr : treachable zero_distance empty_storage reported_demo) by (apply tr_step, tr_step, tr_init).
  split; [exact Hr|]. split; [exact (tracker_popups_frozen _ _ _ Hr)|].
  split; vm_compute; reflexivity.
Defined.

(** The report of 20 on pump_001: among the red cards sorted by name
    the first is pump_001 with its red dot. *)
Lemma treachable_cards_agree_witness :
  treachable zero_distance empty_storage reported_demo /\
  exists c, hd_error (renderList thursday_2pm "name" "red" reported_demo) = Some c /\
    c ∈ renderList thursday_2pm "name" "red" reported_demo /\ tc_id c = "pump_001" /\
    emoji_agrees (tc_status c) (tc_queue c) = true.
Proof.
  assert (Hr : treachable zero_distance empty_storage reported_demo) by (apply tr_step, tr_step, tr_init).
  split; [exact Hr|].
  destruct (hd_error (renderList thursday_2pm "name" "red" reported_demo)) as [c|] eqn:Hh;
    [|vm_compute in Hh; discriminate].
  assert (Hc : c ∈ renderList thursday_2pm "name" "red" reported_demo).
  { revert Hh. destruct (renderList thursday_2pm "name" "red" reported_demo) as [|c' l]; [discriminate|].
    intros Hh. injection Hh as ->. left. }
  exists c. split; [reflexivity|]. split; [exact Hc|]. split.
  - vm_compute in Hh. injection Hh as <-. reflexivity.
  - exact (treachable_cards_agree _ _ _ _ _ _ _ Hr Hc).
Defined.

End TrackerView.
